(** * Birthday-Reminder-Bot: the reminder scheduling core of [main.py]

    A shallow embedding of the calendar utility ([get_next_birthday]), the
    reminder orchestrator ([schedule_reminders], [remove_scheduled_reminders],
    [remove_specific_reminder]) and the handlers that drive them
    ([process_confirm], [process_confirm_delete], [process_settings_value]),
    followed by the properties of the specification that concern them; then
    the ages ([calculate_age], [calculate_age_on_date]), the handlers
    [process_date], [process_time] and [cmd_list], the start-up loop of
    [main] and the message composer [generate_congrats], with further
    properties of all of these.

    Conventions.
    - A Python [datetime] is the record of its wall-clock fields.  Every
      local datetime of the program carries the one module-level object
      [MOSCOW_TZ]; Python compares two aware datetimes that share their
      [tzinfo] object field by field, and that is [dt_cmp].  Run dates of
      jobs are wall-clock fields in UTC.
    - A [timedelta] is its total number of microseconds.
    - The SQLite table [birthdays] is the list of its rows in rowid order.
    - The APScheduler job store is a finite map from job id to job;
      [add_job] and [remove_job] follow APScheduler 3.x (the API the
      program imports) for a scheduler that is running, as [main] starts it
      before any job is added: [add_job] without [replace_existing=True]
      raises [ConflictingIdError] on a taken id, [remove_job] raises
      [JobLookupError] on an unknown one.
    - Python code that raises is a computation in the monad [M], which
      keeps the effects that happened before the exception.
    - The clock stands still while a handler runs: a handler that reads it
      more than once ([process_time], [process_confirm], [cmd_list]) gets
      the one value [now] at every reading.
    - A handler runs from start to end without the scheduler taking a turn,
      except in [process_confirm_delete_awaiting], which lets the scheduler
      run where the handler awaits its commit.
    - Texts are strings of bytes.  [strip], [int], [strptime] and the time
      format are those of Python on texts of ASCII characters; on other
      texts Python also takes the digits and the white space of other
      scripts, which these definitions reject. *)

From Stdlib Require Import ZArith Lia Ascii Sorted.
From stdpp Require Import base option list strings pretty gmap.

Local Open Scope Z_scope.

(** ** Exceptions and results *)

Inductive exn : Type :=
  | ValueError
  | OverflowError
  | ConflictingIdError
  | JobLookupError
  | OtherError (class_name : string).   (* an exception of another class *)

Inductive result (A : Type) : Type :=
  | Ok (a : A)
  | Raise (e : exn).
Arguments Ok {A} a.
Arguments Raise {A} e.

Definition rbind {A B} (r : result A) (k : A → result B) : result B :=
  match r with
  | Ok a => k a
  | Raise e => Raise e
  end.

(** ** The calendar of Python's [datetime] module *)

Record datetime : Type := mkdt {
  year : Z; month : Z; day : Z;
  hour : Z; minute : Z; second : Z; microsecond : Z
}.

Definition MINYEAR : Z := 1.
Definition MAXYEAR : Z := 9999.
Definition _MAXORDINAL : Z := 3652059.

Definition _is_leap (y : Z) : bool :=
  (y mod 4 =? 0) && (negb (y mod 100 =? 0) || (y mod 400 =? 0)).

Definition _DAYS_IN_MONTH (m : Z) : Z :=
  match m with
  | 1 => 31 | 2 => 28 | 3 => 31 | 4 => 30 | 5 => 31 | 6 => 30
  | 7 => 31 | 8 => 31 | 9 => 30 | 10 => 31 | 11 => 30 | 12 => 31
  | _ => -1
  end.

Definition _DAYS_BEFORE_MONTH (m : Z) : Z :=
  match m with
  | 1 => 0 | 2 => 31 | 3 => 59 | 4 => 90 | 5 => 120 | 6 => 151
  | 7 => 181 | 8 => 212 | 9 => 243 | 10 => 273 | 11 => 304 | 12 => 334
  | _ => -1
  end.

Definition _days_before_year (y : Z) : Z :=
  let y := y - 1 in y * 365 + y / 4 - y / 100 + y / 400.

Definition _days_in_month (y m : Z) : Z :=
  if (m =? 2) && _is_leap y then 29 else _DAYS_IN_MONTH m.

Definition _days_before_month (y m : Z) : Z :=
  _DAYS_BEFORE_MONTH m + (if (2 <? m) && _is_leap y then 1 else 0).

Definition _ymd2ord (y m d : Z) : Z :=
  _days_before_year y + _days_before_month y m + d.

Definition _DI400Y : Z := 146097.
Definition _DI100Y : Z := 36524.
Definition _DI4Y : Z := 1461.

(** Month and day of the [n]-th day (from 0) of a year. *)
Definition _ord2md (leapyear : bool) (n : Z) : Z * Z :=
  let month := Z.shiftr (n + 50) 5 in
  let preceding :=
    _DAYS_BEFORE_MONTH month + (if (2 <? month) && leapyear then 1 else 0) in
  if n <? preceding then
    let month := month - 1 in
    let preceding :=
      preceding - (_DAYS_IN_MONTH month
                   + (if (month =? 2) && leapyear then 1 else 0)) in
    (month, n - preceding + 1)
  else (month, n - preceding + 1).

Definition _ord2ymd (n : Z) : Z * Z * Z :=
  let n := n - 1 in
  let n400 := n / _DI400Y in
  let n := n mod _DI400Y in
  let y := n400 * 400 + 1 in
  let n100 := n / _DI100Y in
  let n := n mod _DI100Y in
  let n4 := n / _DI4Y in
  let n := n mod _DI4Y in
  let n1 := n / 365 in
  let n := n mod 365 in
  let y := y + n100 * 100 + n4 * 4 + n1 in
  if (n1 =? 4) || (n100 =? 4) then (y - 1, 12, 31)
  else
    let leapyear := (n1 =? 3) && (negb (n4 =? 24) || (n100 =? 3)) in
    let '(m, d) := _ord2md leapyear n in (y, m, d).

(** [_check_date_fields] and [_check_time_fields]. *)
Definition _check_date_fields (y m d : Z) : bool :=
  (MINYEAR <=? y) && (y <=? MAXYEAR) && (1 <=? m) && (m <=? 12)
  && (1 <=? d) && (d <=? _days_in_month y m).

Definition _check_time_fields (h mi s us : Z) : bool :=
  (0 <=? h) && (h <=? 23) && (0 <=? mi) && (mi <=? 59)
  && (0 <=? s) && (s <=? 59) && (0 <=? us) && (us <=? 999999).

(** The constructor [datetime(y, m, d, h, mi, s, us)]: [ValueError] on a
    field out of range. *)
Definition datetime_new (y m d h mi s us : Z) : result datetime :=
  if _check_date_fields y m d && _check_time_fields h mi s us
  then Ok (mkdt y m d h mi s us)
  else Raise ValueError.

(** [dt.replace(year=y)]. *)
Definition replace_year (dt : datetime) (y : Z) : result datetime :=
  datetime_new y (month dt) (day dt) (hour dt) (minute dt) (second dt)
    (microsecond dt).

(** [dt.replace(year=y, hour=h, minute=mi, second=0, tzinfo=MOSCOW_TZ)]. *)
Definition replace_year_time (dt : datetime) (y h mi : Z) : result datetime :=
  datetime_new y (month dt) (day dt) h mi 0 (microsecond dt).

(** Comparison of two datetimes that share their [tzinfo]. *)
Definition lex (c1 c2 : comparison) : comparison :=
  match c1 with Eq => c2 | _ => c1 end.

Definition dt_cmp (a b : datetime) : comparison :=
  lex (year a ?= year b) (lex (month a ?= month b) (lex (day a ?= day b)
  (lex (hour a ?= hour b) (lex (minute a ?= minute b)
  (lex (second a ?= second b) (microsecond a ?= microsecond b)))))).

Definition dt_ltb (a b : datetime) : bool :=
  match dt_cmp a b with Lt => true | _ => false end.
Definition dt_leb (a b : datetime) : bool :=
  match dt_cmp a b with Gt => false | _ => true end.

(** *** [timedelta] arithmetic *)

Definition timedelta : Type := Z.

Definition td_days (n : Z) : timedelta := n * 86400000000.
Definition td_hours (n : Z) : timedelta := n * 3600000000.
Definition td_seconds (n : Z) : timedelta := n * 1000000.

Definition toordinal (dt : datetime) : Z :=
  _ymd2ord (year dt) (month dt) (day dt).

(** [timedelta(self.toordinal(), hours=..., minutes=..., seconds=...,
    microseconds=...)] as microseconds. *)
Definition dt_to_delta (dt : datetime) : timedelta :=
  (((toordinal dt * 24 + hour dt) * 60 + minute dt) * 60 + second dt)
  * 1000000 + microsecond dt.

(** [datetime.__add__]: the sum is normalised into days, seconds and
    microseconds; [OverflowError] when the day is not an ordinal. *)
Definition dt_add (dt : datetime) (td : timedelta) : result datetime :=
  let delta := dt_to_delta dt + td in
  let days := delta / 86400000000 in
  let rest := delta mod 86400000000 in
  let seconds := rest / 1000000 in
  let us := rest mod 1000000 in
  let h := seconds / 3600 in
  let rem := seconds mod 3600 in
  let mi := rem / 60 in
  let s := rem mod 60 in
  if (0 <? days) && (days <=? _MAXORDINAL) then
    let '(y, m, d) := _ord2ymd days in Ok (mkdt y m d h mi s us)
  else Raise OverflowError.

Definition dt_sub (dt : datetime) (td : timedelta) : result datetime :=
  dt_add dt (- td).

(** ** Parsing: [datetime.strptime(s, '%d.%m.%Y')] and [int]

    Strings are byte strings; the parsers cover ASCII digits and ASCII
    white space, and reject every other byte where Python would also
    accept the digits and spaces of other scripts. *)

Definition chars (s : string) : list ascii := String.list_ascii_of_string s.

Definition digit (c : ascii) : option Z :=
  let n := Z.of_N (N_of_ascii c) in
  if (48 <=? n) && (n <=? 57) then Some (n - 48) else None.

Definition is_space (c : ascii) : bool :=
  let n := Z.of_N (N_of_ascii c) in
  ((9 <=? n) && (n <=? 13)) || ((28 <=? n) && (n <=? 32)).

(** A regular expression as the list of its matches on a prefix of the
    input, in the priority order of a backtracking matcher; each match
    gives the value read and the rest of the input. *)
Definition re (A : Type) : Type := list ascii → list (A * list ascii).

Definition re_digit (lo hi : Z) : re Z := λ s,
  match s with
  | c :: rest =>
      match digit c with
      | Some v => if (lo <=? v) && (v <=? hi) then [(v, rest)] else []
      | None => []
      end
  | [] => []
  end.

Definition re_lit (c : ascii) : re unit := λ s,
  match s with
  | c' :: rest => if decide (c = c') then [((), rest)] else []
  | [] => []
  end.

Definition re_seq {A B C} (f : A → B → C) (p : re A) (q : re B) : re C := λ s,
  '(a, s1) ← p s; '(b, s2) ← q s1; [(f a b, s2)].

Definition re_alt {A} (ps : list (re A)) : re A := λ s, p ← ps; p s.

Definition two_digits (a b : Z) : Z := 10 * a + b.

(** [%d]: [3[0-1]|[1-2]\d|0[1-9]|[1-9]| [1-9]]. *)
Definition re_d : re Z :=
  re_alt [ re_seq two_digits (re_digit 3 3) (re_digit 0 1);
           re_seq two_digits (re_digit 1 2) (re_digit 0 9);
           re_seq two_digits (re_digit 0 0) (re_digit 1 9);
           re_digit 1 9;
           re_seq (λ _ v, v) (re_lit " "%char) (re_digit 1 9) ].

(** [%m]: [1[0-2]|0[1-9]|[1-9]]. *)
Definition re_m : re Z :=
  re_alt [ re_seq two_digits (re_digit 1 1) (re_digit 0 2);
           re_seq two_digits (re_digit 0 0) (re_digit 1 9);
           re_digit 1 9 ].

(** [%Y]: [\d\d\d\d]. *)
Definition re_Y : re Z :=
  re_seq two_digits
    (re_seq two_digits (re_seq two_digits (re_digit 0 9) (re_digit 0 9))
       (re_digit 0 9))
    (re_digit 0 9).

(** The format ['%d.%m.%Y']. *)
Definition re_dmY : re (Z * Z * Z) :=
  re_seq (λ dm y, (dm.1, dm.2, y))
    (re_seq (λ d m, (d, m)) (re_seq (λ d _, d) re_d (re_lit "."%char))
       (re_seq (λ m _, m) re_m (re_lit "."%char)))
    re_Y.

(** [datetime.strptime(data_string, '%d.%m.%Y')]: the first match of the
    format on a prefix, [ValueError] when there is none, when input
    remains after it or when the fields are not a date. *)
Definition strptime (data_string : string) : result datetime :=
  match re_dmY (chars data_string) with
  | ((d, m, y), []) :: _ => datetime_new y m d 0 0 0 0
  | _ => Raise ValueError
  end.

(** [s.split(sep)] for a one-character separator. *)
Fixpoint split_chars (sep : ascii) (s : list ascii) : list (list ascii) :=
  match s with
  | [] => [[]]
  | c :: rest =>
      if decide (c = sep) then [] :: split_chars sep rest
      else match split_chars sep rest with
           | w :: ws => (c :: w) :: ws
           | [] => [[c]]
           end
  end.

Fixpoint lstrip_chars (s : list ascii) : list ascii :=
  match s with
  | c :: rest => if is_space c then lstrip_chars rest else s
  | [] => []
  end.

(** [s.strip()]. *)
Definition strip_chars (s : list ascii) : list ascii :=
  reverse (lstrip_chars (reverse (lstrip_chars s))).

Definition strip (s : string) : string :=
  String.string_of_list_ascii (strip_chars (chars s)).

(** The digits of a decimal literal, where single underscores may stand
    between digits. *)
Fixpoint int_digits (acc : Z) (s : list ascii) : option Z :=
  match s with
  | [] => Some acc
  | c :: rest =>
      match digit c with
      | Some v => int_digits (10 * acc + v) rest
      | None =>
          if decide (c = "_"%char) then
            match rest with
            | c' :: _ => if digit c' is Some _ then int_digits acc rest else None
            | [] => None
            end
          else None
      end
  end.

Definition int_unsigned (s : list ascii) : option Z :=
  match s with
  | c :: _ => if digit c is Some _ then int_digits 0 s else None
  | [] => None
  end.

(** The white space [int] skips around a literal: the blank and the
    characters 9 to 13, not the separators 28 to 31 that [str.strip]
    removes. *)
Definition is_int_space (c : ascii) : bool :=
  let n := Z.of_N (N_of_ascii c) in
  ((9 <=? n) && (n <=? 13)) || (n =? 32).

Fixpoint lstrip_int_chars (s : list ascii) : list ascii :=
  match s with
  | c :: rest => if is_int_space c then lstrip_int_chars rest else s
  | [] => []
  end.

Definition strip_int_chars (s : list ascii) : list ascii :=
  reverse (lstrip_int_chars (reverse (lstrip_int_chars s))).

(** [int(s)] on a string: white space is skipped, a sign is allowed. *)
Definition int_chars (s : list ascii) : result Z :=
  let s := strip_int_chars s in
  let r := match s with
           | c :: rest =>
               if decide (c = "-"%char) then Z.opp <$> int_unsigned rest
               else if decide (c = "+"%char) then int_unsigned rest
               else int_unsigned s
           | [] => None
           end in
  match r with Some v => Ok v | None => Raise ValueError end.

(** [hour, minute = map(int, reminder_time.split(':'))]: the unpacking
    raises [ValueError] unless there are exactly two parts. *)
Definition parse_hour_minute (reminder_time : string) : result (Z * Z) :=
  match split_chars ":"%char (chars reminder_time) with
  | [h; m] =>
      rbind (int_chars h) (λ hour,
      rbind (int_chars m) (λ minute, Ok (hour, minute)))
  | _ => Raise ValueError
  end.

(** [re.match(r'^\d{1,2}:\d{2}$', text)]: [$] also matches before a final
    newline. *)
Definition match_time_format (text : string) : bool :=
  let digits12 : re unit :=
    re_alt [ re_seq (λ _ _, ()) (re_digit 0 9) (re_digit 0 9);
             re_seq (λ _ _, ()) (re_digit 0 9) (λ s, [((), s)]) ] in
  let p := re_seq (λ _ _, ()) digits12
             (re_seq (λ _ _, ()) (re_lit ":"%char)
                (re_seq (λ _ _, ()) (re_digit 0 9) (re_digit 0 9))) in
  existsb (λ '(_, rest),
             match rest with
             | [] => true
             | [c] => bool_decide (c = "010"%char)
             | _ => false
             end) (p (chars text)).

(** ** The store: table [birthdays] *)

Record Row : Type := mkRow {
  c_user_id : Z;
  c_chat_id : Z;
  c_name : string;
  c_birthdate : string;
  c_description : option string;
  c_telegram_username : option string;
  c_reminder_time : string;
  c_remind_3_days : Z;
  c_remind_1_day : Z;
  c_remind_day : Z
}.

(** [WHERE name = ? AND chat_id = ?] and [WHERE name = ? AND user_id = ?]. *)
Definition by_name_chat (name : string) (chat_id : Z) (r : Row) : bool :=
  bool_decide (c_name r = name) && bool_decide (c_chat_id r = chat_id).
Definition by_name_user (name : string) (user_id : Z) (r : Row) : bool :=
  bool_decide (c_name r = name) && bool_decide (c_user_id r = user_id).

(** [cursor.fetchone()] of a [SELECT ... WHERE]. *)
Definition fetchone (p : Row → bool) (table : list Row) : option Row :=
  List.find p table.

(** [DELETE FROM birthdays WHERE ...]. *)
Definition sql_delete (p : Row → bool) (table : list Row) : list Row :=
  List.filter (λ r, negb (p r)) table.

(** [UPDATE birthdays SET ... WHERE ...]. *)
Definition sql_update (p : Row → bool) (f : Row → Row) (table : list Row)
  : list Row :=
  List.map (λ r, if p r then f r else r) table.

Definition set_reminder_time (t : string) (r : Row) : Row :=
  mkRow (c_user_id r) (c_chat_id r) (c_name r) (c_birthdate r)
    (c_description r) (c_telegram_username r) t
    (c_remind_3_days r) (c_remind_1_day r) (c_remind_day r).

Definition set_flags (r3d r1d rd : Z) (r : Row) : Row :=
  mkRow (c_user_id r) (c_chat_id r) (c_name r) (c_birthdate r)
    (c_description r) (c_telegram_username r) (c_reminder_time r)
    r3d r1d rd.

Definition set_description (d : option string) (r : Row) : Row :=
  mkRow (c_user_id r) (c_chat_id r) (c_name r) (c_birthdate r)
    d (c_telegram_username r) (c_reminder_time r)
    (c_remind_3_days r) (c_remind_1_day r) (c_remind_day r).

(** ** Scheduler jobs *)

(** The callable of a job with its [args]. *)
Inductive Call : Type :=
  | call_send_reminder (chat_id : Z) (text : string)
  | call_send_birthday_notification
      (chat_id : Z) (name : string) (telegram_username : option string)
  | call_send_congrats_message
      (chat_id : Z) (name birthdate_str : string) (description : option string)
  | call_schedule_reminders
      (name birthdate_str : string) (chat_id : Z) (reminder_time : string)
      (telegram_username : option string).

(** A job with a [DateTrigger]: [run_date] is in UTC. *)
Record Job : Type := mkJob { func : Call; run_date : datetime }.

(** ** The world the program runs in *)

Record World : Type := mkWorld {
  db : list Row;                 (* the committed table [birthdays] *)
  scheduler : gmap string Job;   (* the job store of [scheduler] *)
  now : datetime;                (* the wall clock read by [get_moscow_now] *)
  outbox : list (Z * string)     (* messages sent, oldest first *)
}.

Definition with_db (f : list Row → list Row) (w : World) : World :=
  mkWorld (f (db w)) (scheduler w) (now w) (outbox w).
Definition with_scheduler (f : gmap string Job → gmap string Job) (w : World)
  : World :=
  mkWorld (db w) (f (scheduler w)) (now w) (outbox w).
Definition with_now (t : datetime) (w : World) : World :=
  mkWorld (db w) (scheduler w) t (outbox w).
Definition with_outbox (f : list (Z * string) → list (Z * string)) (w : World)
  : World :=
  mkWorld (db w) (scheduler w) (now w) (f (outbox w)).

(** ** Computations: state with exceptions *)

Definition M (A : Type) : Type := World → result A * World.

Global Instance M_ret : MRet M := λ A a w, (Ok a, w).
Global Instance M_bind : MBind M := λ A B k m w,
  match m w with
  | (Ok a, w') => k a w'
  | (Raise e, w') => (Raise e, w')
  end.

Definition lift {A} (r : result A) : M A := λ w, (r, w).
Definition gets {A} (f : World → A) : M A := λ w, (Ok (f w), w).
Definition modify (f : World → World) : M unit := λ w, (Ok (), f w).

(** [try: m except: pass]. *)
Definition try_except_pass (m : M unit) : M unit := λ w, (Ok (), (m w).2).

(** [for x in xs: body(x)]. *)
Fixpoint for_each {A} (xs : list A) (body : A → M unit) : M unit :=
  match xs with
  | [] => mret ()
  | x :: xs => body x ;; for_each xs body
  end.

(** Truth value of an [int]. *)
Definition truthy (x : Z) : bool := negb (x =? 0).

Definition nl : string := String "010"%char "".

(** ** Clock and next occurrence *)

Definition get_moscow_now : M datetime := gets now.

Definition get_next_birthday (birthdate_str reminder_time : string)
  : M datetime :=
  birthdate ← lift (strptime birthdate_str);
  '(hour, minute) ← lift (parse_hour_minute reminder_time);
  now ← get_moscow_now;
  this_year_birth ← lift (replace_year_time birthdate (year now) hour minute);
  if dt_ltb this_year_birth now
  then lift (replace_year this_year_birth (year now + 1))
  else mret this_year_birth.

(** ** Ages *)

(** [(a1, a2) < (b1, b2)] on pairs of integers. *)
Definition pair_ltb (a1 a2 b1 b2 : Z) : bool :=
  (a1 <? b1) || ((a1 =? b1) && (a2 <? b2)).

(** An [int] minus a [bool]. *)
Definition sub_bool (x : Z) (b : bool) : Z := x - (if b then 1 else 0).

Definition calculate_age (birthdate_str : string) : M Z :=
  birthdate ← lift (strptime birthdate_str);
  today ← get_moscow_now;
  let age :=
    sub_bool (year today - year birthdate)
      (pair_ltb (month today) (day today) (month birthdate) (day birthdate)) in
  mret age.

Definition calculate_age_on_date (birthdate_str : string)
    (target_date : datetime) : result Z :=
  rbind (strptime birthdate_str) (λ birthdate,
    let age :=
      sub_bool (year target_date - year birthdate)
        (pair_ltb (month target_date) (day target_date)
           (month birthdate) (day birthdate)) in
    Ok age).

(** ** The scheduler *)

(** [scheduler.add_job(func, DateTrigger(run_date=run_date), id=job_id,
    args=...)], with [replace_existing] left at its default [False]. *)
Definition add_job (call : Call) (run_date : datetime) (job_id : string)
  : M unit := λ w,
  match scheduler w !! job_id with
  | Some _ => (Raise ConflictingIdError, w)
  | None => (Ok (), with_scheduler (insert job_id (mkJob call run_date)) w)
  end.

(** [scheduler.remove_job(job_id)]. *)
Definition remove_job (job_id : string) : M unit := λ w,
  match scheduler w !! job_id with
  | Some _ => (Ok (), with_scheduler (delete job_id) w)
  | None => (Raise JobLookupError, w)
  end.

(** The f-string [f"{chat_id}_{name}_{kind}"]. *)
Definition job_id_of (chat_id : Z) (name kind : string) : string :=
  pretty chat_id +:+ "_" +:+ name +:+ "_" +:+ kind.

(** [bot.send_message(chat_id, text)]; delivery is taken to succeed. *)
Definition bot_send_message (chat_id : Z) (text : string) : M unit :=
  modify (with_outbox (λ o, o ++ [(chat_id, text)])).

Section Bot.

(** [MOSCOW_TZ.utcoffset(dt)], from the time zone database, and the
    message composer [generate_congrats(name, birthdate_str, description)]
    at a reading of the clock, with its random choices. *)
Variable utcoffset : datetime → timedelta.
Variable generate_congrats :
  datetime → string → string → option string → result string.
(** [str.lower]. *)
Variable str_lower : string → string.

(** [dt.astimezone(ZoneInfo("UTC"))] for a datetime in [MOSCOW_TZ]. *)
Definition astimezone_utc (dt : datetime) : result datetime :=
  dt_sub dt (utcoffset dt).

Definition send_reminder (chat_id : Z) (text : string) : M unit :=
  bot_send_message chat_id text.

Definition send_birthday_notification
    (chat_id : Z) (name : string) (telegram_username : option string)
  : M unit :=
  let profile_link :=
    match telegram_username with
    | Some u =>
        if bool_decide (u = "") then ""
        else nl +:+ nl +:+ "🔗 Можете поздравить здесь: @" +:+ u
    | None => ""
    end in
  let message :=
    "🎉 <b>Сегодня день рождения у " +:+ name +:+ "!</b>" +:+ profile_link
    +:+ nl +:+ nl +:+ "👇 Вот готовое поздравление:" in
  bot_send_message chat_id message.

Definition send_congrats_message
    (chat_id : Z) (name birthdate_str : string) (description : option string)
  : M unit :=
  today ← get_moscow_now;
  congrats ← lift (generate_congrats today name birthdate_str description);
  let message :=
    congrats +:+ nl +:+ nl +:+ "💌 <i>Это сообщение можно отправить "
    +:+ name +:+ " для поздравления!</i>" in
  bot_send_message chat_id message.

(** ** The orchestrator *)

Definition schedule_reminders
    (name birthdate_str : string) (chat_id : Z) (reminder_time : string)
    (telegram_username : option string) : M unit :=
  settings_row ← gets (λ w, fetchone (by_name_chat name chat_id) (db w));
  match settings_row with
  | None => mret ()
  | Some row =>
    let remind_3d := c_remind_3_days row in
    let remind_1d := c_remind_1_day row in
    let remind_day := c_remind_day row in
    next_birthday ← get_next_birthday birthdate_str reminder_time;
    (if truthy remind_3d then
       reminder_3d ← lift (dt_sub next_birthday (td_days 3));
       let job_id := job_id_of chat_id name "3d" in
       reminder_utc ← lift (astimezone_utc reminder_3d);
       add_job
         (call_send_reminder chat_id
            ("⏰ Напоминание: Через 3 дня у " +:+ name +:+ " день рождения!"))
         reminder_utc job_id
     else mret ());;
    (if truthy remind_1d then
       reminder_1d ← lift (dt_sub next_birthday (td_days 1));
       let job_id := job_id_of chat_id name "1d" in
       reminder_utc ← lift (astimezone_utc reminder_1d);
       add_job
         (call_send_reminder chat_id
            ("⏰ Напоминание: Завтра у " +:+ name +:+ " день рождения!"))
         reminder_utc job_id
     else mret ());;
    (if truthy remind_day then
       let job_id := job_id_of chat_id name "day_notification" in
       birthday_utc ← lift (astimezone_utc next_birthday);
       add_job (call_send_birthday_notification chat_id name telegram_username)
         birthday_utc job_id;;
       let job_id := job_id_of chat_id name "day_congrats" in
       congrats_time ← lift (dt_add birthday_utc (td_seconds 2));
       description_row ←
         gets (λ w, fetchone (by_name_chat name chat_id) (db w));
       let description :=
         match description_row with
         | Some r => c_description r
         | None => None
         end in
       add_job (call_send_congrats_message chat_id name birthdate_str description)
         congrats_time job_id
     else mret ());;
    next_year_birthday ←
      lift (replace_year next_birthday (year next_birthday + 1));
    let job_id := job_id_of chat_id name "annual" in
    next_year_utc ← lift (astimezone_utc next_year_birthday);
    run_date ← lift (dt_add next_year_utc (td_days 1));
    add_job
      (call_schedule_reminders name birthdate_str chat_id reminder_time
         telegram_username)
      run_date job_id
  end.

Definition remove_scheduled_reminders (chat_id : Z) (name : string) : M unit :=
  let job_ids :=
    [ job_id_of chat_id name "3d";
      job_id_of chat_id name "1d";
      job_id_of chat_id name "day_notification";
      job_id_of chat_id name "day_congrats";
      job_id_of chat_id name "annual" ] in
  for_each job_ids (λ job_id, try_except_pass (remove_job job_id)).

Definition remove_specific_reminder
    (chat_id : Z) (name reminder_type : string) : M unit :=
  let job_id := job_id_of chat_id name reminder_type in
  try_except_pass (remove_job job_id).

(** ** Firing

    When the scheduler wakes up it takes a job whose run date has passed
    out of the store (a [DateTrigger] has no further run) and hands it to
    the executor, which runs the call unless the run date is more than
    [misfire_grace_time] (one second, the default) in the past; an
    exception of the call is logged and dropped. *)

Definition run_call (c : Call) : M unit :=
  match c with
  | call_send_reminder chat_id text => send_reminder chat_id text
  | call_send_birthday_notification chat_id name telegram_username =>
      send_birthday_notification chat_id name telegram_username
  | call_send_congrats_message chat_id name birthdate_str description =>
      send_congrats_message chat_id name birthdate_str description
  | call_schedule_reminders name birthdate_str chat_id reminder_time
      telegram_username =>
      schedule_reminders name birthdate_str chat_id reminder_time
        telegram_username
  end.

Definition misfire_grace_time : timedelta := td_seconds 1.

Definition fire (job_id : string) (w : World) : World :=
  match scheduler w !! job_id, astimezone_utc (now w) with
  | Some job, Ok utcnow =>
      let late := dt_to_delta utcnow - dt_to_delta (run_date job) in
      if 0 <=? late then
        let w' := with_scheduler (delete job_id) w in
        if late <=? misfire_grace_time then (run_call (func job) w').2
        else w'
      else w
  | _, _ => w
  end.

(** ** Handlers

    A handler gets the message and the data of the conversation state and
    returns the data the state holds afterwards, [None] once the state is
    cleared.  A statement group ending in [db.commit()] changes the
    committed table in one step. *)

Record Message : Type := mkMessage {
  m_text : string;
  m_from_user_id : Z;
  m_chat_id : Z
}.

(** [message.answer(text)]. *)
Definition answer (message : Message) (text : string) : M unit :=
  bot_send_message (m_chat_id message) text.

(** [(a - b).days] for two datetimes of one time zone. *)
Definition days_between (a b : datetime) : Z :=
  (dt_to_delta a - dt_to_delta b) / 86400000000.

(** *** Adding: [process_confirm] *)

Record AddData : Type := mkAddData {
  a_name : string;
  a_birthdate : string;
  a_description : option string;
  a_telegram_username : option string;
  a_reminder_time : string
}.

Definition process_confirm (message : Message) (user_data : AddData)
  : M (option AddData) :=
  if bool_decide (m_text message = "✅ Да, сохранить") then
    existing ← gets (λ w,
      fetchone (by_name_chat (a_name user_data) (m_chat_id message)) (db w));
    match existing with
    | Some _ =>
        answer message
          ("⚠️ День рождения для " +:+ a_name user_data +:+ " уже добавлен!"
           +:+ nl +:+ "Используйте /delete чтобы удалить или /settings чтобы изменить.");;
        mret None
    | None =>
        modify (with_db (λ t, t ++
          [mkRow (m_from_user_id message) (m_chat_id message)
             (a_name user_data) (a_birthdate user_data)
             (a_description user_data) (a_telegram_username user_data)
             (a_reminder_time user_data) 1 1 1]));;
        schedule_reminders (a_name user_data) (a_birthdate user_data)
          (m_chat_id message) (a_reminder_time user_data)
          (a_telegram_username user_data);;
        next_birthday ←
          get_next_birthday (a_birthdate user_data) (a_reminder_time user_data);
        today ← get_moscow_now;
        let days_until := days_between next_birthday today in
        answer message
          ("🎉 День рождения " +:+ a_name user_data +:+ " добавлен!" +:+ nl
           +:+ "⏰ Напоминания: " +:+ a_reminder_time user_data +:+ " МСК"
           +:+ nl +:+ "📆 Следующий ДР: через " +:+ pretty days_until
           +:+ " дней");;
        mret None
    end
  else if bool_decide (m_text message = "❌ Нет, отменить") then
    answer message "❌ Добавление отменено.";;
    mret None
  else
    answer message "Пожалуйста, выберите вариант:";;
    mret (Some user_data).

(** *** Deleting: [process_confirm_delete] *)

Definition process_confirm_delete (message : Message) (name_to_delete : string)
  : M unit :=
  if bool_decide (m_text message = "✅ Да, сохранить") then
    modify (with_db
      (sql_delete (by_name_user name_to_delete (m_from_user_id message))));;
    remove_scheduled_reminders (m_chat_id message) name_to_delete;;
    answer message
      ("✅ День рождения " +:+ name_to_delete +:+ " удален." +:+ nl
       +:+ "Все напоминания отменены.")
  else
    answer message "❌ Удаление отменено.".

(** *** Deleting, with the scheduler awake

    The scheduler is an [AsyncIOScheduler]: it wakes up on the event loop
    that runs the handlers, at the points where a handler awaits.
    [process_confirm_delete] awaits [db.commit()] and the closing of the
    connection before it calls [remove_scheduled_reminders]; [wake] lists
    the identifiers the scheduler processes there, in order.  What the
    scheduler does at the awaits before the commit it does in the world
    before the handler, and at [message.answer] in the world after it. *)



(** *** Settings: [process_settings_value] *)

Record SettingsData : Type := mkSettingsData {
  settings_name : string;
  parameter : string;
  s_birthdate : string;
  current_3d : Z;
  current_1d : Z;
  current_day : Z;
  current_username : option string;
  manual_3d : option Z;
  manual_1d : option Z;
  manual_day : option Z
}.

(** [state.update_data(manual_3d=.., manual_1d=.., manual_day=..)]. *)
Definition update_manual (r3d r1d rd : Z) (d : SettingsData) : SettingsData :=
  mkSettingsData (settings_name d) (parameter d) (s_birthdate d)
    (current_3d d) (current_1d d) (current_day d) (current_username d)
    (Some r3d) (Some r1d) (Some rd).

(** [needle in text]. *)
Fixpoint is_prefix (p s : list ascii) : bool :=
  match p, s with
  | [], _ => true
  | a :: p, b :: s => bool_decide (a = b) && is_prefix p s
  | _ :: _, [] => false
  end.
Fixpoint contains (needle s : list ascii) : bool :=
  is_prefix needle s
  || match s with
     | [] => false
     | _ :: rest => contains needle rest
     end.
Definition str_in (needle text : string) : bool :=
  contains (chars needle) (chars text).
Definition startswith (text p : string) : bool :=
  is_prefix (chars p) (chars text).

Definition on_off (flag : Z) (on off : string) : string :=
  if truthy flag then on else off.

(** The branch [parameter == 'time']. *)
Definition settings_time (message : Message) (user_data : SettingsData)
  : M (option SettingsData) :=
  if negb (match_time_format (m_text message)) then
    answer message
      ("❌ Неверный формат времени!" +:+ nl
       +:+ "Пожалуйста, введите время в формате <b>ЧЧ:ММ</b>" +:+ nl
       +:+ "Например: <i>09:00, 10:30, 18:00</i>");;
    mret (Some user_data)
  else
    let time_str := strip (m_text message) in
    let checked :=
      rbind (parse_hour_minute time_str) (λ '(hour, minute),
        if (hour <? 0) || (23 <? hour) || (minute <? 0) || (59 <? minute)
        then Raise ValueError else Ok ()) in
    match checked with
    | Raise _ =>
        answer message
          ("❌ Неверное время!" +:+ nl +:+ "Часы: 0-23, минуты: 0-59");;
        mret (Some user_data)
    | Ok _ =>
        modify (with_db
          (sql_update
             (by_name_user (settings_name user_data) (m_from_user_id message))
             (set_reminder_time time_str)));;
        remove_scheduled_reminders (m_chat_id message)
          (settings_name user_data);;
        schedule_reminders (settings_name user_data) (s_birthdate user_data)
          (m_chat_id message) time_str (current_username user_data);;
        answer message
          ("✅ Время напоминаний для " +:+ settings_name user_data
           +:+ " изменено на " +:+ time_str +:+ " МСК");;
        mret None
    end.

(** The statements of the branch [parameter == 'reminders'] after the
    choice of [r3d], [r1d] and [rd]. *)
Definition save_reminders
    (message : Message) (user_data : SettingsData) (r3d r1d rd : Z)
  : M (option SettingsData) :=
  modify (with_db
    (sql_update
       (by_name_user (settings_name user_data) (m_from_user_id message))
       (set_flags r3d r1d rd)));;
  (if r3d =? 0 then
     remove_specific_reminder (m_chat_id message) (settings_name user_data) "3d"
   else mret ());;
  (if r1d =? 0 then
     remove_specific_reminder (m_chat_id message) (settings_name user_data) "1d"
   else mret ());;
  (if rd =? 0 then
     remove_specific_reminder (m_chat_id message) (settings_name user_data)
       "day_notification";;
     remove_specific_reminder (m_chat_id message) (settings_name user_data)
       "day_congrats"
   else mret ());;
  answer message
    ("✅ Настройки напоминаний для " +:+ settings_name user_data
     +:+ " обновлены:" +:+ nl +:+ nl
     +:+ "• За 3 дня: " +:+ on_off r3d "✅ Включено" "❌ Выключено" +:+ nl
     +:+ "• За 1 день: " +:+ on_off r1d "✅ Включено" "❌ Выключено" +:+ nl
     +:+ "• В день: " +:+ on_off rd "✅ Включено" "❌ Выключено");;
  mret None.

Definition manual_text (user_data : SettingsData) (r3d r1d rd : Z)
    (last : string) : string :=
  "✏️ Ручная настройка для " +:+ settings_name user_data +:+ nl +:+ nl
  +:+ "Текущие настройки:" +:+ nl
  +:+ "• За 3 дня: " +:+ on_off r3d "✅ Вкл" "❌ Выкл" +:+ nl
  +:+ "• За 1 день: " +:+ on_off r1d "✅ Вкл" "❌ Выкл" +:+ nl
  +:+ "• В день: " +:+ on_off rd "✅ Вкл" "❌ Выкл" +:+ nl +:+ nl
  +:+ last.

(** The branch [parameter == 'reminders']. *)
Definition settings_reminders (message : Message) (user_data : SettingsData)
  : M (option SettingsData) :=
  let text := m_text message in
  let manual_r3d := default (current_3d user_data) (manual_3d user_data) in
  let manual_r1d := default (current_1d user_data) (manual_1d user_data) in
  let manual_rd := default (current_day user_data) (manual_day user_data) in
  if bool_decide (text = "✅ Включить все") then
    save_reminders message user_data 1 1 1
  else if bool_decide (text = "❌ Выключить все") then
    save_reminders message user_data 0 0 0
  else if bool_decide (text = "✏️ Настроить вручную") then
    answer message
      (manual_text user_data (current_3d user_data) (current_1d user_data)
         (current_day user_data)
         "Нажмите на кнопку чтобы изменить состояние, затем 'Сохранить'");;
    mret (Some (update_manual (current_3d user_data) (current_1d user_data)
                  (current_day user_data) user_data))
  else if bool_decide (text ∈ ["✅ -3 дня"; "❌ -3 дня"; "✅ -1 день";
                                "❌ -1 день"; "✅ В день"; "❌ В день"]) then
    let chosen := if str_in "✅" text then 1 else 0 in
    let '(r3d, r1d, rd) :=
      if bool_decide (text ∈ ["✅ -3 дня"; "❌ -3 дня"])
      then (chosen, manual_r1d, manual_rd)
      else if bool_decide (text ∈ ["✅ -1 день"; "❌ -1 день"])
      then (manual_r3d, chosen, manual_rd)
      else if bool_decide (text ∈ ["✅ В день"; "❌ В день"])
      then (manual_r3d, manual_r1d, chosen)
      else (manual_r3d, manual_r1d, manual_rd) in
    answer message
      (manual_text user_data r3d r1d rd
         "Нажмите 'Сохранить' чтобы применить изменения");;
    mret (Some (update_manual r3d r1d rd user_data))
  else if bool_decide (text = "✅ Сохранить") then
    save_reminders message user_data manual_r3d manual_r1d manual_rd
  else
    answer message "Пожалуйста, выберите вариант из списка.";;
    mret (Some user_data).

(** The branch [parameter == 'username']. *)
Definition settings_username (message : Message) (user_data : SettingsData)
  : M (option SettingsData) :=
  let new_username :=
    if bool_decide (str_lower (m_text message) = "удалить") then None
    else
      let text := strip (m_text message) in
      if startswith text "@" then Some (String.substring 1 (String.length text) text)
      else Some text in
  modify (with_db
    (sql_update
       (by_name_user (settings_name user_data) (m_from_user_id message))
       (λ r, mkRow (c_user_id r) (c_chat_id r) (c_name r) (c_birthdate r)
               (c_description r) new_username (c_reminder_time r)
               (c_remind_3_days r) (c_remind_1_day r) (c_remind_day r))));;
  (match new_username with
   | Some u =>
       if bool_decide (u = "") then
         answer message
           ("✅ Username для " +:+ settings_name user_data +:+ " удален")
       else
         answer message
           ("✅ Username для " +:+ settings_name user_data +:+ " обновлен: @"
            +:+ u)
   | None =>
       answer message
         ("✅ Username для " +:+ settings_name user_data +:+ " удален")
   end);;
  mret None.

Definition process_settings_value (message : Message) (user_data : SettingsData)
  : M (option SettingsData) :=
  if bool_decide (m_text message = "❌ Отмена") then
    answer message "❌ Настройки отменены.";;
    mret None
  else if bool_decide (parameter user_data = "time") then
    settings_time message user_data
  else if bool_decide (parameter user_data = "reminders") then
    settings_reminders message user_data
  else if bool_decide (parameter user_data = "username") then
    settings_username message user_data
  else
    answer message "Пожалуйста, выберите вариант из списка.";;
    mret (Some user_data).

(** *** Adding: [process_date]

    The handler gets the name the state holds and returns the birthdate it
    stores in the state, [None] when it stores none. *)

(** [try: m except ValueError: h]. *)
Definition try_except_ValueError {A} (m h : M A) : M A := λ w,
  match m w with
  | (Raise ValueError, w') => h w'
  | r => r
  end.

Definition process_date (message : Message) (name : string)
  : M (option string) :=
  try_except_ValueError
    (let date_str := strip (m_text message) in
     _ ← lift (strptime date_str);
     birth_date ← lift (strptime date_str);
     today ← get_moscow_now;
     if dt_ltb today birth_date then
       answer message
         ("⚠️ <b>ОШИБКА:</b> Дата рождения не может быть в будущем!" +:+ nl
          +:+ "Пожалуйста, введите корректную дату:");;
       mret None
     else
       age ← calculate_age date_str;
       answer message
         ("📝 <b>ШАГ 3 ИЗ 6: ДОПОЛНИТЕЛЬНАЯ ИНФОРМАЦИЯ</b>" +:+ nl +:+ nl
          +:+ "<b>Добавляем:</b> " +:+ name +:+ nl
          +:+ "<b>Дата рождения:</b> " +:+ date_str +:+ nl
          +:+ "<b>Сейчас:</b> " +:+ pretty age +:+ " лет" +:+ nl +:+ nl
          +:+ "💡 <b>Зачем нужно описание?</b>" +:+ nl
          +:+ "• Поможет вспомнить, что нравится человеку" +:+ nl
          +:+ "• Можно использовать для выбора подарка" +:+ nl
          +:+ "• Добавит персонализации в поздравления" +:+ nl +:+ nl
          +:+ "Например:" +:+ nl
          +:+ "<i>• Любит кошек и путешествия</i>" +:+ nl
          +:+ "<i>• Увлекается футболом</i>" +:+ nl
          +:+ "<i>• Коллекционирует марки</i>" +:+ nl +:+ nl
          +:+ "Или нажмите 'Пропустить' если не хотите добавлять описание");;
       mret (Some date_str))
    (answer message
       ("❌ <b>НЕВЕРНЫЙ ФОРМАТ ДАТЫ!</b>" +:+ nl
        +:+ "Пожалуйста, введите дату в формате <b>ДД.ММ.ГГГГ</b>" +:+ nl
        +:+ "Например: <i>15.05.1990</i>");;
     mret None).

(** *** Adding: [process_time]

    The handler gets the name, the birthdate, the description and the
    username the state holds and returns the reminder time with which the
    state moves on to the confirmation, [None] when it stays. *)
Definition process_time (message : Message) (name birthdate : string)
    (description telegram_username : option string) : M (option string) :=
  let time_str := strip (m_text message) in
  let checked :=
    rbind (parse_hour_minute time_str) (λ '(hour, minute),
      if (hour <? 0) || (23 <? hour) || (minute <? 0) || (59 <? minute)
      then Raise ValueError else Ok ()) in
  match checked with
  | Raise ValueError =>
      answer message
        ("❌ <b>НЕВЕРНОЕ ВРЕМЯ!</b>" +:+ nl
         +:+ "Пожалуйста, введите время в формате <b>ЧЧ:ММ</b>" +:+ nl
         +:+ "Часы: 0-23, минуты: 0-59" +:+ nl
         +:+ "Например: <i>09:00, 10:30, 18:00</i>");;
      mret None
  | Raise e => lift (Raise e)
  | Ok _ =>
      age ← calculate_age birthdate;
      next_birthday ← get_next_birthday birthdate time_str;
      today ← get_moscow_now;
      let days_until := days_between next_birthday today in
      let description_text :=
        match description with
        | Some d => if bool_decide (d = "") then "не указано" else d
        | None => "не указано"
        end in
      let username_text := default "None" telegram_username in
      answer message
        (nl +:+ "✅ <b>ШАГ 6 ИЗ 6: ПОДТВЕРЖДЕНИЕ</b>" +:+ nl +:+ nl
         +:+ "📋 <b>ВСЕ ДАННЫЕ:</b>" +:+ nl
         +:+ "👤 <b>Имя:</b> " +:+ name +:+ nl
         +:+ "📅 <b>Дата рождения:</b> " +:+ birthdate +:+ nl
         +:+ "🎂 <b>Сейчас:</b> " +:+ pretty age +:+ " лет" +:+ nl
         +:+ "📝 <b>Описание:</b> " +:+ description_text +:+ nl
         +:+ "🔗 <b>Username:</b> " +:+ username_text +:+ nl
         +:+ "⏰ <b>Время напоминаний:</b> " +:+ time_str +:+ " (МСК)" +:+ nl
         +:+ "📆 <b>Следующий ДР:</b> через " +:+ pretty days_until
         +:+ " дней" +:+ nl +:+ nl
         +:+ "<b>🎯 ЧТО БУДЕТ ПРОИСХОДИТЬ:</b>" +:+ nl
         +:+ "1. <b>За 3 дня до ДР</b> - напоминание о предстоящем событии"
         +:+ nl
         +:+ "2. <b>За 1 день до ДР</b> - напоминание подготовиться" +:+ nl
         +:+ "3. <b>В сам день рождения</b> - уведомление и готовое поздравление"
         +:+ nl +:+ nl
         +:+ "<b>Сохранить и настроить напоминания?</b>" +:+ nl +:+ "    ");;
      mret (Some time_str)
  end.

(** *** Listing: [cmd_list] *)

(** The rows in the order in which the engine returns them for
    [ORDER BY substr(birthdate, 4, 2) || substr(birthdate, 1, 2)]. *)
Variable order_by_month_day : list Row → list Row.

Definition by_user (user_id : Z) (r : Row) : bool :=
  bool_decide (c_user_id r = user_id).

(** [[f(x) for x in xs]] with a body that can raise. *)
Fixpoint map_M {A B} (f : A → M B) (xs : list A) : M (list B) :=
  match xs with
  | [] => mret []
  | x :: xs => y ← f x; ys ← map_M f xs; mret (y :: ys)
  end.

(** [xs.sort(key=key)]: a stable sort. *)
Fixpoint insert_by {A} (key : A → Z) (x : A) (xs : list A) : list A :=
  match xs with
  | [] => [x]
  | y :: ys => if key x <=? key y then x :: xs else y :: insert_by key x ys
  end.
Definition sort_by {A} (key : A → Z) (xs : list A) : list A :=
  foldr (insert_by key) [] xs.

Definition list_text (r : Row) (days_until age : Z) : string :=
  let profile_link :=
    match c_telegram_username r with
    | Some u => if bool_decide (u = "") then "" else nl +:+ "🔗 Профиль: @" +:+ u
    | None => ""
    end in
  "👤 <b>" +:+ c_name r +:+ "</b>" +:+ nl
  +:+ "📅 Родился: " +:+ c_birthdate r +:+ nl
  +:+ "🎂 Будет: " +:+ pretty age +:+ " лет" +:+ nl
  +:+ "⏰ Напоминание: " +:+ c_reminder_time r +:+ " МСК" +:+ nl
  +:+ (if days_until =? 0 then "📆 <b>🎉 ДЕНЬ РОЖДЕНИЯ СЕГОДНЯ!</b>" +:+ nl
       else if days_until =? 1 then "📆 <b>Завтра!</b>" +:+ nl
       else "📆 Через " +:+ pretty days_until +:+ " дней" +:+ nl)
  +:+ match c_description r with
      | Some d => if bool_decide (d = "") then "" else "📝 " +:+ d +:+ nl
      | None => ""
      end
  +:+ profile_link.

Definition cmd_list (message : Message) : M unit :=
  rows ← gets (λ w,
    order_by_month_day
      (List.filter (by_user (m_from_user_id message)) (db w)));
  match rows with
  | [] =>
      answer message
        ("📭 У вас пока нет добавленных дней рождения." +:+ nl +:+ nl
         +:+ "Добавьте первый день рождения с помощью /add")
  | _ =>
      now_moscow ← get_moscow_now;
      answer message "📋 <b>Ваши дни рождения:</b>";;
      birthdays_with_days ←
        map_M (λ r,
          next_birthday ←
            get_next_birthday (c_birthdate r) (c_reminder_time r);
          let days_until := days_between next_birthday now_moscow in
          age_on_birthday ←
            lift (calculate_age_on_date (c_birthdate r) next_birthday);
          mret (r, days_until, age_on_birthday)) rows;
      for_each (sort_by (λ x, x.1.2) birthdays_with_days)
        (λ '(r, days_until, age), answer message (list_text r days_until age))
  end.

(** *** Start-up: [main]

    The part of [main] between [scheduler.start()] and
    [dp.start_polling(bot)]: every row of the table is armed, in the order
    of the table. *)
Definition main : M unit :=
  rows ← gets db;
  for_each rows (λ r,
    schedule_reminders (c_name r) (c_birthdate r) (c_chat_id r)
      (c_reminder_time r) (c_telegram_username r)).

End Bot.

(** ** The message composer: [generate_congrats]

    [random.choice] returns the element at the index the generator draws;
    the two draws of a call are parameters, read modulo the length of the
    sequence.  [str.format] is followed through literal text, the doubled
    braces and the four replacement fields the call passes values for;
    from any other replacement field on, the text is a parameter as well. *)

Module Composer.

Inductive AgeCategory : Type := child | teen | young_adult | adult | elder.

Definition get_age_category (age : Z) : AgeCategory :=
  if age <? 13 then child
  else if age <? 18 then teen
  else if age <? 26 then young_adult
  else if age <? 60 then adult
  else elder.

Definition CONGRATS_TEMPLATES : list string :=
  [ "🎉 С днем рождения, {name}! Пусть твой {age}-й год будет полон {idea} и приключений! Желаю счастья и удачи во всех начинаниях!";
    "🥳 Ура, {name}! {age} лет — это круто! Желаю море позитива, {gift_idea} и исполнения всех желаний!";
    "🎂 Дорогой {name}, с Днем Рождения! Пусть каждый день будет наполнен радостью и улыбками. Наслаждайся своим праздником!";
    "✨ {name}, поздравляю с {age}-летием! Пусть этот год принесет тебе {idea} и радость! Будь счастлив(а)!";
    "🎈 С Днем Рождения, {name}! {age} лет — прекрасный возраст для {gift_idea} и новых достижений! Удачи во всем!" ].

Definition GIFT_IDEAS (age_category : AgeCategory) : list string :=
  match age_category with
  | child =>
      ["игрушки"; "конструктора Lego"; "книги со сказками"; "велосипед";
       "настольные игры"; "мягкие игрушки"; "краски и альбомы для рисования";
       "спортивный инвентарь"; "наборы для творчества"]
  | teen =>
      ["гаджеты"; "наушники"; "книги по саморазвитию"; "игровая консоль";
       "спортивная форма"; "модная одежда"; "аксессуары для телефона";
       "билеты на концерт"; "книги фэнтези"; "скейтборд или гироскутер"]
  | young_adult =>
      ["книги"; "путешествия"; "билеты в кино или театр";
       "подарочный сертификат"; "модные аксессуары";
       "курсы или мастер-классы"; "техника для учебы/работы";
       "стильный рюкзак"; "сертификат в книжный магазин"]
  | adult =>
      ["парфюм"; "книги"; "путешествия"; "вино или кофе";
       "сертификат в спа-салон"; "удобные домашние тапочки";
       "гаджеты для кухни"; "билеты на спектакль";
       "подписка на стриминг-сервис"; "набор для хобби"]
  | elder =>
      ["уютный плед"; "хорошие книги"; "теплые встречи";
       "приятные воспоминания"; "чайный набор"; "фотоальбом с семейными фото";
       "комнатные растения"; "удобное кресло"; "набор для рукоделия";
       "сертификат в магазин для садовода"]
  end.

(** [random.choice(seq)] for the draw [n]. *)
Definition choice (n : nat) (seq : list string) : string :=
  nth (n mod length seq) seq "".

(** [s.startswith(p)]. *)
Fixpoint starts_with (p s : list ascii) : bool :=
  match p, s with
  | [], _ => true
  | a :: p', b :: s' => bool_decide (a = b) && starts_with p' s'
  | _ :: _, [] => false
  end.

(** [s.replace(old, new)]: the occurrences of [old] from left to right,
    none overlapping the one before; [skip] counts the characters of an
    occurrence still to pass.  Strings being bytes, this is Python's
    [replace] for an [old] that is not empty, as the one that
    [generate_congrats] passes; an empty [old] goes between bytes here and
    between characters in Python. *)
Fixpoint replace_chars (old new : list ascii) (skip : nat) (s : list ascii)
  : list ascii :=
  match s with
  | [] => if old is [] then new else []
  | c :: rest =>
      match skip with
      | S k => replace_chars old new k rest
      | O =>
          if starts_with old s then
            if old is [] then new ++ c :: replace_chars old new 0 rest
            else new ++ replace_chars old new (length old - 1) rest
          else c :: replace_chars old new 0 rest
      end
  end.

Definition replace (s old new : string) : string :=
  String.string_of_list_ascii (replace_chars (chars old) (chars new) 0 (chars s)).

Section Format.

(** [template.format(name=name, age=age, idea=gift_idea,
    gift_idea=gift_idea)] from a replacement field on that is none of
    [{name}], [{age}], [{idea}] and [{gift_idea}]: the argument is the
    template from the opening brace of that field. *)
Variable format_other : list ascii → string → Z → string → result (list ascii).

Definition rmap {A B} (f : A → B) (r : result A) : result B :=
  rbind r (λ a, Ok (f a)).

Fixpoint format_chars (name : string) (age : Z) (gift_idea : string)
    (skip : nat) (s : list ascii) : result (list ascii) :=
  match s with
  | [] => Ok []
  | c :: rest =>
      match skip with
      | S k => format_chars name age gift_idea k rest
      | O =>
          let field (value : string) (len : nat) :=
            rmap (app (chars value))
              (format_chars name age gift_idea len rest) in
          if bool_decide (c = "{"%char) then
            if starts_with (chars "{") rest then
              rmap (cons c) (format_chars name age gift_idea 1 rest)
            else if starts_with (chars "name}") rest then field name 5%nat
            else if starts_with (chars "age}") rest then
              field (pretty age) 4%nat
            else if starts_with (chars "idea}") rest then field gift_idea 5%nat
            else if starts_with (chars "gift_idea}") rest then
              field gift_idea 10%nat
            else format_other s name age gift_idea
          else if bool_decide (c = "}"%char) then
            if starts_with (chars "}") rest then
              rmap (cons c) (format_chars name age gift_idea 1 rest)
            else Raise ValueError
          else rmap (cons c) (format_chars name age gift_idea 0 rest)
      end
  end.

Definition format (template name : string) (age : Z) (gift_idea : string)
  : result string :=
  rmap String.string_of_list_ascii
    (format_chars name age gift_idea 0 (chars template)).

(** The draws of the two calls of [random.choice]. *)
Variable template_draw gift_draw : nat.

Definition generate_congrats
    (name birthdate_str : string) (description : option string) : M string :=
  age ← calculate_age birthdate_str;
  let age := age + 1 in
  let age_category := get_age_category age in
  let template := choice template_draw CONGRATS_TEMPLATES in
  let gift_idea := choice gift_draw (GIFT_IDEAS age_category) in
  let template :=
    if (if age_category is young_adult then true else false) && (age =? 18)
    then "🎉 " +:+ name +:+ ", поздравляю с совершеннолетием! " +:+ pretty age
         +:+ " лет — это начало взрослой жизни! Пусть она будет полна "
         +:+ gift_idea +:+ " и ярких моментов!"
    else template in
  let template :=
    match description with
    | Some d =>
        if bool_decide (d = "") then template
        else replace template "Наслаждайся днем!"
               ("Наслаждайся днем! P.S. " +:+ d)
    | None => template
    end in
  lift (format template name age gift_idea).

(** The composer at a reading of the clock, as [send_congrats_message]
    takes it. *)
Definition congrats_at (today : datetime)
    (name birthdate_str : string) (description : option string)
  : result string :=
  (generate_congrats name birthdate_str description
     (mkWorld [] ∅ today [])).1.

End Format.

End Composer.

(** * Vocabulary of the statements *)

Definition ord2md_ok (leapyear : bool) (n : Z) : bool :=
  let '(m, d) := _ord2md leapyear n in
  (1 <=? m) && (m <=? 12) && (1 <=? d)
  && (_DAYS_BEFORE_MONTH m + (if (2 <? m) && leapyear then 1 else 0) + d
      =? n + 1).

Definition add_if (b : bool) (job_id : string) (job : Job)
    (jobs : gmap string Job) : gmap string Job :=
  if b then <[job_id := job]> jobs else jobs.

(** The five identifiers of a subscription are free. *)
Definition ids_free (chat_id : Z) (name : string) (jobs : gmap string Job)
  : Prop :=
  ∀ kind,
    kind ∈ ["3d"; "1d"; "day_notification"; "day_congrats"; "annual"] →
    jobs !! job_id_of chat_id name kind = None.

Definition five_ids (chat_id : Z) (name : string) : list string :=
  [ job_id_of chat_id name "3d";
    job_id_of chat_id name "1d";
    job_id_of chat_id name "day_notification";
    job_id_of chat_id name "day_congrats";
    job_id_of chat_id name "annual" ].

Definition delete_five (chat_id : Z) (name : string)
    (jobs : gmap string Job) : gmap string Job :=
  delete (job_id_of chat_id name "annual")
  (delete (job_id_of chat_id name "day_congrats")
  (delete (job_id_of chat_id name "day_notification")
  (delete (job_id_of chat_id name "1d")
  (delete (job_id_of chat_id name "3d") jobs)))).

(** [w'] differs from [w] at most by jobs added under the five identifiers
    of a subscription. *)
Definition only_adds (chat_id : Z) (name : string) (w w' : World) : Prop :=
  db w' = db w ∧ now w' = now w ∧ outbox w' = outbox w
  ∧ (∀ job_id job,
       scheduler w !! job_id = Some job → scheduler w' !! job_id = Some job)
  ∧ (∀ job_id,
       job_id ∉ five_ids chat_id name →
       scheduler w' !! job_id = scheduler w !! job_id).

(** A computation all of whose runs are related to their start. *)
Definition keeps {A} (R : World → World → Prop) (m : M A) : Prop :=
  ∀ w, R w (m w).2.

(** The job store after arming: the annual job and the jobs of the enabled
    flags of [row], with the given run dates, on top of [jobs]. *)
Definition armed_jobs
    (name birthdate_str : string) (chat_id : Z) (reminder_time : string)
    (telegram_username : option string) (row : Row)
    (utc_3d utc_1d birthday_utc congrats_time annual_time : datetime)
    (jobs : gmap string Job) : gmap string Job :=
  <[job_id_of chat_id name "annual" :=
      mkJob (call_schedule_reminders name birthdate_str chat_id
               reminder_time telegram_username) annual_time]>
  (add_if (truthy (c_remind_day row))
     (job_id_of chat_id name "day_congrats")
     (mkJob (call_send_congrats_message chat_id name birthdate_str
               (c_description row)) congrats_time)
  (add_if (truthy (c_remind_day row))
     (job_id_of chat_id name "day_notification")
     (mkJob (call_send_birthday_notification chat_id name
               telegram_username) birthday_utc)
  (add_if (truthy (c_remind_1_day row))
     (job_id_of chat_id name "1d")
     (mkJob (call_send_reminder chat_id
               ("⏰ Напоминание: Завтра у " +:+ name
                +:+ " день рождения!")) utc_1d)
  (add_if (truthy (c_remind_3_days row))
     (job_id_of chat_id name "3d")
     (mkJob (call_send_reminder chat_id
               ("⏰ Напоминание: Через 3 дня у " +:+ name
                +:+ " день рождения!")) utc_3d)
     jobs)))).

(** [w'] differs from [w] at most by jobs removed among the 3d, 1d,
    notification and congratulation jobs of a subscription, by the table
    and by messages sent. *)
Definition only_cancels (chat_id : Z) (name : string) (w w' : World) : Prop :=
  now w' = now w
  ∧ (∀ job_id job,
       scheduler w' !! job_id = Some job → scheduler w !! job_id = Some job)
  ∧ (∀ job_id,
       job_id ∉ [ job_id_of chat_id name "3d"; job_id_of chat_id name "1d";
                  job_id_of chat_id name "day_notification";
                  job_id_of chat_id name "day_congrats" ] →
       scheduler w' !! job_id = scheduler w !! job_id).

(** The table is the same in both worlds. *)
Definition same_db (w w' : World) : Prop := db w' = db w.

(** No two rows of the table have the same name in the same chat. *)
Definition unique_name_chat (table : list Row) : Prop :=
  NoDup (map (λ r, (c_name r, c_chat_id r)) table).

(** The keys of the rows are the same in both worlds. *)
Definition same_keys (w w' : World) : Prop :=
  map (λ r, (c_name r, c_chat_id r)) (db w')
  = map (λ r, (c_name r, c_chat_id r)) (db w).

(** Every character of the text is an ASCII character. *)
Definition is_ascii (s : string) : bool :=
  forallb (λ c, Z.of_N (N_of_ascii c) <? 128) (chars s).

(** [sub in s]. *)
Fixpoint occurs_in_chars (sub s : list ascii) : bool :=
  Composer.starts_with sub s
  || match s with
     | [] => false
     | _ :: rest => occurs_in_chars sub rest
     end.

Definition occurs_in (sub s : string) : bool :=
  occurs_in_chars (chars sub) (chars s).

(** The five kinds of job of a subscription. *)
Definition kinds : list string :=
  ["3d"; "1d"; "day_notification"; "day_congrats"; "annual"].

(** The fields of a datetime are in range. *)
Definition valid_dt (dt : datetime) : bool :=
  _check_date_fields (year dt) (month dt) (day dt)
  && _check_time_fields (hour dt) (minute dt) (second dt) (microsecond dt).

(** A row that [schedule_reminders] can arm in any year. *)
Definition armable (r : Row) : Prop :=
  ∃ b h mi,
    strptime (c_birthdate r) = Ok b ∧ ¬ (month b = 2 ∧ day b = 29)
    ∧ parse_hour_minute (c_reminder_time r) = Ok (h, mi)
    ∧ 0 ≤ h ≤ 23 ∧ 0 ≤ mi ≤ 59.

(** Arming a row as [main] does. *)
Definition arm_row (utcoffset : datetime → timedelta) (r : Row) : M unit :=
  schedule_reminders utcoffset (c_name r) (c_birthdate r) (c_chat_id r)
    (c_reminder_time r) (c_telegram_username r).

(** The entry of a row in the list: the row, the days until its next
    birthday and the age reached then. *)
Definition list_entry (r : Row) : M (Row * Z * Z) :=
  now_moscow ← get_moscow_now;
  next_birthday ← get_next_birthday (c_birthdate r) (c_reminder_time r);
  age ← lift (calculate_age_on_date (c_birthdate r) next_birthday);
  mret (r, days_between next_birthday now_moscow, age).

(** The jobs of the subscriptions of all chats but [chat_id] are the same
    in both worlds. *)
Definition other_chats_same (chat_id : Z) (w w' : World) : Prop :=
  ∀ chat_id' name kind,
    chat_id' ≠ chat_id → kind ∈ kinds →
    scheduler w' !! job_id_of chat_id' name kind
    = scheduler w !! job_id_of chat_id' name kind.

(** * Worlds to try the statements on

    Anna, born on 15.05.1990, reminded at 09:00, is added by user 7 in chat
    42 on 10 May 2024; Moscow time is three hours ahead of UTC. *)

Definition msk (_ : datetime) : timedelta := td_hours 3.

(** A composer for the statements in which no congratulation is composed
    or its text does not matter: the name and the description. *)
Definition plain_congrats
    (_ : datetime) (name _ : string) (description : option string)
  : result string :=
  Ok (name +:+ ": " +:+ default "" description).

Definition anna : Row :=
  mkRow 7 42 "Anna" "15.05.1990" (Some "likes cats") None "09:00" 1 1 1.

Definition w_anna : World := mkWorld [anna] ∅ (mkdt 2024 5 10 12 0 0 0) [].

Definition anna_quiet : Row :=
  mkRow 7 42 "Anna" "15.05.1990" (Some "likes cats") None "09:00" 0 0 0.

Definition w_anna_quiet : World :=
  mkWorld [anna_quiet] ∅ (mkdt 2024 5 10 12 0 0 0) [].

(** The world of Anna once her reminders are armed. *)
Definition w_armed : World :=
  (schedule_reminders msk "Anna" "15.05.1990" 42 "09:00" None w_anna).2.


(** The subscription of Anna after she disabled the 3-day reminder: the
    flag is 0 in the table and no 3d job is pending. *)
Definition settings_anna : SettingsData :=
  mkSettingsData "Anna" "reminders" "15.05.1990" 1 1 1 None
    (Some 0) (Some 1) (Some 1).
Definition w_no_3d : World :=
  (process_settings_value msk (λ s, s) (mkMessage "✅ Сохранить" 7 42)
     settings_anna w_armed).2.

(** One year after arming: the table says 10:00 for Anna (her time was
    changed in another chat of user 7, which leaves the jobs of chat 42 as
    they are), the jobs of 2024 have fired, and the annual job, armed with
    09:00, is due. *)
Definition w_year_later : World :=
  mkWorld
    [mkRow 7 42 "Anna" "15.05.1990" (Some "likes cats") None "10:00" 1 1 1]
    {["42_Anna_annual" :=
        mkJob (call_schedule_reminders "Anna" "15.05.1990" 42 "09:00" None)
          (mkdt 2025 5 16 6 0 0 0)]}
    (mkdt 2025 5 16 9 0 0 0)
    [].

(** The day of the birthday: the description in the table has changed
    since arming, and the congratulation job is due. *)
Definition w_birthday : World :=
  mkWorld
    [mkRow 7 42 "Anna" "15.05.1990" (Some "likes dogs") None "09:00" 1 1 1]
    {["42_Anna_day_congrats" :=
        mkJob (call_send_congrats_message 42 "Anna" "15.05.1990"
                 (Some "likes cats"))
          (mkdt 2024 5 15 6 0 2 0)]}
    (mkdt 2024 5 15 9 0 2 0)
    [].

(** Lea, born on 29.02.2000, armed on 10 January 2024. *)
Definition lea : Row :=
  mkRow 7 42 "Lea" "29.02.2000" None None "09:00" 1 1 1.
Definition w_lea : World := mkWorld [lea] ∅ (mkdt 2024 1 10 12 0 0 0) [].

Definition lea_quiet : Row :=
  mkRow 7 42 "Lea" "29.02.2000" None None "09:00" 0 0 0.
Definition w_lea_quiet : World :=
  mkWorld [lea_quiet] ∅ (mkdt 2024 1 10 12 0 0 0) [].

(** * Properties *)

(** ** The calendar utility *)

Lemma dt_cmp_year_lt a b : year a < year b → dt_cmp a b = Lt.
Proof. intros H. unfold dt_cmp. by rewrite (proj2 (Z.compare_lt_iff _ _) H). Qed.

Lemma dt_cmp_year_gt a b : year b < year a → dt_cmp a b = Gt.
Proof. intros H. unfold dt_cmp. by rewrite (proj2 (Z.compare_gt_iff _ _) H). Qed.

Lemma dt_cmp_refl a : dt_cmp a a = Eq.
Proof. unfold dt_cmp. by rewrite !Z.compare_refl. Qed.

Lemma dt_leb_refl a : dt_leb a a = true.
Proof. unfold dt_leb. by rewrite dt_cmp_refl. Qed.

Lemma dt_leb_year_lt a b : year a < year b → dt_leb a b = true.
Proof. intros H. unfold dt_leb. by rewrite dt_cmp_year_lt. Qed.

Lemma dt_leb_year_gt a b : year b < year a → dt_leb a b = false.
Proof. intros H. unfold dt_leb. by rewrite dt_cmp_year_gt. Qed.

Lemma dt_cmp_antisym a b : dt_cmp b a = CompOpp (dt_cmp a b).
Proof.
  unfold dt_cmp.
  rewrite (Z.compare_antisym (year a)), (Z.compare_antisym (month a)),
    (Z.compare_antisym (day a)), (Z.compare_antisym (hour a)),
    (Z.compare_antisym (minute a)), (Z.compare_antisym (second a)),
    (Z.compare_antisym (microsecond a)).
  by repeat (match goal with |- context [?x ?= ?y] => destruct (x ?= y) end;
             simpl; try done).
Qed.

(** [a < b] fails exactly when [b <= a]. *)
Lemma dt_ltb_leb a b : dt_ltb a b = negb (dt_leb b a).
Proof.
  unfold dt_ltb, dt_leb. rewrite (dt_cmp_antisym a b).
  by destruct (dt_cmp a b).
Qed.

Lemma datetime_new_Ok y m d h mi s us c :
  datetime_new y m d h mi s us = Ok c →
  c = mkdt y m d h mi s us
  ∧ _check_date_fields y m d = true ∧ _check_time_fields h mi s us = true.
Proof.
  unfold datetime_new.
  destruct (_check_date_fields y m d) eqn:Hd;
    destruct (_check_time_fields h mi s us) eqn:Ht; simpl; intros H;
    by simplify_eq.
Qed.

(** What [strptime] returns is a date at midnight. *)
Lemma strptime_Ok s b :
  strptime s = Ok b →
  b = mkdt (year b) (month b) (day b) 0 0 0 0
  ∧ _check_date_fields (year b) (month b) (day b) = true.
Proof.
  unfold strptime. intros H.
  destruct (re_dmY (chars s)) as [|[[[d m] y] [|? ?]] ?]; try done.
  apply datetime_new_Ok in H as (-> & Hd & _). done.
Qed.

Lemma get_next_birthday_eq birthdate_str reminder_time w :
  get_next_birthday birthdate_str reminder_time w =
  match strptime birthdate_str with
  | Raise e => (Raise e, w)
  | Ok birthdate =>
    match parse_hour_minute reminder_time with
    | Raise e => (Raise e, w)
    | Ok (h, mi) =>
      match replace_year_time birthdate (year (now w)) h mi with
      | Raise e => (Raise e, w)
      | Ok c =>
          if dt_ltb c (now w) then (replace_year c (year (now w) + 1), w)
          else (Ok c, w)
      end
    end
  end.
Proof.
  unfold get_next_birthday, mbind, M_bind, lift, get_moscow_now, gets, mret,
    M_ret.
  destruct (strptime birthdate_str); [|done].
  destruct (parse_hour_minute reminder_time) as [[h mi]|]; [|done].
  destruct (replace_year_time _ _ _ _); [|done].
  by destruct (dt_ltb _ _).
Qed.

(** [get_next_birthday] reads the clock and changes nothing. *)
Lemma get_next_birthday_world birthdate_str reminder_time w :
  (get_next_birthday birthdate_str reminder_time w).2 = w.
Proof.
  rewrite get_next_birthday_eq.
  repeat (match goal with
          | |- context [match ?x with _ => _ end] => destruct x
          end; simpl; try done).
Qed.

Lemma is_leap_succ y : _is_leap y = true → _is_leap (y + 1) = false.
Proof.
  unfold _is_leap. intros H. apply andb_true_iff in H as [H _].
  apply Z.eqb_eq in H.
  replace ((y + 1) mod 4 =? 0) with false; [done|].
  symmetry. apply Z.eqb_neq. Z.div_mod_to_equations. lia.
Qed.

Lemma check_leap_day y : _is_leap y = false → _check_date_fields y 2 29 = false.
Proof.
  intros H. unfold _check_date_fields, _days_in_month. rewrite H. simpl.
  by rewrite !andb_false_r.
Qed.

(** C1: when the candidate dates are constructible, [get_next_birthday]
    returns the occurrence of the current year (the birthdate's month and
    day at the given time of day), or the one of the next year exactly when
    that candidate is strictly before now; the result is never before now,
    and no annual occurrence that is not before now comes earlier. *)
Theorem get_next_birthday_earliest
    (birthdate_str reminder_time : string) (w : World)
    (b : datetime) (h mi : Z) (c0 c1 : datetime) :
  strptime birthdate_str = Ok b →
  parse_hour_minute reminder_time = Ok (h, mi) →
  datetime_new (year (now w)) (month b) (day b) h mi 0 0 = Ok c0 →
  (dt_ltb c0 (now w) = true →
   datetime_new (year (now w) + 1) (month b) (day b) h mi 0 0 = Ok c1) →
  ∃ r,
    get_next_birthday birthdate_str reminder_time w = (Ok r, w)
    ∧ c0 = mkdt (year (now w)) (month b) (day b) h mi 0 0
    ∧ r = (if dt_ltb c0 (now w)
           then mkdt (year (now w) + 1) (month b) (day b) h mi 0 0
           else c0)
    ∧ dt_leb (now w) r = true
    ∧ ∀ y c,
        datetime_new y (month b) (day b) h mi 0 0 = Ok c →
        dt_leb (now w) c = true → dt_leb r c = true.
Proof.
  intros Hb Ht H0 H1.
  pose proof (strptime_Ok _ _ Hb) as [Eb _].
  pose proof (datetime_new_Ok _ _ _ _ _ _ _ _ H0) as (E0 & _ & _).
  rewrite get_next_birthday_eq, Hb, Ht.
  unfold replace_year_time. rewrite Eb in *. simpl in *. rewrite H0.
  destruct (dt_ltb c0 (now w)) eqn:Hlt.
  - specialize (H1 eq_refl).
    pose proof (datetime_new_Ok _ _ _ _ _ _ _ _ H1) as (E1 & _ & _).
    exists c1. unfold replace_year. rewrite E0. simpl. rewrite H1.
    split; [done|]. split; [done|]. split; [by rewrite E1|].
    split.
    + apply dt_leb_year_lt. rewrite E1. simpl. lia.
    + intros y c Hc Hle.
      apply datetime_new_Ok in Hc as (Ec & _ & _).
      destruct (Z.lt_trichotomy y (year (now w) + 1)) as [Hy|[Hy|Hy]].
      * assert (y < year (now w) ∨ y = year (now w)) as [Hy'| ->] by lia.
        -- rewrite dt_leb_year_gt in Hle; [done|]. rewrite Ec. simpl. lia.
        -- rewrite <- E0 in Ec. subst c.
           rewrite dt_ltb_leb, Hle in Hlt. done.
      * subst y. rewrite E1, Ec. apply dt_leb_refl.
      * apply dt_leb_year_lt. rewrite E1, Ec. simpl. lia.
  - exists c0. split; [done|]. split; [done|]. split; [done|].
    rewrite dt_ltb_leb in Hlt. apply negb_false_iff in Hlt.
    split; [done|].
    intros y c Hc Hle.
    apply datetime_new_Ok in Hc as (Ec & _ & _).
    destruct (Z.lt_trichotomy y (year (now w))) as [Hy|[Hy|Hy]].
    + rewrite dt_leb_year_gt in Hle; [done|]. rewrite Ec. simpl. lia.
    + subst y. rewrite E0, Ec. apply dt_leb_refl.
    + apply dt_leb_year_lt. rewrite E0, Ec. simpl. lia.
Qed.

(** C9: for a birthdate on 29 February, [get_next_birthday] raises
    [ValueError] when the current year is not a leap year, and also when
    this year's candidate is already past, the next year being no leap
    year then. *)
Theorem get_next_birthday_leap_day_raises
    (birthdate_str reminder_time : string) (w : World)
    (b : datetime) (h mi : Z) :
  strptime birthdate_str = Ok b →
  month b = 2 → day b = 29 →
  parse_hour_minute reminder_time = Ok (h, mi) →
  _is_leap (year (now w)) = false
  ∨ dt_ltb (mkdt (year (now w)) 2 29 h mi 0 0) (now w) = true →
  get_next_birthday birthdate_str reminder_time w = (Raise ValueError, w).
Proof.
  intros Hb Hm Hd Ht Hcase.
  pose proof (strptime_Ok _ _ Hb) as [Eb _].
  rewrite get_next_birthday_eq, Hb, Ht.
  unfold replace_year_time. rewrite Eb, Hm, Hd. simpl.
  destruct (_is_leap (year (now w))) eqn:Hleap.
  - destruct Hcase as [|Hlt]; [done|].
    unfold datetime_new at 1.
    destruct (_check_date_fields _ _ _ && _check_time_fields _ _ _ _);
      [|done].
    rewrite Hlt. unfold replace_year, datetime_new. simpl.
    by rewrite (check_leap_day _ (is_leap_succ _ Hleap)).
  - unfold datetime_new. by rewrite (check_leap_day _ Hleap).
Qed.

(** Anna's next birthday, asked for on 10 May 2024. *)
Lemma get_next_birthday_earliest_witness :
  ∃ r,
    get_next_birthday "15.05.1990" "09:00" w_anna = (Ok r, w_anna)
    ∧ mkdt 2024 5 15 9 0 0 0 = mkdt (year (now w_anna)) 5 15 9 0 0 0
    ∧ r = (if dt_ltb (mkdt 2024 5 15 9 0 0 0) (now w_anna)
           then mkdt (year (now w_anna) + 1) 5 15 9 0 0 0
           else mkdt 2024 5 15 9 0 0 0)
    ∧ dt_leb (now w_anna) r = true
    ∧ ∀ y c,
        datetime_new y 5 15 9 0 0 0 = Ok c →
        dt_leb (now w_anna) c = true → dt_leb r c = true.
Proof.
  apply (get_next_birthday_earliest "15.05.1990" "09:00" w_anna
           (mkdt 1990 5 15 0 0 0 0) 9 0 (mkdt 2024 5 15 9 0 0 0)
           (mkdt 2025 5 15 9 0 0 0)).
  - vm_compute. reflexivity.
  - vm_compute. reflexivity.
  - reflexivity.
  - reflexivity.
Defined.

(** A birthday that has passed this year moves to the next year. *)
Example get_next_birthday_past :
  get_next_birthday "15.05.1990" "09:00"
    (with_now (mkdt 2024 5 15 9 0 0 1) w_anna)
  = (Ok (mkdt 2025 5 15 9 0 0 0), with_now (mkdt 2024 5 15 9 0 0 1) w_anna)
  ∧ get_next_birthday "15.05.1990" "09:00"
      (with_now (mkdt 2024 5 15 9 0 0 0) w_anna)
    = (Ok (mkdt 2024 5 15 9 0 0 0), with_now (mkdt 2024 5 15 9 0 0 0) w_anna).
Proof. split; vm_compute; reflexivity. Qed.

(** A leap-day birthdate, asked for in 2023. *)
Lemma get_next_birthday_leap_day_raises_witness :
  get_next_birthday "29.02.2000" "09:00"
    (with_now (mkdt 2023 1 10 12 0 0 0) w_anna)
  = (Raise ValueError, with_now (mkdt 2023 1 10 12 0 0 0) w_anna).
Proof.
  apply (get_next_birthday_leap_day_raises "29.02.2000" "09:00"
           (with_now (mkdt 2023 1 10 12 0 0 0) w_anna)
           (mkdt 2000 2 29 0 0 0 0) 9 0).
  - vm_compute. reflexivity.
  - reflexivity.
  - reflexivity.
  - vm_compute. reflexivity.
  - left. reflexivity.
Defined.

(** In a leap year the leap day is found while it is ahead, and the call
    raises once it has passed. *)
Example get_next_birthday_leap_year :
  (get_next_birthday "29.02.2000" "09:00"
     (with_now (mkdt 2024 1 10 12 0 0 0) w_anna)).1
  = Ok (mkdt 2024 2 29 9 0 0 0)
  ∧ (get_next_birthday "29.02.2000" "09:00"
       (with_now (mkdt 2024 3 1 12 0 0 0) w_anna)).1
    = Raise ValueError.
Proof. split; vm_compute; reflexivity. Qed.

(** ** Ordinals and dates *)

(** The leap-year flag that [_ord2ymd] computes from its quotients. *)
Lemma is_leap_quotients a b c d :
  0 ≤ b ≤ 3 → 0 ≤ c ≤ 24 → 0 ≤ d ≤ 3 →
  _is_leap (a * 400 + 1 + b * 100 + c * 4 + d)
  = (d =? 3) && (negb (c =? 24) || (b =? 3)).
Proof.
  intros Hb Hc Hd. unfold _is_leap.
  repeat match goal with
         | |- context [?x =? ?y] => destruct (Z.eqb_spec x y)
         end; simpl; try done; exfalso;
    Z.div_mod_to_equations; lia.
Qed.

Lemma days_before_year_quotients a b c d :
  0 ≤ b ≤ 3 → 0 ≤ c ≤ 24 → 0 ≤ d ≤ 3 →
  _days_before_year (a * 400 + 1 + b * 100 + c * 4 + d)
  = a * _DI400Y + b * _DI100Y + c * _DI4Y + d * 365.
Proof.
  intros Hb Hc Hd. unfold _days_before_year, _DI400Y, _DI100Y, _DI4Y.
  Z.div_mod_to_equations. lia.
Qed.

Lemma ord2md_ok_all leapyear n :
  0 ≤ n ≤ 365 → ord2md_ok leapyear n = true.
Proof.
  intros Hn.
  assert (forallb (ord2md_ok leapyear) (seqZ 0 366) = true) as Hall
    by (destruct leapyear; vm_compute; reflexivity).
  rewrite forallb_forall in Hall. apply Hall.
  apply list_elem_of_In, elem_of_seqZ. lia.
Qed.

Lemma ymd2ord_ord2ymd n : 1 ≤ n → 
  let '(y, m, d) := _ord2ymd n in _ymd2ord y m d = n.
Proof.
  intros Hn. unfold _ord2ymd.
  set (n0 := n - 1).
  set (a := n0 / _DI400Y). set (r1 := n0 mod _DI400Y).
  set (b := r1 / _DI100Y). set (r2 := r1 mod _DI100Y).
  set (c := r2 / _DI4Y). set (r3 := r2 mod _DI4Y).
  set (d := r3 / 365). set (r4 := r3 mod 365).
  assert (n0 = a * _DI400Y + r1 ∧ 0 ≤ r1 < _DI400Y) as [E1 B1]
    by (unfold a, r1, _DI400Y; Z.div_mod_to_equations; lia).
  assert (r1 = b * _DI100Y + r2 ∧ 0 ≤ r2 < _DI100Y ∧ 0 ≤ b ≤ 4)
    as (E2 & B2 & Bb)
    by (unfold b, r2, _DI100Y, _DI400Y in *; Z.div_mod_to_equations; lia).
  assert (r2 = c * _DI4Y + r3 ∧ 0 ≤ r3 < _DI4Y ∧ 0 ≤ c ≤ 24)
    as (E3 & B3 & Bc)
    by (unfold c, r3, _DI4Y, _DI100Y in *; Z.div_mod_to_equations; lia).
  assert (r3 = d * 365 + r4 ∧ 0 ≤ r4 < 365 ∧ 0 ≤ d ≤ 4)
    as (E4 & B4 & Bd)
    by (unfold d, r4, _DI4Y in *; Z.div_mod_to_equations; lia).
  clearbody a r1 b r2 c r3 d r4.
  unfold _DI400Y, _DI100Y, _DI4Y in *.
  destruct (Z.eqb_spec d 4) as [Hd4|Hd4]; simpl.
  { (* the last day of a four-year cycle *)
    unfold _ymd2ord, _days_before_month.
    assert (r4 = 0) by lia. 
    replace (a * 400 + 1 + b * 100 + c * 4 + d - 1)
      with (a * 400 + 1 + b * 100 + c * 4 + 3) by lia.
    assert (0 ≤ b ≤ 3) by lia.
    rewrite days_before_year_quotients, is_leap_quotients by lia.
    unfold _DI400Y, _DI100Y, _DI4Y. simpl.
    destruct (Z.eqb_spec c 24), (Z.eqb_spec b 3); simpl; lia. }
  destruct (Z.eqb_spec b 4) as [Hb4|Hb4]; simpl.
  { (* the last day of a 400-year cycle *)
    unfold _ymd2ord, _days_before_month.
    assert (r2 = 0 ∧ c = 0 ∧ r3 = 0 ∧ d = 0 ∧ r4 = 0) as (?&?&?&?&?) by lia.
    subst.
    replace (a * 400 + 1 + 4 * 100 + 0 * 4 + 0 - 1)
      with (a * 400 + 1 + 3 * 100 + 24 * 4 + 3) by lia.
    rewrite days_before_year_quotients, is_leap_quotients by lia.
    unfold _DI400Y, _DI100Y, _DI4Y. simpl. lia. }
  assert (0 ≤ b ≤ 3) by lia. assert (0 ≤ d ≤ 3) by lia.
  set (leapyear := (d =? 3) && (negb (c =? 24) || (b =? 3))).
  pose proof (ord2md_ok_all leapyear r4 ltac:(lia)) as Hok.
  unfold ord2md_ok in Hok.
  destruct (_ord2md leapyear r4) as [m dd].
  apply andb_true_iff in Hok as [Hok Hsum].
  apply Z.eqb_eq in Hsum.
  unfold _ymd2ord, _days_before_month.
  rewrite days_before_year_quotients, is_leap_quotients by lia.
  fold leapyear. unfold _DI400Y, _DI100Y, _DI4Y. lia.
Qed.

(** Adding a [timedelta] adds it to the microseconds since the epoch of
    the calendar. *)
Lemma dt_add_delta dt td r :
  dt_add dt td = Ok r → dt_to_delta r = dt_to_delta dt + td.
Proof.
  unfold dt_add.
  set (delta := dt_to_delta dt + td).
  destruct (Z.ltb_spec 0 (delta / 86400000000)) as [Hlo|]; [|done].
  destruct (Z.leb_spec (delta / 86400000000) _MAXORDINAL); [|done].
  cbn [andb].
  pose proof (ymd2ord_ord2ymd (delta / 86400000000) ltac:(lia)) as Hord.
  destruct (_ord2ymd (delta / 86400000000)) as [[y m] d].
  intros [= <-]. unfold dt_to_delta, toordinal. simpl. rewrite Hord.
  clearbody delta. Z.div_mod_to_equations. lia.
Qed.

Lemma dt_add_is_Ok dt td :
  86400000000 ≤ dt_to_delta dt + td < (_MAXORDINAL + 1) * 86400000000 →
  ∃ r, dt_add dt td = Ok r.
Proof.
  intros H. unfold dt_add.
  set (delta := dt_to_delta dt + td) in *.
  destruct (Z.ltb_spec 0 (delta / 86400000000)) as [Hlo|Hlo];
    [|exfalso; clearbody delta; unfold _MAXORDINAL in *;
      Z.div_mod_to_equations; lia].
  destruct (Z.leb_spec (delta / 86400000000) _MAXORDINAL) as [Hhi|Hhi];
    [|exfalso; clearbody delta; unfold _MAXORDINAL in *;
      Z.div_mod_to_equations; lia].
  cbn [andb]. destruct (_ord2ymd (delta / 86400000000)) as [[y m] d]. eauto.
Qed.

(** Bounds of [dt_to_delta] for a datetime with checked fields. *)
Lemma days_before_month_bounds y m :
  1 ≤ m ≤ 12 → 0 ≤ _days_before_month y m ≤ 335.
Proof.
  intros Hm. unfold _days_before_month.
  assert (m = 1 ∨ m = 2 ∨ m = 3 ∨ m = 4 ∨ m = 5 ∨ m = 6 ∨ m = 7 ∨ m = 8
          ∨ m = 9 ∨ m = 10 ∨ m = 11 ∨ m = 12) as Hcases by lia.
  destruct (_is_leap y);
    repeat (destruct Hcases as [->|Hcases]; [simpl; lia|]);
    subst; simpl; lia.
Qed.

Lemma days_in_month_bounds y m : _days_in_month y m ≤ 31.
Proof.
  unfold _days_in_month. destruct ((m =? 2) && _is_leap y); [lia|].
  unfold _DAYS_IN_MONTH.
  repeat (match goal with
          | |- context [match ?x with _ => _ end] => destruct x
          end; try lia).
Qed.

Lemma check_date_fields_true y m d :
  _check_date_fields y m d = true →
  1 ≤ y ≤ 9999 ∧ 1 ≤ m ≤ 12 ∧ 1 ≤ d ≤ _days_in_month y m.
Proof.
  unfold _check_date_fields, MINYEAR, MAXYEAR. intros H.
  repeat (apply andb_true_iff in H as [H ?]). lia.
Qed.

Lemma check_time_fields_true h mi s us :
  _check_time_fields h mi s us = true →
  0 ≤ h ≤ 23 ∧ 0 ≤ mi ≤ 59 ∧ 0 ≤ s ≤ 59 ∧ 0 ≤ us ≤ 999999.
Proof.
  unfold _check_time_fields. intros H.
  repeat (apply andb_true_iff in H as [H ?]). lia.
Qed.

Lemma dt_to_delta_bounds y m d h mi s us :
  _check_date_fields y m d = true →
  _check_time_fields h mi s us = true →
  (_days_before_year y + 1) * 86400000000
  ≤ dt_to_delta (mkdt y m d h mi s us)
  < (_days_before_year y + 367) * 86400000000.
Proof.
  intros Hd Ht.
  apply check_date_fields_true in Hd as (Hy & Hm & Hdd).
  apply check_time_fields_true in Ht as (Hh & Hmi & Hs & Hus).
  pose proof (days_before_month_bounds y m Hm).
  pose proof (days_in_month_bounds y m).
  unfold dt_to_delta, toordinal, _ymd2ord. simpl. lia.
Qed.

(** A month and day other than 29 February exist in every year. *)
Lemma check_date_fields_other_year y y' m d :
  _check_date_fields y m d = true →
  ¬ (m = 2 ∧ d = 29) → 1 ≤ y' ≤ 9999 →
  _check_date_fields y' m d = true.
Proof.
  intros H Hne Hy'.
  apply check_date_fields_true in H as (Hy & Hm & Hd).
  unfold _check_date_fields, MINYEAR, MAXYEAR.
  assert (d ≤ _days_in_month y' m) as Hd'.
  { revert Hd. unfold _days_in_month.
    destruct (Z.eqb_spec m 2) as [->|]; simpl; [|tauto].
    destruct (_is_leap y), (_is_leap y'); simpl; lia. }
  repeat (apply andb_true_iff; split); lia.
Qed.

Lemma days_before_year_bounds y :
  1 ≤ y →
  365 * (y - 1) ≤ _days_before_year y ∧ 4 * _days_before_year y ≤ 1461 * (y - 1).
Proof. intros Hy. unfold _days_before_year. Z.div_mod_to_equations. lia. Qed.

(** Away from 29 February and from the ends of the calendar,
    [get_next_birthday] returns. *)
Lemma get_next_birthday_Ok birthdate_str reminder_time w b h mi :
  strptime birthdate_str = Ok b →
  ¬ (month b = 2 ∧ day b = 29) →
  parse_hour_minute reminder_time = Ok (h, mi) →
  0 ≤ h ≤ 23 → 0 ≤ mi ≤ 59 →
  1 ≤ year (now w) ≤ 9998 →
  ∃ y,
    get_next_birthday birthdate_str reminder_time w
    = (Ok (mkdt y (month b) (day b) h mi 0 0), w)
    ∧ year (now w) ≤ y ≤ year (now w) + 1
    ∧ _check_date_fields y (month b) (day b) = true.
Proof.
  intros Hb Hne Ht Hh Hmi Hy.
  pose proof (strptime_Ok _ _ Hb) as [Eb Hd].
  assert (_check_time_fields h mi 0 0 = true) as Htime.
  { unfold _check_time_fields. repeat (apply andb_true_iff; split); lia. }
  pose proof (check_date_fields_other_year _ (year (now w)) _ _ Hd Hne
                ltac:(lia)) as Hd0.
  pose proof (check_date_fields_other_year _ (year (now w) + 1) _ _ Hd Hne
                ltac:(lia)) as Hd1.
  rewrite get_next_birthday_eq, Hb, Ht.
  unfold replace_year_time. rewrite Eb. simpl.
  unfold datetime_new at 1. rewrite Hd0, Htime. simpl.
  destruct (dt_ltb _ _).
  - exists (year (now w) + 1). unfold replace_year, datetime_new. simpl.
    rewrite Hd1, Htime. simpl. split; [done|]. split; [lia|done].
  - exists (year (now w)). split; [done|]. split; [lia|done].
Qed.

(** ** The monad, step by step *)

Lemma bind_run {A B} (m : M A) (k : A → M B) w :
  (m ≫= k) w
  = match m w with
    | (Ok a, w') => k a w'
    | (Raise e, w') => (Raise e, w')
    end.
Proof. reflexivity. Qed.

Lemma lift_run {A} (r : result A) w : lift r w = (r, w).
Proof. reflexivity. Qed.

Lemma gets_run {A} (f : World → A) w : gets f w = (Ok (f w), w).
Proof. reflexivity. Qed.

Lemma ret_run {A} (a : A) w : mret (M := M) a w = (Ok a, w).
Proof. reflexivity. Qed.

Lemma modify_run f w : modify f w = (Ok (), f w).
Proof. reflexivity. Qed.

(** ** The scheduler *)

Lemma add_job_fresh call rd job_id w :
  scheduler w !! job_id = None →
  add_job call rd job_id w
  = (Ok (), with_scheduler (insert job_id (mkJob call rd)) w).
Proof. intros H. unfold add_job. by rewrite H. Qed.

Lemma add_job_taken call rd job_id w :
  is_Some (scheduler w !! job_id) →
  add_job call rd job_id w = (Raise ConflictingIdError, w).
Proof. intros [j H]. unfold add_job. by rewrite H. Qed.

Lemma with_scheduler_same f w :
  f (scheduler w) = scheduler w → with_scheduler f w = w.
Proof. destruct w. unfold with_scheduler. simpl. by intros ->. Qed.

(** [try: scheduler.remove_job(job_id) except: pass] deletes the id. *)
Lemma try_remove_job job_id w :
  try_except_pass (remove_job job_id) w
  = (Ok (), with_scheduler (delete job_id) w).
Proof.
  unfold try_except_pass, remove_job.
  destruct (scheduler w !! job_id) eqn:H; simpl; [done|].
  by rewrite with_scheduler_same by (by apply delete_id).
Qed.

Lemma job_id_of_inj chat_id name k1 k2 :
  job_id_of chat_id name k1 = job_id_of chat_id name k2 → k1 = k2.
Proof.
  unfold job_id_of. intros H.
  by repeat (apply (inj (String.app _)) in H).
Qed.

Lemma job_id_of_ne chat_id name k1 k2 :
  k1 ≠ k2 → job_id_of chat_id name k1 ≠ job_id_of chat_id name k2.
Proof. intros Hne H. by apply Hne, (job_id_of_inj chat_id name). Qed.

Lemma dt_sub_delta dt td r :
  dt_sub dt td = Ok r → dt_to_delta r = dt_to_delta dt - td.
Proof. unfold dt_sub. intros H. apply dt_add_delta in H. lia. Qed.

Lemma astimezone_utc_delta utcoffset dt r :
  astimezone_utc utcoffset dt = Ok r →
  dt_to_delta r = dt_to_delta dt - utcoffset dt.
Proof. unfold astimezone_utc. apply dt_sub_delta. Qed.

(** ** Arming *)

Section Arming.

Variable utcoffset : datetime → timedelta.
Hypothesis utcoffset_bound :
  ∀ dt, - 86400000000 < utcoffset dt < 86400000000.

Lemma dt_add_within dt td :
  86400000000 ≤ dt_to_delta dt + td < (_MAXORDINAL + 1) * 86400000000 →
  ∃ r, dt_add dt td = Ok r ∧ dt_to_delta r = dt_to_delta dt + td.
Proof.
  intros H. destruct (dt_add_is_Ok dt td H) as [r Hr].
  exists r. split; [done|]. by apply dt_add_delta.
Qed.

Lemma astimezone_utc_within dt :
  2 * 86400000000 ≤ dt_to_delta dt < _MAXORDINAL * 86400000000 →
  ∃ r, astimezone_utc utcoffset dt = Ok r
       ∧ dt_to_delta r = dt_to_delta dt - utcoffset dt.
Proof.
  intros H. pose proof (utcoffset_bound dt).
  unfold astimezone_utc, dt_sub.
  destruct (dt_add_within dt (- utcoffset dt)) as (r & Hr & Hd);
    [unfold _MAXORDINAL in *; lia|].
  exists r. split; [done|lia].
Qed.

(** The run dates of the five jobs exist for a next birthday between the
    years 2 and 9991. *)
Lemma run_dates_exist y m d h mi :
  _check_date_fields y m d = true →
  _check_time_fields h mi 0 0 = true →
  ¬ (m = 2 ∧ d = 29) →
  2 ≤ y ≤ 9991 →
  let next_birthday := mkdt y m d h mi 0 0 in
  ∃ reminder_3d utc_3d reminder_1d utc_1d birthday_utc congrats_time
    next_year_birthday next_year_utc annual_time,
    dt_sub next_birthday (td_days 3) = Ok reminder_3d
    ∧ astimezone_utc utcoffset reminder_3d = Ok utc_3d
    ∧ dt_sub next_birthday (td_days 1) = Ok reminder_1d
    ∧ astimezone_utc utcoffset reminder_1d = Ok utc_1d
    ∧ astimezone_utc utcoffset next_birthday = Ok birthday_utc
    ∧ dt_add birthday_utc (td_seconds 2) = Ok congrats_time
    ∧ replace_year next_birthday (year next_birthday + 1)
      = Ok next_year_birthday
    ∧ astimezone_utc utcoffset next_year_birthday = Ok next_year_utc
    ∧ dt_add next_year_utc (td_days 1) = Ok annual_time.
Proof.
  intros Hd Ht Hne Hy nb.
  pose proof (dt_to_delta_bounds _ _ _ _ _ _ _ Hd Ht) as Hnb. fold nb in Hnb.
  pose proof (check_date_fields_other_year _ (y + 1) _ _ Hd Hne ltac:(lia))
    as Hd1.
  pose proof (dt_to_delta_bounds _ _ _ _ _ _ _ Hd1 Ht) as Hny.
  pose proof (days_before_year_bounds y ltac:(lia)) as [Hy1 Hy2].
  pose proof (days_before_year_bounds (y + 1) ltac:(lia)) as [Hz1 Hz2].
  unfold dt_sub, td_days, td_seconds, _MAXORDINAL in *.
  destruct (dt_add_within nb (- (3 * 86400000000))) as (r3 & E3 & D3);
    [unfold _MAXORDINAL; lia|].
  destruct (astimezone_utc_within r3) as (u3 & F3 & _);
    [unfold _MAXORDINAL; lia|].
  destruct (dt_add_within nb (- (1 * 86400000000))) as (r1 & E1 & D1);
    [unfold _MAXORDINAL; lia|].
  destruct (astimezone_utc_within r1) as (u1 & F1 & _);
    [unfold _MAXORDINAL; lia|].
  destruct (astimezone_utc_within nb) as (bu & Fb & Db);
    [unfold _MAXORDINAL; lia|].
  pose proof (utcoffset_bound nb).
  destruct (dt_add_within bu (2 * 1000000)) as (ct & Ec & _);
    [unfold _MAXORDINAL; lia|].
  set (ny := mkdt (y + 1) m d h mi 0 0) in *.
  destruct (astimezone_utc_within ny) as (nu & Fn & Dn);
    [unfold _MAXORDINAL; lia|].
  pose proof (utcoffset_bound ny).
  destruct (dt_add_within nu (1 * 86400000000)) as (at_ & Ea & _);
    [unfold _MAXORDINAL; lia|].
  exists r3, u3, r1, u1, bu, ct, ny, nu, at_.
  repeat split; try done.
  unfold replace_year, datetime_new. simpl. by rewrite Hd1, Ht.
Qed.

Lemma db_with_scheduler f w : db (with_scheduler f w) = db w.
Proof. reflexivity. Qed.

Lemma ids_free_lookups chat_id name jobs :
  ids_free chat_id name jobs →
  jobs !! job_id_of chat_id name "3d" = None
  ∧ jobs !! job_id_of chat_id name "1d" = None
  ∧ jobs !! job_id_of chat_id name "day_notification" = None
  ∧ jobs !! job_id_of chat_id name "day_congrats" = None
  ∧ jobs !! job_id_of chat_id name "annual" = None.
Proof.
  intros H. repeat split; apply H; rewrite list_elem_of_In; simpl; tauto.
Qed.

Ltac solve_fresh :=
  cbn [scheduler with_scheduler];
  rewrite ?lookup_insert_ne by (apply job_id_of_ne; discriminate);
  assumption.

Ltac mstep :=
  first
    [ rewrite bind_run
    | rewrite lift_run
    | rewrite gets_run
    | rewrite ret_run
    | rewrite add_job_fresh by solve_fresh ];
  cbv beta iota zeta.

(** What [schedule_reminders] does for a stored subscription whose five
    identifiers are free: the jobs of the enabled flags and the annual job
    are registered, nothing else changes. *)
Lemma schedule_reminders_spec
    name birthdate_str chat_id reminder_time telegram_username w row b h mi :
  fetchone (by_name_chat name chat_id) (db w) = Some row →
  strptime birthdate_str = Ok b →
  ¬ (month b = 2 ∧ day b = 29) →
  parse_hour_minute reminder_time = Ok (h, mi) →
  0 ≤ h ≤ 23 → 0 ≤ mi ≤ 59 →
  2 ≤ year (now w) ≤ 9990 →
  ids_free chat_id name (scheduler w) →
  ∃ next_birthday reminder_3d utc_3d reminder_1d utc_1d birthday_utc
    congrats_time next_year_birthday next_year_utc annual_time,
    get_next_birthday birthdate_str reminder_time w = (Ok next_birthday, w)
    ∧ dt_sub next_birthday (td_days 3) = Ok reminder_3d
    ∧ astimezone_utc utcoffset reminder_3d = Ok utc_3d
    ∧ dt_sub next_birthday (td_days 1) = Ok reminder_1d
    ∧ astimezone_utc utcoffset reminder_1d = Ok utc_1d
    ∧ astimezone_utc utcoffset next_birthday = Ok birthday_utc
    ∧ dt_add birthday_utc (td_seconds 2) = Ok congrats_time
    ∧ replace_year next_birthday (year next_birthday + 1)
      = Ok next_year_birthday
    ∧ astimezone_utc utcoffset next_year_birthday = Ok next_year_utc
    ∧ dt_add next_year_utc (td_days 1) = Ok annual_time
    ∧ schedule_reminders utcoffset name birthdate_str chat_id reminder_time
        telegram_username w
      = (Ok (),
         with_scheduler (λ jobs,
           <[job_id_of chat_id name "annual" :=
               mkJob (call_schedule_reminders name birthdate_str chat_id
                        reminder_time telegram_username) annual_time]>
           (add_if (truthy (c_remind_day row))
              (job_id_of chat_id name "day_congrats")
              (mkJob (call_send_congrats_message chat_id name birthdate_str
                        (c_description row)) congrats_time)
           (add_if (truthy (c_remind_day row))
              (job_id_of chat_id name "day_notification")
              (mkJob (call_send_birthday_notification chat_id name
                        telegram_username) birthday_utc)
           (add_if (truthy (c_remind_1_day row))
              (job_id_of chat_id name "1d")
              (mkJob (call_send_reminder chat_id
                        ("⏰ Напоминание: Завтра у " +:+ name
                         +:+ " день рождения!")) utc_1d)
           (add_if (truthy (c_remind_3_days row))
              (job_id_of chat_id name "3d")
              (mkJob (call_send_reminder chat_id
                        ("⏰ Напоминание: Через 3 дня у " +:+ name
                         +:+ " день рождения!")) utc_3d)
              jobs))))) w).
Proof.
  intros Hrow Hb Hne Ht Hh Hmi Hy Hfree.
  destruct (ids_free_lookups _ _ _ Hfree) as (I3 & I1 & In_ & Ic & Ia).
  destruct (get_next_birthday_Ok _ _ w _ _ _ Hb Hne Ht Hh Hmi ltac:(lia))
    as (y & Hnb & Hyy & Hd).
  assert (_check_time_fields h mi 0 0 = true) as Htime.
  { unfold _check_time_fields. repeat (apply andb_true_iff; split); lia. }
  destruct (run_dates_exist y (month b) (day b) h mi Hd Htime Hne ltac:(lia))
    as (r3 & u3 & r1 & u1 & bu & ct & ny & nu & at_
        & E3 & F3 & E1 & F1 & Fb & Ec & En & Fn & Ea).
  exists (mkdt y (month b) (day b) h mi 0 0), r3, u3, r1, u1, bu, ct, ny, nu,
    at_.
  do 10 (split; [done|]).
  unfold schedule_reminders.
  rewrite bind_run, gets_run. cbv beta iota zeta. rewrite Hrow.
  rewrite bind_run, Hnb. cbv beta iota zeta.
  destruct (truthy (c_remind_3_days row)), (truthy (c_remind_1_day row)),
    (truthy (c_remind_day row));
    repeat (first [ mstep
                  | rewrite E3 | rewrite F3 | rewrite E1 | rewrite F1
                  | rewrite Fb | rewrite Ec | rewrite En | rewrite Fn
                  | rewrite Ea | rewrite db_with_scheduler | rewrite Hrow ];
            cbv beta iota zeta);
    reflexivity.
Qed.

End Arming.

Lemma msk_bound dt : - 86400000000 < msk dt < 86400000000.
Proof. unfold msk, td_hours. lia. Qed.

Lemma ids_free_empty chat_id name : ids_free chat_id name ∅.
Proof. intros kind _. apply lookup_empty. Qed.

(** The jobs of the specification's example, with their UTC run dates. *)
Example schedule_reminders_anna :
  schedule_reminders msk "Anna" "15.05.1990" 42 "09:00" None w_anna
  = (Ok (),
     with_scheduler (λ _, list_to_map
       [ ("42_Anna_3d",
          mkJob (call_send_reminder 42
                   "⏰ Напоминание: Через 3 дня у Anna день рождения!")
            (mkdt 2024 5 12 6 0 0 0));
         ("42_Anna_1d",
          mkJob (call_send_reminder 42
                   "⏰ Напоминание: Завтра у Anna день рождения!")
            (mkdt 2024 5 14 6 0 0 0));
         ("42_Anna_day_notification",
          mkJob (call_send_birthday_notification 42 "Anna" None)
            (mkdt 2024 5 15 6 0 0 0));
         ("42_Anna_day_congrats",
          mkJob (call_send_congrats_message 42 "Anna" "15.05.1990"
                   (Some "likes cats"))
            (mkdt 2024 5 15 6 0 2 0));
         ("42_Anna_annual",
          mkJob (call_schedule_reminders "Anna" "15.05.1990" 42 "09:00" None)
            (mkdt 2025 5 16 6 0 0 0)) ]) w_anna).
Proof. vm_compute. reflexivity. Qed.

(** The same jobs result from confirming the addition of Anna in an empty
    table. *)
Example process_confirm_anna :
  let w' :=
    (process_confirm msk (mkMessage "✅ Да, сохранить" 7 42)
       (mkAddData "Anna" "15.05.1990" (Some "likes cats") None "09:00")
       (mkWorld [] ∅ (mkdt 2024 5 10 12 0 0 0) [])).2 in
  db w' = [anna]
  ∧ scheduler w' = scheduler w_armed
  ∧ outbox w'
    = [(42, "🎉 День рождения Anna добавлен!" +:+ nl
            +:+ "⏰ Напоминания: 09:00 МСК" +:+ nl
            +:+ "📆 Следующий ДР: через 4 дней")].
Proof. repeat split; vm_compute; reflexivity. Qed.

Section ArmingClaims.

Variable utcoffset : datetime → timedelta.
Hypothesis utcoffset_bound :
  ∀ dt, - 86400000000 < utcoffset dt < 86400000000.

(** C2, as amended: arming a stored subscription whose three flags are all
    enabled, whose birthdate is not 29 February and none of whose
    identifiers is taken, registers exactly five jobs.  Their run dates, as
    instants: 3d at the next birthday minus 3 days, 1d at the next birthday
    minus 1 day, day_notification at the next birthday, each less the UTC
    offset of that local datetime; day_congrats 2 seconds after the
    notification; annual one day after the same month, day and time of the
    following year, less the UTC offset of that datetime. *)
Theorem schedule_reminders_all_flags
    (name birthdate_str : string) (chat_id : Z) (reminder_time : string)
    (telegram_username : option string) (w : World) (row : Row)
    (b : datetime) (h mi : Z) :
  fetchone (by_name_chat name chat_id) (db w) = Some row →
  truthy (c_remind_3_days row) = true →
  truthy (c_remind_1_day row) = true →
  truthy (c_remind_day row) = true →
  strptime birthdate_str = Ok b →
  ¬ (month b = 2 ∧ day b = 29) →
  parse_hour_minute reminder_time = Ok (h, mi) →
  0 ≤ h ≤ 23 → 0 ≤ mi ≤ 59 →
  2 ≤ year (now w) ≤ 9990 →
  ids_free chat_id name (scheduler w) →
  ∃ next_birthday reminder_3d reminder_1d utc_3d utc_1d birthday_utc
    congrats_time annual_time w',
    get_next_birthday birthdate_str reminder_time w = (Ok next_birthday, w)
    ∧ dt_to_delta reminder_3d = dt_to_delta next_birthday - td_days 3
    ∧ dt_to_delta utc_3d = dt_to_delta reminder_3d - utcoffset reminder_3d
    ∧ dt_to_delta reminder_1d = dt_to_delta next_birthday - td_days 1
    ∧ dt_to_delta utc_1d = dt_to_delta reminder_1d - utcoffset reminder_1d
    ∧ dt_to_delta birthday_utc
      = dt_to_delta next_birthday - utcoffset next_birthday
    ∧ dt_to_delta congrats_time = dt_to_delta birthday_utc + td_seconds 2
    ∧ (let next_year_birthday :=
         mkdt (year next_birthday + 1) (month next_birthday)
           (day next_birthday) (hour next_birthday) (minute next_birthday)
           (second next_birthday) (microsecond next_birthday) in
       dt_to_delta annual_time
       = dt_to_delta next_year_birthday - utcoffset next_year_birthday
         + td_days 1)
    ∧ rbind (dt_sub next_birthday (td_days 3)) (astimezone_utc utcoffset)
      = Ok utc_3d
    ∧ rbind (dt_sub next_birthday (td_days 1)) (astimezone_utc utcoffset)
      = Ok utc_1d
    ∧ astimezone_utc utcoffset next_birthday = Ok birthday_utc
    ∧ dt_add birthday_utc (td_seconds 2) = Ok congrats_time
    ∧ rbind (rbind (replace_year next_birthday (year next_birthday + 1))
               (astimezone_utc utcoffset))
        (λ next_year_utc, dt_add next_year_utc (td_days 1))
      = Ok annual_time
    ∧ schedule_reminders utcoffset name birthdate_str chat_id reminder_time
        telegram_username w = (Ok (), w')
    ∧ db w' = db w ∧ now w' = now w ∧ outbox w' = outbox w
    ∧ scheduler w'
      = <[job_id_of chat_id name "annual" :=
            mkJob (call_schedule_reminders name birthdate_str chat_id
                     reminder_time telegram_username) annual_time]>
        (<[job_id_of chat_id name "day_congrats" :=
             mkJob (call_send_congrats_message chat_id name birthdate_str
                      (c_description row)) congrats_time]>
        (<[job_id_of chat_id name "day_notification" :=
             mkJob (call_send_birthday_notification chat_id name
                      telegram_username) birthday_utc]>
        (<[job_id_of chat_id name "1d" :=
             mkJob (call_send_reminder chat_id
                      ("⏰ Напоминание: Завтра у " +:+ name
                       +:+ " день рождения!")) utc_1d]>
        (<[job_id_of chat_id name "3d" :=
             mkJob (call_send_reminder chat_id
                      ("⏰ Напоминание: Через 3 дня у " +:+ name
                       +:+ " день рождения!")) utc_3d]>
           (scheduler w)))))
    ∧ size (scheduler w') = (size (scheduler w) + 5)%nat.
Proof.
  intros Hrow F3 F1 Fd Hb Hne Ht Hh Hmi Hy Hfree.
  destruct (schedule_reminders_spec utcoffset utcoffset_bound name
              birthdate_str chat_id reminder_time telegram_username w row
              b h mi Hrow Hb Hne Ht Hh Hmi Hy Hfree)
    as (nb & r3 & u3 & r1 & u1 & bu & ct & ny & nu & at_
        & Hnb & E3 & G3 & E1 & G1 & Gb & Ec & En & Gn & Ea & Hrun).
  destruct (ids_free_lookups _ _ _ Hfree) as (I3 & I1 & In_ & Ic & Ia).
  rewrite F3, F1, Fd in Hrun. unfold add_if in Hrun.
  eexists nb, r3, r1, u3, u1, bu, ct, at_, _.
  split; [done|].
  split; [by apply dt_sub_delta|].
  split; [by apply astimezone_utc_delta|].
  split; [by apply dt_sub_delta|].
  split; [by apply astimezone_utc_delta|].
  split; [by apply astimezone_utc_delta|].
  split; [by apply dt_add_delta in Ec|].
  split.
  { pose proof (datetime_new_Ok _ _ _ _ _ _ _ _ En) as (Eny & _ & _).
    cbv zeta. rewrite <-Eny.
    apply astimezone_utc_delta in Gn. apply dt_add_delta in Ea. lia. }
  split; [by rewrite E3|]. split; [by rewrite E1|].
  split; [done|]. split; [done|]. split; [by rewrite En; simpl; rewrite Gn|].
  split; [exact Hrun|].
  split; [done|]. split; [done|]. split; [done|]. split; [done|].
  cbn [scheduler with_scheduler].
  rewrite !map_size_insert_None;
    [lia | rewrite ?lookup_insert_ne by (apply job_id_of_ne; discriminate);
           assumption ..].
Qed.

(** C10, as amended: for a stored subscription whose birthdate is not
    29 February and none of whose identifiers is taken, whatever its three
    flags are, arming registers the annual job: it is due one day after the
    same month, day and time of the year after the next birthday, less the
    UTC offset of that datetime, and its action is [schedule_reminders]
    with the arguments of this call.  With the three flags disabled that
    job is the only one the call adds, and the only one pending under the
    subscription's five identifiers. *)
Theorem schedule_reminders_annual_always
    (name birthdate_str : string) (chat_id : Z) (reminder_time : string)
    (telegram_username : option string) (w : World) (row : Row)
    (b : datetime) (h mi : Z) :
  fetchone (by_name_chat name chat_id) (db w) = Some row →
  strptime birthdate_str = Ok b →
  ¬ (month b = 2 ∧ day b = 29) →
  parse_hour_minute reminder_time = Ok (h, mi) →
  0 ≤ h ≤ 23 → 0 ≤ mi ≤ 59 →
  2 ≤ year (now w) ≤ 9990 →
  ids_free chat_id name (scheduler w) →
  ∃ next_birthday annual_time w',
    get_next_birthday birthdate_str reminder_time w = (Ok next_birthday, w)
    ∧ schedule_reminders utcoffset name birthdate_str chat_id reminder_time
        telegram_username w = (Ok (), w')
    ∧ scheduler w' !! job_id_of chat_id name "annual"
      = Some (mkJob (call_schedule_reminders name birthdate_str chat_id
                       reminder_time telegram_username) annual_time)
    ∧ (let next_year_birthday :=
         mkdt (year next_birthday + 1) (month next_birthday)
           (day next_birthday) (hour next_birthday) (minute next_birthday)
           (second next_birthday) (microsecond next_birthday) in
       dt_to_delta annual_time
       = dt_to_delta next_year_birthday - utcoffset next_year_birthday
         + td_days 1)
    ∧ (truthy (c_remind_3_days row) = false →
       truthy (c_remind_1_day row) = false →
       truthy (c_remind_day row) = false →
       scheduler w'
       = <[job_id_of chat_id name "annual" :=
             mkJob (call_schedule_reminders name birthdate_str chat_id
                      reminder_time telegram_username) annual_time]>
           (scheduler w)
       ∧ size (scheduler w') = S (size (scheduler w))
       ∧ ∀ kind,
           kind ∈ ["3d"; "1d"; "day_notification"; "day_congrats"; "annual"] →
           (is_Some (scheduler w' !! job_id_of chat_id name kind)
            ↔ kind = "annual")).
Proof.
  intros Hrow Hb Hne Ht Hh Hmi Hy Hfree.
  destruct (schedule_reminders_spec utcoffset utcoffset_bound name
              birthdate_str chat_id reminder_time telegram_username w row
              b h mi Hrow Hb Hne Ht Hh Hmi Hy Hfree)
    as (nb & r3 & u3 & r1 & u1 & bu & ct & ny & nu & at_
        & Hnb & E3 & G3 & E1 & G1 & Gb & Ec & En & Gn & Ea & Hrun).
  destruct (ids_free_lookups _ _ _ Hfree) as (I3 & I1 & In_ & Ic & Ia).
  eexists nb, at_, _. split; [done|]. split; [exact Hrun|].
  cbn [scheduler with_scheduler]. split; [apply lookup_insert_eq|].
  split.
  { pose proof (datetime_new_Ok _ _ _ _ _ _ _ _ En) as (Eny & _ & _).
    cbv zeta. rewrite <-Eny.
    apply astimezone_utc_delta in Gn. apply dt_add_delta in Ea. lia. }
  intros -> -> ->. unfold add_if.
  split; [done|]. split; [by apply map_size_insert_None|].
  intros kind Hkind. split.
  - intros [j Hj].
    destruct (decide (kind = "annual")) as [|Hk]; [done|].
    rewrite lookup_insert_ne in Hj by (by apply job_id_of_ne).
    by rewrite (Hfree kind Hkind) in Hj.
  - intros ->. rewrite lookup_insert_eq. eauto.
Qed.

End ArmingClaims.

(** Arming Anna's subscription, the three flags enabled. *)
Lemma schedule_reminders_all_flags_witness :
  ∃ next_birthday reminder_3d reminder_1d utc_3d utc_1d birthday_utc
    congrats_time annual_time w',
    get_next_birthday "15.05.1990" "09:00" w_anna = (Ok next_birthday, w_anna)
    ∧ dt_to_delta reminder_3d = dt_to_delta next_birthday - td_days 3
    ∧ dt_to_delta utc_3d = dt_to_delta reminder_3d - msk reminder_3d
    ∧ dt_to_delta reminder_1d = dt_to_delta next_birthday - td_days 1
    ∧ dt_to_delta utc_1d = dt_to_delta reminder_1d - msk reminder_1d
    ∧ dt_to_delta birthday_utc
      = dt_to_delta next_birthday - msk next_birthday
    ∧ dt_to_delta congrats_time = dt_to_delta birthday_utc + td_seconds 2
    ∧ (let next_year_birthday :=
         mkdt (year next_birthday + 1) (month next_birthday)
           (day next_birthday) (hour next_birthday) (minute next_birthday)
           (second next_birthday) (microsecond next_birthday) in
       dt_to_delta annual_time
       = dt_to_delta next_year_birthday - msk next_year_birthday
         + td_days 1)
    ∧ rbind (dt_sub next_birthday (td_days 3)) (astimezone_utc msk)
      = Ok utc_3d
    ∧ rbind (dt_sub next_birthday (td_days 1)) (astimezone_utc msk)
      = Ok utc_1d
    ∧ astimezone_utc msk next_birthday = Ok birthday_utc
    ∧ dt_add birthday_utc (td_seconds 2) = Ok congrats_time
    ∧ rbind (rbind (replace_year next_birthday (year next_birthday + 1))
               (astimezone_utc msk))
        (λ next_year_utc, dt_add next_year_utc (td_days 1))
      = Ok annual_time
    ∧ schedule_reminders msk "Anna" "15.05.1990" 42 "09:00" None w_anna
      = (Ok (), w')
    ∧ db w' = db w_anna ∧ now w' = now w_anna ∧ outbox w' = outbox w_anna
    ∧ scheduler w'
      = <[job_id_of 42 "Anna" "annual" :=
            mkJob (call_schedule_reminders "Anna" "15.05.1990" 42 "09:00"
                     None) annual_time]>
        (<[job_id_of 42 "Anna" "day_congrats" :=
             mkJob (call_send_congrats_message 42 "Anna" "15.05.1990"
                      (c_description anna)) congrats_time]>
        (<[job_id_of 42 "Anna" "day_notification" :=
             mkJob (call_send_birthday_notification 42 "Anna" None)
               birthday_utc]>
        (<[job_id_of 42 "Anna" "1d" :=
             mkJob (call_send_reminder 42
                      ("⏰ Напоминание: Завтра у " +:+ "Anna"
                       +:+ " день рождения!")) utc_1d]>
        (<[job_id_of 42 "Anna" "3d" :=
             mkJob (call_send_reminder 42
                      ("⏰ Напоминание: Через 3 дня у " +:+ "Anna"
                       +:+ " день рождения!")) utc_3d]>
           (scheduler w_anna)))))
    ∧ size (scheduler w') = (size (scheduler w_anna) + 5)%nat.
Proof.
  apply (schedule_reminders_all_flags msk msk_bound "Anna" "15.05.1990" 42
           "09:00" None w_anna anna (mkdt 1990 5 15 0 0 0 0) 9 0).
  - reflexivity.
  - reflexivity.
  - reflexivity.
  - reflexivity.
  - vm_compute. reflexivity.
  - simpl. lia.
  - vm_compute. reflexivity.
  - lia.
  - lia.
  - simpl. lia.
  - apply ids_free_empty.
Defined.

(** Arming Anna's subscription, the three flags disabled. *)
Lemma schedule_reminders_annual_always_witness :
  ∃ next_birthday annual_time w',
    get_next_birthday "15.05.1990" "09:00" w_anna_quiet
    = (Ok next_birthday, w_anna_quiet)
    ∧ schedule_reminders msk "Anna" "15.05.1990" 42 "09:00" None w_anna_quiet
      = (Ok (), w')
    ∧ scheduler w' !! job_id_of 42 "Anna" "annual"
      = Some (mkJob (call_schedule_reminders "Anna" "15.05.1990" 42 "09:00"
                       None) annual_time)
    ∧ (let next_year_birthday :=
         mkdt (year next_birthday + 1) (month next_birthday)
           (day next_birthday) (hour next_birthday) (minute next_birthday)
           (second next_birthday) (microsecond next_birthday) in
       dt_to_delta annual_time
       = dt_to_delta next_year_birthday - msk next_year_birthday
         + td_days 1)
    ∧ (truthy (c_remind_3_days anna_quiet) = false →
       truthy (c_remind_1_day anna_quiet) = false →
       truthy (c_remind_day anna_quiet) = false →
       scheduler w'
       = <[job_id_of 42 "Anna" "annual" :=
             mkJob (call_schedule_reminders "Anna" "15.05.1990" 42 "09:00"
                      None) annual_time]>
           (scheduler w_anna_quiet)
       ∧ size (scheduler w') = S (size (scheduler w_anna_quiet))
       ∧ ∀ kind,
           kind ∈ ["3d"; "1d"; "day_notification"; "day_congrats"; "annual"] →
           (is_Some (scheduler w' !! job_id_of 42 "Anna" kind)
            ↔ kind = "annual")).
Proof.
  apply (schedule_reminders_annual_always msk msk_bound "Anna" "15.05.1990"
           42 "09:00" None w_anna_quiet anna_quiet (mkdt 1990 5 15 0 0 0 0)
           9 0).
  - reflexivity.
  - vm_compute. reflexivity.
  - simpl. lia.
  - vm_compute. reflexivity.
  - lia.
  - lia.
  - simpl. lia.
  - apply ids_free_empty.
Defined.

(** Arming Lea, whose birthday is 29 February, on 10 January 2024 with the
    three flags enabled: the four jobs of 29 February 2024 are added, the
    date of the following year cannot be built, the call raises and no
    annual job is registered.  And arming Anna, whose flags are enabled as
    well, while her five jobs are pending: the call raises at the first
    [add_job] and registers nothing. *)
Lemma all_flags_leap_day_counterexample :
  let r := schedule_reminders msk "Lea" "29.02.2000" 42 "09:00" None w_lea in
  fetchone (by_name_chat "Lea" 42) (db w_lea) = Some lea
  ∧ (c_remind_3_days lea, c_remind_1_day lea, c_remind_day lea) = (1, 1, 1)
  ∧ r.1 = Raise ValueError
  ∧ size (scheduler r.2) = 4%nat
  ∧ scheduler r.2 !! "42_Lea_annual" = None
  ∧ fetchone (by_name_chat "Anna" 42) (db w_armed) = Some anna
  ∧ size (scheduler w_armed) = 5%nat
  ∧ schedule_reminders msk "Anna" "15.05.1990" 42 "09:00" None w_armed
    = (Raise ConflictingIdError, w_armed).
Proof. repeat split; vm_compute; reflexivity. Qed.

(** Arming Lea with the three flags disabled: the call raises and leaves
    the job store empty, so the subscription has no pending job at all.
    Arming Anna with her flags disabled a second time raises at the annual
    identifier.  And the cycle of Anna, armed on 10 May 2024: her jobs are
    set for May 2024 and the annual job for 16 May 2025, the day after her
    birthday of 2025; fired then, it sets the notification for 15 May
    2026. *)
Lemma annual_leap_day_counterexample :
  let w1 :=
    (schedule_reminders msk "Anna" "15.05.1990" 42 "09:00" None
       w_anna_quiet).2 in
  schedule_reminders msk "Lea" "29.02.2000" 42 "09:00" None w_lea_quiet
  = (Raise ValueError, w_lea_quiet)
  ∧ fetchone (by_name_chat "Lea" 42) (db w_lea_quiet) = Some lea_quiet
  ∧ scheduler w_lea_quiet = ∅
  ∧ schedule_reminders msk "Anna" "15.05.1990" 42 "09:00" None w1
    = (Raise ConflictingIdError, w1)
  ∧ run_date <$> scheduler w_armed !! "42_Anna_day_notification"
    = Some (mkdt 2024 5 15 6 0 0 0)
  ∧ run_date <$> scheduler w_armed !! "42_Anna_annual"
    = Some (mkdt 2025 5 16 6 0 0 0)
  ∧ run_date
    <$> scheduler (fire msk plain_congrats "42_Anna_annual" w_year_later)
        !! "42_Anna_day_notification"
    = Some (mkdt 2026 5 15 6 0 0 0).
Proof. repeat split; vm_compute; reflexivity. Qed.

(** ** One job per identifier *)

(** Arming Anna a second time, for 10:00, raises [ConflictingIdError] at
    the first [add_job], and the pending 3d job keeps the run date of the
    first call. *)
Lemma schedule_twice_counterexample :
  schedule_reminders msk "Anna" "15.05.1990" 42 "10:00" None w_armed
  = (Raise ConflictingIdError, w_armed)
  ∧ run_date <$> scheduler w_armed !! "42_Anna_3d"
    = Some (mkdt 2024 5 12 6 0 0 0)
  ∧ rbind (rbind (get_next_birthday "15.05.1990" "10:00" w_armed).1
             (λ next_birthday, dt_sub next_birthday (td_days 3)))
      (astimezone_utc msk)
    = Ok (mkdt 2024 5 12 7 0 0 0).
Proof. vm_compute. done. Qed.

(** C3, as amended: the job store holds at most one job per identifier.
    [add_job] under a taken identifier raises [ConflictingIdError] and
    leaves the store as it is, the pending job keeping its run date; under
    a free identifier it adds the job and touches no other identifier.  A
    job is replaced by cancelling it first: then exactly the second job,
    with its run date, is pending under the identifier. *)
Theorem add_job_one_per_id
    (call : Call) (rd : datetime) (job_id : string) (w : World) :
  (is_Some (scheduler w !! job_id) →
   add_job call rd job_id w = (Raise ConflictingIdError, w))
  ∧ (scheduler w !! job_id = None →
     add_job call rd job_id w
     = (Ok (), with_scheduler (insert job_id (mkJob call rd)) w)
     ∧ size (scheduler (add_job call rd job_id w).2) = S (size (scheduler w)))
  ∧ (try_except_pass (remove_job job_id) ;; add_job call rd job_id) w
    = (Ok (), with_scheduler (insert job_id (mkJob call rd)) w)
  ∧ (∀ w', (try_except_pass (remove_job job_id) ;; add_job call rd job_id) w
           = (Ok (), w') →
       scheduler w' !! job_id = Some (mkJob call rd)
       ∧ (∀ other, other ≠ job_id → scheduler w' !! other = scheduler w !! other)
       ∧ size (scheduler w')
         = match scheduler w !! job_id with
           | Some _ => size (scheduler w)
           | None => S (size (scheduler w))
           end).
Proof.
  assert ((try_except_pass (remove_job job_id) ;; add_job call rd job_id) w
          = (Ok (), with_scheduler (insert job_id (mkJob call rd)) w)) as Hre.
  { rewrite bind_run, try_remove_job. cbv beta iota.
    rewrite add_job_fresh by apply lookup_delete_eq.
    destruct w. unfold with_scheduler. cbn [db scheduler now outbox].
    by rewrite insert_delete_eq. }
  split; [apply add_job_taken|].
  split.
  { intros Hfree. rewrite add_job_fresh by done. split; [done|].
    cbn [snd scheduler with_scheduler]. by apply map_size_insert_None. }
  split; [exact Hre|].
  intros w' Hw'. rewrite Hre in Hw'. injection Hw' as <-.
  cbn [scheduler with_scheduler].
  split; [apply lookup_insert_eq|].
  split; [intros other Hne; by apply lookup_insert_ne|].
  destruct (scheduler w !! job_id) eqn:Hj.
  - by rewrite map_size_insert_Some.
  - by apply map_size_insert_None.
Qed.

(** Adding a job under Anna's pending 3d identifier. *)
Lemma add_job_one_per_id_witness :
  let call := call_send_reminder 42 "again" in
  let rd := mkdt 2024 5 12 7 0 0 0 in
  (is_Some (scheduler w_armed !! "42_Anna_3d") →
   add_job call rd "42_Anna_3d" w_armed = (Raise ConflictingIdError, w_armed))
  ∧ (scheduler w_armed !! "42_Anna_3d" = None →
     add_job call rd "42_Anna_3d" w_armed
     = (Ok (), with_scheduler (insert "42_Anna_3d" (mkJob call rd)) w_armed)
     ∧ size (scheduler (add_job call rd "42_Anna_3d" w_armed).2)
       = S (size (scheduler w_armed)))
  ∧ (try_except_pass (remove_job "42_Anna_3d") ;;
     add_job call rd "42_Anna_3d") w_armed
    = (Ok (), with_scheduler (insert "42_Anna_3d" (mkJob call rd)) w_armed)
  ∧ (∀ w', (try_except_pass (remove_job "42_Anna_3d") ;;
            add_job call rd "42_Anna_3d") w_armed = (Ok (), w') →
       scheduler w' !! "42_Anna_3d" = Some (mkJob call rd)
       ∧ (∀ other, other ≠ "42_Anna_3d" →
            scheduler w' !! other = scheduler w_armed !! other)
       ∧ size (scheduler w')
         = match scheduler w_armed !! "42_Anna_3d" with
           | Some _ => size (scheduler w_armed)
           | None => S (size (scheduler w_armed))
           end).
Proof.
  exact (add_job_one_per_id (call_send_reminder 42 "again")
           (mkdt 2024 5 12 7 0 0 0) "42_Anna_3d" w_armed).
Defined.

(** ** Cancelling *)

Lemma remove_scheduled_reminders_run chat_id name w :
  remove_scheduled_reminders chat_id name w
  = (Ok (), with_scheduler (delete_five chat_id name) w).
Proof.
  unfold remove_scheduled_reminders, for_each.
  repeat (rewrite bind_run, try_remove_job; cbv beta iota).
  by destruct w.
Qed.

Lemma delete_five_lookup chat_id name jobs job_id :
  delete_five chat_id name jobs !! job_id
  = if bool_decide (job_id ∈ five_ids chat_id name) then None
    else jobs !! job_id.
Proof.
  unfold delete_five, five_ids.
  case_bool_decide as Hin.
  - repeat (apply elem_of_cons in Hin as [->|Hin];
            [by rewrite ?lookup_delete_eq, ?lookup_delete_ne
                by (apply job_id_of_ne; discriminate);
                rewrite ?lookup_delete_eq|]).
    by apply elem_of_nil in Hin.
  - rewrite !lookup_delete_ne;
      [done|intros <-; apply Hin; repeat constructor..].
Qed.

Lemma delete_five_idemp chat_id name jobs :
  delete_five chat_id name (delete_five chat_id name jobs)
  = delete_five chat_id name jobs.
Proof.
  apply map_eq. intros i. rewrite !delete_five_lookup.
  by case_bool_decide.
Qed.

(** C7: cancelling an identifier that has no pending job returns normally
    and leaves the world as it is; [remove_scheduled_reminders] returns
    normally, leaves none of the five identifiers of the key pending and
    every other job in place, and running it a second time changes
    nothing. *)
Theorem remove_reminders_tolerant (chat_id : Z) (name : string) (w : World) :
  (∀ reminder_type,
     scheduler w !! job_id_of chat_id name reminder_type = None →
     remove_job (job_id_of chat_id name reminder_type) w
     = (Raise JobLookupError, w)
     ∧ remove_specific_reminder chat_id name reminder_type w = (Ok (), w))
  ∧ ∃ w1,
      remove_scheduled_reminders chat_id name w = (Ok (), w1)
      ∧ db w1 = db w ∧ now w1 = now w ∧ outbox w1 = outbox w
      ∧ (∀ job_id,
           scheduler w1 !! job_id
           = if bool_decide (job_id ∈ five_ids chat_id name) then None
             else scheduler w !! job_id)
      ∧ remove_scheduled_reminders chat_id name w1 = (Ok (), w1).
Proof.
  split.
  - intros reminder_type Hnone. split.
    + unfold remove_job. by rewrite Hnone.
    + unfold remove_specific_reminder. rewrite try_remove_job.
      by rewrite with_scheduler_same by (by apply delete_id).
  - eexists. split; [apply remove_scheduled_reminders_run|].
    split; [done|]. split; [done|]. split; [done|].
    split; [intros job_id; apply delete_five_lookup|].
    rewrite remove_scheduled_reminders_run. f_equal.
    destruct w. unfold with_scheduler. cbn [db scheduler now outbox].
    by rewrite delete_five_idemp.
Qed.

(** ** Deleting a subscription *)

Lemma answer_run message text w :
  answer message text w
  = (Ok (), with_outbox (λ o, o ++ [(m_chat_id message, text)]) w).
Proof. reflexivity. Qed.

Lemma fetchone_sql_delete p table : fetchone p (sql_delete p table) = None.
Proof.
  unfold fetchone, sql_delete.
  induction table as [|r table IH]; simpl; [done|].
  destruct (p r) eqn:Hp; simpl; [done|]. by rewrite Hp.
Qed.


(** ** Editing the reminder flags *)

(** What saving the flags does: the row is updated, the kinds whose flag
    is 0 are cancelled, and no job is added. *)
Lemma save_reminders_run message user_data r3d r1d rd w :
  ∃ text,
    save_reminders message user_data r3d r1d rd w
    = (Ok None,
       with_outbox (λ o, o ++ [(m_chat_id message, text)])
         (with_scheduler (λ jobs,
            let job_id := job_id_of (m_chat_id message) (settings_name user_data) in
            let jobs := if r3d =? 0 then delete (job_id "3d") jobs else jobs in
            let jobs := if r1d =? 0 then delete (job_id "1d") jobs else jobs in
            if rd =? 0
            then delete (job_id "day_congrats")
                   (delete (job_id "day_notification") jobs)
            else jobs)
            (with_db
               (sql_update
                  (by_name_user (settings_name user_data)
                     (m_from_user_id message))
                  (set_flags r3d r1d rd)) w))).
Proof.
  eexists. unfold save_reminders, remove_specific_reminder.
  rewrite bind_run, modify_run. cbv beta iota.
  destruct (r3d =? 0), (r1d =? 0), (rd =? 0);
    repeat (first [ rewrite bind_run | rewrite try_remove_job
                  | rewrite ret_run | rewrite answer_run ];
            cbv beta iota zeta);
    by destruct w.
Qed.

Example w_no_3d_state :
  (c_remind_3_days <$> fetchone (by_name_chat "Anna" 42) (db w_no_3d),
   c_remind_1_day <$> fetchone (by_name_chat "Anna" 42) (db w_no_3d),
   c_remind_day <$> fetchone (by_name_chat "Anna" 42) (db w_no_3d))
  = (Some 0, Some 1, Some 1)
  ∧ scheduler w_no_3d !! "42_Anna_3d" = None
  ∧ size (scheduler w_no_3d) = 4%nat.
Proof. repeat split; vm_compute; reflexivity. Qed.

(** C6 at the failing input: choosing "enable all" for a subscription
    whose flags are being edited writes the three flags as 1 and answers
    that the reminders are enabled, and leaves the job store exactly as it
    was: the job of a kind that had been disabled is not scheduled. *)
Theorem enable_all_schedules_nothing
    (utcoffset : datetime → timedelta) (str_lower : string → string)
    (message : Message) (user_data : SettingsData) (w : World) :
  m_text message = "✅ Включить все" →
  parameter user_data = "reminders" →
  ∃ w',
    process_settings_value utcoffset str_lower message user_data w
    = (Ok None, w')
    ∧ db w'
      = sql_update
          (by_name_user (settings_name user_data) (m_from_user_id message))
          (set_flags 1 1 1) (db w)
    ∧ scheduler w' = scheduler w.
Proof.
  intros Htext Hparam.
  unfold process_settings_value, settings_reminders.
  rewrite Htext, Hparam.
  rewrite (bool_decide_eq_false_2 (_ = "❌ Отмена")) by discriminate.
  rewrite (bool_decide_eq_false_2 (_ = "time")) by discriminate.
  rewrite (bool_decide_eq_true_2 ("reminders" = "reminders")) by done.
  cbv zeta.
  rewrite (bool_decide_eq_true_2 (_ = "✅ Включить все")) by done.
  destruct (save_reminders_run message user_data 1 1 1 w) as [text ->].
  eexists. split; [reflexivity|]. split; [done|].
  by destruct w.
Qed.

(** Enabling all reminders of Anna after the 3-day one was disabled. *)
Lemma enable_all_schedules_nothing_witness :
  ∃ w',
    process_settings_value msk (λ s, s) (mkMessage "✅ Включить все" 7 42)
      settings_anna w_no_3d
    = (Ok None, w')
    ∧ db w'
      = sql_update
          (by_name_user (settings_name settings_anna)
             (m_from_user_id (mkMessage "✅ Включить все" 7 42)))
          (set_flags 1 1 1) (db w_no_3d)
    ∧ scheduler w' = scheduler w_no_3d.
Proof.
  apply (enable_all_schedules_nothing msk (λ s, s)
           (mkMessage "✅ Включить все" 7 42) settings_anna w_no_3d).
  - reflexivity.
  - reflexivity.
Defined.

(** The state after the failing input: the flag is 1 in the table, no 3d
    job is pending. *)
Example enable_all_after_disable :
  let w' :=
    (process_settings_value msk (λ s, s) (mkMessage "✅ Включить все" 7 42)
       settings_anna w_no_3d).2 in
  c_remind_3_days <$> fetchone (by_name_chat "Anna" 42) (db w') = Some 1
  ∧ scheduler w' !! "42_Anna_3d" = None.
Proof. split; vm_compute; reflexivity. Qed.

(** The time branch of the same handler, for comparison, disarms and arms
    again: after a change to 10:00 the five jobs are pending with the run
    dates of the new time. *)
Example time_edit_rearms :
  let w' :=
    (process_settings_value msk (λ s, s) (mkMessage "10:00" 7 42)
       (mkSettingsData "Anna" "time" "15.05.1990" 1 1 1 None None None None)
       w_armed).2 in
  c_reminder_time <$> fetchone (by_name_chat "Anna" 42) (db w') = Some "10:00"
  ∧ run_date <$> scheduler w' !! "42_Anna_3d" = Some (mkdt 2024 5 12 7 0 0 0)
  ∧ run_date <$> scheduler w' !! "42_Anna_1d" = Some (mkdt 2024 5 14 7 0 0 0)
  ∧ run_date <$> scheduler w' !! "42_Anna_day_notification"
    = Some (mkdt 2024 5 15 7 0 0 0)
  ∧ run_date <$> scheduler w' !! "42_Anna_day_congrats"
    = Some (mkdt 2024 5 15 7 0 2 0)
  ∧ run_date <$> scheduler w' !! "42_Anna_annual"
    = Some (mkdt 2025 5 16 7 0 0 0)
  ∧ size (scheduler w') = 5%nat.
Proof. repeat split; vm_compute; reflexivity. Qed.

(** ** Firing the annual and the congratulation job *)

Lemma get_next_birthday_now birthdate_str reminder_time w1 w2 :
  now w1 = now w2 →
  (get_next_birthday birthdate_str reminder_time w1).1
  = (get_next_birthday birthdate_str reminder_time w2).1.
Proof.
  intros H. rewrite !get_next_birthday_eq, H.
  by repeat case_match.
Qed.

Lemma fire_due utcoffset generate_congrats job_id w job utcnow :
  scheduler w !! job_id = Some job →
  astimezone_utc utcoffset (now w) = Ok utcnow →
  0 ≤ dt_to_delta utcnow - dt_to_delta (run_date job) ≤ misfire_grace_time →
  fire utcoffset generate_congrats job_id w
  = (run_call utcoffset generate_congrats (func job)
       (with_scheduler (delete job_id) w)).2.
Proof.
  intros Hjob Hnow [Hlo Hhi]. unfold fire. rewrite Hjob, Hnow.
  destruct (Z.leb_spec 0 (dt_to_delta utcnow - dt_to_delta (run_date job)));
    [|lia].
  by destruct (Z.leb_spec (dt_to_delta utcnow - dt_to_delta (run_date job))
                 misfire_grace_time); [|lia].
Qed.

(** The annual job re-arms with the reminder time it was armed with, not
    with the one in the table: the notification of 2026 is set for 09:00
    in Moscow (06:00 UTC), where 10:00 would be 07:00 UTC. *)
Lemma annual_keeps_time_counterexample :
  let w' := fire msk plain_congrats "42_Anna_annual" w_year_later in
  c_reminder_time <$> fetchone (by_name_chat "Anna" 42) (db w') = Some "10:00"
  ∧ scheduler w' !! "42_Anna_day_notification"
    = Some (mkJob (call_send_birthday_notification 42 "Anna" None)
              (mkdt 2026 5 15 6 0 0 0))
  ∧ scheduler w' !! "42_Anna_annual"
    = Some (mkJob (call_schedule_reminders "Anna" "15.05.1990" 42 "09:00" None)
              (mkdt 2027 5 16 6 0 0 0))
  ∧ rbind (get_next_birthday "15.05.1990" "10:00" w_year_later).1
      (astimezone_utc msk)
    = Ok (mkdt 2026 5 15 7 0 0 0).
Proof. repeat split; vm_compute; reflexivity. Qed.

(** The composer reads the world for the clock only. *)
Lemma generate_congrats_run format_other template_draw gift_draw
    name birthdate_str description w :
  Composer.generate_congrats format_other template_draw gift_draw
    name birthdate_str description w
  = (Composer.congrats_at format_other template_draw gift_draw (now w)
       name birthdate_str description, w).
Proof.
  unfold Composer.congrats_at, Composer.generate_congrats.
  rewrite !bind_run. unfold calculate_age. rewrite !bind_run, !lift_run.
  by destruct (strptime birthdate_str).
Qed.

(** A draw counts modulo the length of the sequence: 5 templates, 9 or 10
    gift ideas. *)
Lemma choice_template n :
  Composer.choice n Composer.CONGRATS_TEMPLATES
  = Composer.choice (n mod 5) Composer.CONGRATS_TEMPLATES.
Proof.
  unfold Composer.choice. cbn [length Composer.CONGRATS_TEMPLATES].
  by rewrite Nat.Div0.mod_mod.
Qed.

Lemma choice_gift_idea n age_category :
  Composer.choice n (Composer.GIFT_IDEAS age_category)
  = Composer.choice (n mod 90) (Composer.GIFT_IDEAS age_category).
Proof.
  assert (Hmod : ∀ a b, ((n mod (a * b)) mod a = n mod a)%nat).
  { intros a b. rewrite Nat.Div0.mod_mul_r, (Nat.mul_comm a).
    by rewrite Nat.Div0.mod_add, Nat.Div0.mod_mod. }
  unfold Composer.choice.
  destruct age_category; cbn [length Composer.GIFT_IDEAS]; f_equal;
    first [exact (eq_sym (Hmod 9 10)%nat) | exact (eq_sym (Hmod 10 9)%nat)].
Qed.

Lemma congrats_at_draws format_other template_draw gift_draw today
    name birthdate_str description :
  Composer.congrats_at format_other template_draw gift_draw today
    name birthdate_str description
  = Composer.congrats_at format_other (template_draw mod 5) (gift_draw mod 90)
      today name birthdate_str description.
Proof.
  unfold Composer.congrats_at, Composer.generate_congrats.
  rewrite !bind_run.
  destruct (calculate_age birthdate_str _) as [[a|e] w']; [|done].
  cbv beta iota zeta.
  by rewrite choice_template, choice_gift_idea.
Qed.

(** On Anna's birthday the table says "likes dogs" and the job carries
    "likes cats", the description read when it was armed.  Whatever the
    composer draws, the text delivered is the one it composes from the
    name, the birthdate and "likes cats", and "likes dogs" does not occur
    in it. *)
Lemma congrats_keeps_description_counterexample :
  c_description <$> fetchone (by_name_chat "Anna" 42) (db w_birthday)
  = Some (Some "likes dogs")
  ∧ func <$> scheduler w_birthday !! "42_Anna_day_congrats"
    = Some (call_send_congrats_message 42 "Anna" "15.05.1990"
              (Some "likes cats"))
  ∧ ∀ format_other template_draw gift_draw,
      ∃ congrats,
        Composer.generate_congrats format_other template_draw gift_draw
          "Anna" "15.05.1990" (Some "likes cats") w_birthday
        = (Ok congrats, w_birthday)
        ∧ outbox
            (fire msk
               (Composer.congrats_at format_other template_draw gift_draw)
               "42_Anna_day_congrats" w_birthday)
          = [(42, congrats +:+ nl +:+ nl
                  +:+ "💌 <i>Это сообщение можно отправить Anna для поздравления!</i>")]
        ∧ occurs_in "likes dogs" congrats = false.
Proof.
  split; [vm_compute; reflexivity|]. split; [vm_compute; reflexivity|].
  intros format_other template_draw gift_draw.
  set (composed i j :=
         Composer.congrats_at format_other i j (now w_birthday)
           "Anna" "15.05.1990" (Some "likes cats")).
  assert (Hall :
    forallb (λ i, forallb (λ j,
      match composed i j with
      | Ok congrats => negb (occurs_in "likes dogs" congrats)
      | Raise _ => false
      end) (seq 0 90)) (seq 0 5) = true)
    by (vm_compute; reflexivity).
  rewrite forallb_forall in Hall.
  specialize (Hall (template_draw mod 5)%nat).
  rewrite forallb_forall in Hall.
  assert (Hseq : ∀ n k : nat, k ≠ 0%nat → In (n mod k)%nat (seq 0 k)).
  { intros n k Hk. apply in_seq.
    pose proof (Nat.mod_upper_bound n k Hk). lia. }
  specialize (Hall (Hseq template_draw 5%nat ltac:(done))
                (gift_draw mod 90)%nat (Hseq gift_draw 90%nat ltac:(done))).
  unfold composed in Hall. rewrite <-congrats_at_draws in Hall.
  destruct (Composer.congrats_at format_other template_draw gift_draw
              (now w_birthday) "Anna" "15.05.1990" (Some "likes cats"))
    as [congrats|e] eqn:Hc; [|done].
  exists congrats.
  split; [by rewrite generate_congrats_run, Hc|].
  split; [|by apply negb_true_iff].
  rewrite (fire_due msk _ "42_Anna_day_congrats" w_birthday
             (mkJob (call_send_congrats_message 42 "Anna" "15.05.1990"
                       (Some "likes cats")) (mkdt 2024 5 15 6 0 2 0))
             (mkdt 2024 5 15 6 0 2 0));
    [|vm_compute; reflexivity..|vm_compute; split; discriminate].
  cbn [func run_call]. unfold send_congrats_message.
  rewrite bind_run. unfold get_moscow_now. rewrite gets_run. cbv beta iota.
  rewrite bind_run, lift_run. cbn [now with_scheduler].
  change (now w_birthday) with (mkdt 2024 5 15 9 0 2 0) in Hc.
  cbn [w_birthday now]. rewrite Hc. reflexivity.
Qed.

Section FiringClaims.

Variable utcoffset : datetime → timedelta.
Hypothesis utcoffset_bound :
  ∀ dt, - 86400000000 < utcoffset dt < 86400000000.
Variable generate_congrats :
  datetime → string → string → option string → result string.

(** C5, as amended: the annual job is due one day after the occurrence of
    the following year, in UTC, and carries the name, birthdate, chat,
    reminder time and username [schedule_reminders] was called with.  When
    it fires, [schedule_reminders] runs again with these captured
    arguments: the flags and the description are those of the row in the
    table at that time, the next birthday is computed from the captured
    birthdate and reminder time, and the new annual job carries the same
    arguments again. *)
Theorem annual_job_rearms_captured
    (name birthdate_str : string) (chat_id : Z) (reminder_time : string)
    (telegram_username : option string) (w : World) (row : Row)
    (b : datetime) (h mi : Z) :
  fetchone (by_name_chat name chat_id) (db w) = Some row →
  strptime birthdate_str = Ok b →
  ¬ (month b = 2 ∧ day b = 29) →
  parse_hour_minute reminder_time = Ok (h, mi) →
  0 ≤ h ≤ 23 → 0 ≤ mi ≤ 59 →
  2 ≤ year (now w) ≤ 9990 →
  ids_free chat_id name (scheduler w) →
  let annual_id := job_id_of chat_id name "annual" in
  let rearm :=
    call_schedule_reminders name birthdate_str chat_id reminder_time
      telegram_username in
  ∃ next_birthday annual_time w',
    get_next_birthday birthdate_str reminder_time w = (Ok next_birthday, w)
    ∧ rbind (rbind (replace_year next_birthday (year next_birthday + 1))
               (astimezone_utc utcoffset))
        (λ next_year_utc, dt_add next_year_utc (td_days 1))
      = Ok annual_time
    ∧ schedule_reminders utcoffset name birthdate_str chat_id reminder_time
        telegram_username w = (Ok (), w')
    ∧ scheduler w' !! annual_id = Some (mkJob rearm annual_time)
    ∧ ∀ w2 utcnow,
        scheduler w2 !! annual_id = Some (mkJob rearm annual_time) →
        astimezone_utc utcoffset (now w2) = Ok utcnow →
        0 ≤ dt_to_delta utcnow - dt_to_delta annual_time ≤ misfire_grace_time →
        fire utcoffset generate_congrats annual_id w2
        = (schedule_reminders utcoffset name birthdate_str chat_id
             reminder_time telegram_username
             (with_scheduler (delete annual_id) w2)).2
        ∧ ∀ row2,
            fetchone (by_name_chat name chat_id) (db w2) = Some row2 →
            2 ≤ year (now w2) ≤ 9990 →
            ids_free chat_id name (delete annual_id (scheduler w2)) →
            ∃ next_birthday2 utc_3d utc_1d birthday_utc congrats_time
              annual_time2,
              get_next_birthday birthdate_str reminder_time w2
              = (Ok next_birthday2, w2)
              ∧ astimezone_utc utcoffset next_birthday2 = Ok birthday_utc
              ∧ scheduler (fire utcoffset generate_congrats annual_id w2)
                = <[annual_id := mkJob rearm annual_time2]>
                  (add_if (truthy (c_remind_day row2))
                     (job_id_of chat_id name "day_congrats")
                     (mkJob (call_send_congrats_message chat_id name
                               birthdate_str (c_description row2))
                        congrats_time)
                  (add_if (truthy (c_remind_day row2))
                     (job_id_of chat_id name "day_notification")
                     (mkJob (call_send_birthday_notification chat_id name
                               telegram_username) birthday_utc)
                  (add_if (truthy (c_remind_1_day row2))
                     (job_id_of chat_id name "1d")
                     (mkJob (call_send_reminder chat_id
                               ("⏰ Напоминание: Завтра у " +:+ name
                                +:+ " день рождения!")) utc_1d)
                  (add_if (truthy (c_remind_3_days row2))
                     (job_id_of chat_id name "3d")
                     (mkJob (call_send_reminder chat_id
                               ("⏰ Напоминание: Через 3 дня у " +:+ name
                                +:+ " день рождения!")) utc_3d)
                     (delete annual_id (scheduler w2)))))).
Proof.
  intros Hrow Hb Hne Ht Hh Hmi Hy Hfree annual_id rearm.
  destruct (schedule_reminders_spec utcoffset utcoffset_bound name
              birthdate_str chat_id reminder_time telegram_username w row
              b h mi Hrow Hb Hne Ht Hh Hmi Hy Hfree)
    as (nb & r3 & u3 & r1 & u1 & bu & ct & ny & nu & at_
        & Hnb & E3 & G3 & E1 & G1 & Gb & Ec & En & Gn & Ea & Hrun).
  eexists nb, at_, _.
  split; [done|]. split; [by rewrite En; simpl; rewrite Gn|].
  split; [exact Hrun|].
  cbn [scheduler with_scheduler]. split; [apply lookup_insert_eq|].
  intros w2 utcnow Hjob Hnow Hdue.
  rewrite (fire_due _ _ _ _ _ _ Hjob Hnow Hdue). cbn [func run_call].
  split; [done|].
  intros row2 Hrow2 Hy2 Hfree2.
  destruct (schedule_reminders_spec utcoffset utcoffset_bound name
              birthdate_str chat_id reminder_time telegram_username
              (with_scheduler (delete annual_id) w2) row2 b h mi
              Hrow2 Hb Hne Ht Hh Hmi Hy2 Hfree2)
    as (nb2 & r32 & u32 & r12 & u12 & bu2 & ct2 & ny2 & nu2 & at2
        & Hnb2 & _ & _ & _ & _ & Gb2 & _ & _ & _ & _ & Hrun2).
  exists nb2, u32, u12, bu2, ct2, at2.
  split.
  { apply (f_equal fst) in Hnb2. cbn [fst] in Hnb2.
    rewrite (get_next_birthday_now _ _ _ w2) in Hnb2 by done.
    rewrite (surjective_pairing (get_next_birthday _ _ w2)).
    by rewrite Hnb2, get_next_birthday_world. }
  split; [done|].
  unfold rearm. cbn [run_call]. by rewrite Hrun2.
Qed.

(** C8, as amended: the congratulation job is due two seconds after the
    next birthday, in UTC, and carries the chat, name, birthdate and the
    description of the row read while arming.  When it fires, the composer
    is called with the name, the birthdate and that captured description,
    and its text is sent to the chat, whatever the table holds then. *)
Theorem congrats_job_captured_description
    (name birthdate_str : string) (chat_id : Z) (reminder_time : string)
    (telegram_username : option string) (w : World) (row : Row)
    (b : datetime) (h mi : Z) :
  fetchone (by_name_chat name chat_id) (db w) = Some row →
  truthy (c_remind_day row) = true →
  strptime birthdate_str = Ok b →
  ¬ (month b = 2 ∧ day b = 29) →
  parse_hour_minute reminder_time = Ok (h, mi) →
  0 ≤ h ≤ 23 → 0 ≤ mi ≤ 59 →
  2 ≤ year (now w) ≤ 9990 →
  ids_free chat_id name (scheduler w) →
  let congrats_id := job_id_of chat_id name "day_congrats" in
  let congratulate :=
    call_send_congrats_message chat_id name birthdate_str (c_description row) in
  ∃ next_birthday birthday_utc congrats_time w',
    get_next_birthday birthdate_str reminder_time w = (Ok next_birthday, w)
    ∧ astimezone_utc utcoffset next_birthday = Ok birthday_utc
    ∧ dt_add birthday_utc (td_seconds 2) = Ok congrats_time
    ∧ schedule_reminders utcoffset name birthdate_str chat_id reminder_time
        telegram_username w = (Ok (), w')
    ∧ scheduler w' !! congrats_id = Some (mkJob congratulate congrats_time)
    ∧ ∀ w2 utcnow congrats,
        scheduler w2 !! congrats_id = Some (mkJob congratulate congrats_time) →
        astimezone_utc utcoffset (now w2) = Ok utcnow →
        0 ≤ dt_to_delta utcnow - dt_to_delta congrats_time
          ≤ misfire_grace_time →
        generate_congrats (now w2) name birthdate_str (c_description row)
        = Ok congrats →
        fire utcoffset generate_congrats congrats_id w2
        = with_outbox (λ o, o ++
            [(chat_id,
              congrats +:+ nl +:+ nl
              +:+ "💌 <i>Это сообщение можно отправить " +:+ name
              +:+ " для поздравления!</i>")])
            (with_scheduler (delete congrats_id) w2).
Proof.
  intros Hrow Fd Hb Hne Ht Hh Hmi Hy Hfree congrats_id congratulate.
  destruct (schedule_reminders_spec utcoffset utcoffset_bound name
              birthdate_str chat_id reminder_time telegram_username w row
              b h mi Hrow Hb Hne Ht Hh Hmi Hy Hfree)
    as (nb & r3 & u3 & r1 & u1 & bu & ct & ny & nu & at_
        & Hnb & E3 & G3 & E1 & G1 & Gb & Ec & En & Gn & Ea & Hrun).
  eexists nb, bu, ct, _.
  split; [done|]. split; [done|]. split; [done|]. split; [exact Hrun|].
  rewrite Fd. unfold add_if at 1 2. cbn [scheduler with_scheduler].
  split.
  { rewrite lookup_insert_ne by (apply job_id_of_ne; discriminate).
    apply lookup_insert_eq. }
  intros w2 utcnow congrats Hjob Hnow Hdue Hcongrats.
  rewrite (fire_due _ _ _ _ _ _ Hjob Hnow Hdue).
  unfold congratulate. cbn [func run_call]. unfold send_congrats_message.
  rewrite bind_run. unfold get_moscow_now. rewrite gets_run. cbv beta iota.
  cbn [now with_scheduler].
  rewrite bind_run, lift_run, Hcongrats. cbv beta iota zeta.
  reflexivity.
Qed.

End FiringClaims.

(** The annual job of Anna's subscription. *)
Lemma annual_job_rearms_captured_witness :
  ∃ annual_time w',
    schedule_reminders msk "Anna" "15.05.1990" 42 "09:00" None w_anna
    = (Ok (), w')
    ∧ scheduler w' !! job_id_of 42 "Anna" "annual"
      = Some (mkJob (call_schedule_reminders "Anna" "15.05.1990" 42 "09:00"
                       None) annual_time)
    ∧ ∀ w2 utcnow,
        scheduler w2 !! job_id_of 42 "Anna" "annual"
        = Some (mkJob (call_schedule_reminders "Anna" "15.05.1990" 42 "09:00"
                         None) annual_time) →
        astimezone_utc msk (now w2) = Ok utcnow →
        0 ≤ dt_to_delta utcnow - dt_to_delta annual_time ≤ misfire_grace_time →
        fire msk plain_congrats (job_id_of 42 "Anna" "annual") w2
        = (schedule_reminders msk "Anna" "15.05.1990" 42 "09:00" None
             (with_scheduler (delete (job_id_of 42 "Anna" "annual")) w2)).2.
Proof.
  destruct (annual_job_rearms_captured msk msk_bound plain_congrats
              "Anna" "15.05.1990" 42 "09:00" None w_anna anna
              (mkdt 1990 5 15 0 0 0 0) 9 0)
    as (nb & annual_time & w' & _ & _ & Hrun & Hjob & Hfire).
  - reflexivity.
  - vm_compute. reflexivity.
  - simpl. lia.
  - vm_compute. reflexivity.
  - lia.
  - lia.
  - simpl. lia.
  - apply ids_free_empty.
  - exists annual_time, w'. split; [exact Hrun|]. split; [exact Hjob|].
    intros w2 utcnow H1 H2 H3. exact (proj1 (Hfire w2 utcnow H1 H2 H3)).
Defined.

(** The congratulation job of Anna's subscription. *)
Lemma congrats_job_captured_description_witness :
  ∃ congrats_time w',
    schedule_reminders msk "Anna" "15.05.1990" 42 "09:00" None w_anna
    = (Ok (), w')
    ∧ scheduler w' !! job_id_of 42 "Anna" "day_congrats"
      = Some (mkJob (call_send_congrats_message 42 "Anna" "15.05.1990"
                       (Some "likes cats")) congrats_time).
Proof.
  destruct (congrats_job_captured_description msk msk_bound plain_congrats
              "Anna" "15.05.1990" 42 "09:00" None w_anna anna
              (mkdt 1990 5 15 0 0 0 0) 9 0)
    as (nb & bu & congrats_time & w' & _ & _ & _ & Hrun & Hjob & _).
  - reflexivity.
  - reflexivity.
  - vm_compute. reflexivity.
  - simpl. lia.
  - vm_compute. reflexivity.
  - lia.
  - lia.
  - simpl. lia.
  - apply ids_free_empty.
  - exists congrats_time, w'. split; [exact Hrun|exact Hjob].
Defined.

(** * Further properties of the orchestrator *)

(** ** What arming never touches *)

Lemma only_adds_refl chat_id name w : only_adds chat_id name w w.
Proof. by repeat split. Qed.

Lemma only_adds_trans chat_id name w1 w2 w3 :
  only_adds chat_id name w1 w2 → only_adds chat_id name w2 w3 →
  only_adds chat_id name w1 w3.
Proof.
  intros (D1 & N1 & O1 & K1 & F1) (D2 & N2 & O2 & K2 & F2).
  repeat split; try congruence.
  - intros job_id job H. by apply K2, K1.
  - intros job_id H. by rewrite F2, F1.
Qed.

Section Keeps.

Context (R : World → World → Prop).
Hypothesis R_refl : ∀ w, R w w.
Hypothesis R_trans : ∀ w1 w2 w3, R w1 w2 → R w2 w3 → R w1 w3.

Lemma keeps_bind {A B} (m : M A) (k : A → M B) :
  keeps R m → (∀ a, keeps R (k a)) → keeps R (m ≫= k).
Proof.
  intros Hm Hk w. rewrite bind_run. specialize (Hm w).
  destruct (m w) as [[a|e] w1]; simpl in *; [|done].
  by apply (R_trans _ w1), Hk.
Qed.

Lemma keeps_ret {A} (a : A) : keeps R (mret a).
Proof. intros w. apply R_refl. Qed.

Lemma keeps_lift {A} (r : result A) : keeps R (lift r).
Proof. intros w. apply R_refl. Qed.

Lemma keeps_gets {A} (f : World → A) : keeps R (gets f).
Proof. intros w. apply R_refl. Qed.

Lemma keeps_get_next_birthday birthdate_str reminder_time :
  keeps R (get_next_birthday birthdate_str reminder_time).
Proof. intros w. rewrite get_next_birthday_world. apply R_refl. Qed.

Lemma keeps_try_except_pass (m : M unit) :
  keeps R m → keeps R (try_except_pass m).
Proof. intros Hm w. apply Hm. Qed.

Lemma keeps_for_each {A} (xs : list A) (body : A → M unit) :
  (∀ x, x ∈ xs → keeps R (body x)) → keeps R (for_each xs body).
Proof.
  induction xs as [|x xs IH]; intros H; simpl; [apply keeps_ret|].
  apply keeps_bind; [apply H; left|intros _; apply IH].
  intros y Hy. apply H. by right.
Qed.

End Keeps.

Lemma five_ids_kind chat_id name kind :
  kind ∈ ["3d"; "1d"; "day_notification"; "day_congrats"; "annual"] →
  job_id_of chat_id name kind ∈ five_ids chat_id name.
Proof.
  intros H. unfold five_ids.
  repeat (apply elem_of_cons in H as [->|H]; [repeat constructor|]).
  by apply elem_of_nil in H.
Qed.

Lemma keeps_add_job chat_id name call rd job_id :
  job_id ∈ five_ids chat_id name →
  keeps (only_adds chat_id name) (add_job call rd job_id).
Proof.
  intros Hin w. unfold add_job.
  destruct (scheduler w !! job_id) eqn:Hj; simpl; [apply only_adds_refl|].
  repeat split; try done; simpl.
  - intros i j Hi. rewrite lookup_insert_ne; [done|]. intros ->. congruence.
  - intros i Hi. rewrite lookup_insert_ne; [done|]. by intros ->.
Qed.

Ltac keeps_steps :=
  repeat first
    [ apply keeps_ret; apply only_adds_refl
    | apply keeps_lift; apply only_adds_refl
    | apply keeps_gets; apply only_adds_refl
    | apply keeps_get_next_birthday; apply only_adds_refl
    | apply keeps_add_job; apply five_ids_kind; repeat constructor
    | apply (keeps_bind _ (only_adds_trans _ _)); [|intros ?]
    | match goal with
      | |- keeps _ (if ?b then _ else _) => destruct b
      | |- keeps _ (match ?x with _ => _ end) => destruct x
      end ].

Lemma keeps_schedule_reminders utcoffset name birthdate_str chat_id
    reminder_time telegram_username :
  keeps (only_adds chat_id name)
    (schedule_reminders utcoffset name birthdate_str chat_id reminder_time
       telegram_username).
Proof. unfold schedule_reminders. keeps_steps. Qed.

(** X1: whether it returns or raises, [schedule_reminders] leaves the
    table, the clock and the sent messages as they are, keeps every pending
    job as it is, and adds jobs under the five identifiers of its chat and
    name only. *)
Theorem schedule_reminders_only_adds
    (utcoffset : datetime → timedelta)
    (name birthdate_str : string) (chat_id : Z) (reminder_time : string)
    (telegram_username : option string) (w : World) :
  only_adds chat_id name w
    (schedule_reminders utcoffset name birthdate_str chat_id reminder_time
       telegram_username w).2.
Proof.
  revert w.
  change (keeps (only_adds chat_id name)
            (schedule_reminders utcoffset name birthdate_str chat_id
               reminder_time telegram_username)).
  unfold schedule_reminders.
  apply (keeps_bind _ (only_adds_trans _ _));
    [apply keeps_gets, only_adds_refl|].
  intros [row|]; [|apply keeps_ret, only_adds_refl].
  keeps_steps.
Qed.

(** For a name and chat that have no row in the table,
    [schedule_reminders] returns normally and changes nothing, whatever
    the other arguments are. *)
Lemma schedule_reminders_no_row
    (utcoffset : datetime → timedelta)
    (name birthdate_str : string) (chat_id : Z) (reminder_time : string)
    (telegram_username : option string) (w : World) :
  fetchone (by_name_chat name chat_id) (db w) = None →
  schedule_reminders utcoffset name birthdate_str chat_id reminder_time
    telegram_username w = (Ok (), w).
Proof.
  intros H. unfold schedule_reminders.
  rewrite bind_run, gets_run. cbv beta iota. by rewrite H.
Qed.

Lemma schedule_reminders_no_row_witness :
  schedule_reminders msk "Boris" "not a date" 42 "25:99" None w_anna
  = (Ok (), w_anna).
Proof.
  apply (schedule_reminders_no_row msk "Boris" "not a date" 42 "25:99" None
           w_anna).
  reflexivity.
Defined.

(** ** Deleting while the scheduler is awake *)

Section Deleting.

Variable utcoffset : datetime → timedelta.
Variable generate_congrats :
  datetime → string → string → option string → result string.







End Deleting.



(** ** Arming, cancelling and arming again *)

Lemma ids_free_delete_five chat_id name jobs :
  ids_free chat_id name (delete_five chat_id name jobs).
Proof.
  intros kind Hkind. rewrite delete_five_lookup.
  by rewrite bool_decide_eq_true_2 by (by apply five_ids_kind).
Qed.

Lemma five_ids_free chat_id name jobs job_id :
  ids_free chat_id name jobs → job_id ∈ five_ids chat_id name →
  jobs !! job_id = None.
Proof.
  intros Hfree Hin. unfold five_ids in Hin.
  repeat (apply elem_of_cons in Hin as [->|Hin];
          [apply Hfree; repeat constructor|]).
  by apply elem_of_nil in Hin.
Qed.

Lemma armed_jobs_annual name b c t u row d3 d1 dn dc da jobs :
  armed_jobs name b c t u row d3 d1 dn dc da jobs !! job_id_of c name "annual"
  = Some (mkJob (call_schedule_reminders name b c t u) da).
Proof. apply lookup_insert_eq. Qed.

Section Composing.

Variable utcoffset : datetime → timedelta.
Hypothesis utcoffset_bound :
  ∀ dt, - 86400000000 < utcoffset dt < 86400000000.

(** [schedule_reminders_spec] with the job store written as [armed_jobs]
    and the run dates as instants. *)
Lemma schedule_reminders_armed
    name birthdate_str chat_id reminder_time telegram_username w row b h mi :
  fetchone (by_name_chat name chat_id) (db w) = Some row →
  strptime birthdate_str = Ok b →
  ¬ (month b = 2 ∧ day b = 29) →
  parse_hour_minute reminder_time = Ok (h, mi) →
  0 ≤ h ≤ 23 → 0 ≤ mi ≤ 59 →
  2 ≤ year (now w) ≤ 9990 →
  ∃ next_birthday reminder_3d utc_3d reminder_1d utc_1d birthday_utc
    congrats_time next_year_birthday next_year_utc annual_time,
    get_next_birthday birthdate_str reminder_time w = (Ok next_birthday, w)
    ∧ dt_sub next_birthday (td_days 3) = Ok reminder_3d
    ∧ astimezone_utc utcoffset reminder_3d = Ok utc_3d
    ∧ dt_sub next_birthday (td_days 1) = Ok reminder_1d
    ∧ astimezone_utc utcoffset reminder_1d = Ok utc_1d
    ∧ astimezone_utc utcoffset next_birthday = Ok birthday_utc
    ∧ dt_add birthday_utc (td_seconds 2) = Ok congrats_time
    ∧ replace_year next_birthday (year next_birthday + 1)
      = Ok next_year_birthday
    ∧ astimezone_utc utcoffset next_year_birthday = Ok next_year_utc
    ∧ dt_add next_year_utc (td_days 1) = Ok annual_time
    ∧ ∀ jobs,
        ids_free chat_id name jobs →
        schedule_reminders utcoffset name birthdate_str chat_id reminder_time
          telegram_username (with_scheduler (λ _, jobs) w)
        = (Ok (),
           with_scheduler (λ _,
             armed_jobs name birthdate_str chat_id reminder_time
               telegram_username row utc_3d utc_1d birthday_utc congrats_time
               annual_time jobs) w).
Proof.
  intros Hrow Hb Hne Ht Hh Hmi Hy.
  destruct (schedule_reminders_spec utcoffset utcoffset_bound name
              birthdate_str chat_id reminder_time telegram_username
              (with_scheduler (λ _, ∅) w) row b h mi Hrow Hb Hne Ht Hh Hmi Hy
              (ids_free_empty _ _))
    as (nb & r3 & u3 & r1 & u1 & bu & ct & ny & nu & at_
        & Hnb & E3 & G3 & E1 & G1 & Gb & Ec & En & Gn & Ea & _).
  exists nb, r3, u3, r1, u1, bu, ct, ny, nu, at_.
  assert (∀ w2, now w2 = now w →
            get_next_birthday birthdate_str reminder_time w2 = (Ok nb, w2))
    as Hnb'.
  { intros w2 Hw2.
    rewrite (surjective_pairing (get_next_birthday _ _ _)).
    rewrite get_next_birthday_world.
    rewrite (get_next_birthday_now _ _ _ (with_scheduler (λ _, ∅) w)) by done.
    by rewrite Hnb. }
  split; [by apply Hnb'|].
  do 9 (split; [done|]).
  intros jobs Hfree.
  destruct (schedule_reminders_spec utcoffset utcoffset_bound name
              birthdate_str chat_id reminder_time telegram_username
              (with_scheduler (λ _, jobs) w) row b h mi Hrow Hb Hne Ht Hh Hmi
              Hy Hfree)
    as (nb' & r3' & u3' & r1' & u1' & bu' & ct' & ny' & nu' & at'
        & Hnb2 & E3' & G3' & E1' & G1' & Gb' & Ec' & En' & Gn' & Ea' & Hrun).
  rewrite Hnb' in Hnb2 by done. injection Hnb2 as <-.
  rewrite E3 in E3'. injection E3' as <-.
  rewrite G3 in G3'. injection G3' as <-.
  rewrite E1 in E1'. injection E1' as <-.
  rewrite G1 in G1'. injection G1' as <-.
  rewrite Gb in Gb'. injection Gb' as <-.
  rewrite Ec in Ec'. injection Ec' as <-.
  rewrite En in En'. injection En' as <-.
  rewrite Gn in Gn'. injection Gn' as <-.
  rewrite Ea in Ea'. injection Ea' as <-.
  rewrite Hrun. by destruct w.
Qed.

Ltac fresh_id :=
  cbn [scheduler with_scheduler];
  rewrite ?lookup_insert_ne by (apply job_id_of_ne; discriminate);
  assumption.

Ltac solve_taken :=
  cbn [scheduler with_scheduler]; unfold armed_jobs, add_if;
  rewrite ?lookup_insert_ne by (apply job_id_of_ne; discriminate);
  rewrite lookup_insert_eq; eauto.

(** X2: arming a subscription that is already armed raises
    [ConflictingIdError] at the first job it tries to add, whatever the
    flags are, and leaves the world as the first arming left it. *)
Theorem schedule_reminders_twice
    (name birthdate_str : string) (chat_id : Z) (reminder_time : string)
    (telegram_username : option string) (w : World) (row : Row)
    (b : datetime) (h mi : Z) :
  fetchone (by_name_chat name chat_id) (db w) = Some row →
  strptime birthdate_str = Ok b →
  ¬ (month b = 2 ∧ day b = 29) →
  parse_hour_minute reminder_time = Ok (h, mi) →
  0 ≤ h ≤ 23 → 0 ≤ mi ≤ 59 →
  2 ≤ year (now w) ≤ 9990 →
  ids_free chat_id name (scheduler w) →
  ∃ w1,
    schedule_reminders utcoffset name birthdate_str chat_id reminder_time
      telegram_username w = (Ok (), w1)
    ∧ schedule_reminders utcoffset name birthdate_str chat_id reminder_time
        telegram_username w1 = (Raise ConflictingIdError, w1).
Proof.
  intros Hrow Hb Hne Ht Hh Hmi Hy Hfree.
  destruct (schedule_reminders_armed name birthdate_str chat_id reminder_time
              telegram_username w row b h mi Hrow Hb Hne Ht Hh Hmi Hy)
    as (nb & r3 & u3 & r1 & u1 & bu & ct & ny & nu & at_
        & Hnb & E3 & G3 & E1 & G1 & Gb & Ec & En & Gn & Ea & Hrun).
  specialize (Hrun (scheduler w) Hfree).
  rewrite (with_scheduler_same (λ _, scheduler w) w) in Hrun by done.
  eexists. split; [exact Hrun|].
  unfold schedule_reminders.
  rewrite bind_run, gets_run. cbv beta iota zeta.
  rewrite db_with_scheduler, Hrow.
  rewrite bind_run.
  rewrite (surjective_pairing (get_next_birthday _ _ _)).
  rewrite get_next_birthday_world.
  rewrite (get_next_birthday_now _ _ _ w) by done.
  rewrite Hnb. cbv beta iota zeta. cbn [fst]. unfold armed_jobs.
  destruct (truthy (c_remind_3_days row)), (truthy (c_remind_1_day row)),
    (truthy (c_remind_day row));
    repeat (first [ rewrite bind_run | rewrite lift_run | rewrite ret_run
                  | rewrite E3 | rewrite G3 | rewrite E1 | rewrite G1
                  | rewrite Gb | rewrite Ec | rewrite En | rewrite Gn
                  | rewrite Ea
                  | rewrite add_job_taken by solve_taken ];
            cbv beta iota zeta);
    reflexivity.
Qed.

(** X3: cancelling and arming in one go, as the time branch of the
    settings does, returns normally whatever was pending: the jobs of the
    enabled flags and the annual job replace what was pending under the five
    identifiers, with the run dates arming an empty job store gives, and
    every other job stays. *)
Theorem rearm_replaces
    (name birthdate_str : string) (chat_id : Z) (reminder_time : string)
    (telegram_username : option string) (w : World) (row : Row)
    (b : datetime) (h mi : Z) :
  fetchone (by_name_chat name chat_id) (db w) = Some row →
  strptime birthdate_str = Ok b →
  ¬ (month b = 2 ∧ day b = 29) →
  parse_hour_minute reminder_time = Ok (h, mi) →
  0 ≤ h ≤ 23 → 0 ≤ mi ≤ 59 →
  2 ≤ year (now w) ≤ 9990 →
  ∃ utc_3d utc_1d birthday_utc congrats_time annual_time,
    schedule_reminders utcoffset name birthdate_str chat_id reminder_time
      telegram_username (with_scheduler (λ _, ∅) w)
    = (Ok (),
       with_scheduler (λ _,
         armed_jobs name birthdate_str chat_id reminder_time
           telegram_username row utc_3d utc_1d birthday_utc congrats_time
           annual_time ∅) w)
    ∧ (remove_scheduled_reminders chat_id name ;;
       schedule_reminders utcoffset name birthdate_str chat_id reminder_time
         telegram_username) w
      = (Ok (),
         with_scheduler (λ jobs,
           armed_jobs name birthdate_str chat_id reminder_time
             telegram_username row utc_3d utc_1d birthday_utc congrats_time
             annual_time (delete_five chat_id name jobs)) w).
Proof.
  intros Hrow Hb Hne Ht Hh Hmi Hy.
  destruct (schedule_reminders_armed name birthdate_str chat_id reminder_time
              telegram_username w row b h mi Hrow Hb Hne Ht Hh Hmi Hy)
    as (nb & r3 & u3 & r1 & u1 & bu & ct & ny & nu & at_
        & Hnb & E3 & G3 & E1 & G1 & Gb & Ec & En & Gn & Ea & Hrun).
  exists u3, u1, bu, ct, at_.
  split; [apply Hrun, ids_free_empty|].
  rewrite bind_run, remove_scheduled_reminders_run. cbv beta iota.
  replace (with_scheduler (delete_five chat_id name) w)
    with (with_scheduler (λ _, delete_five chat_id name (scheduler w)) w)
    by (by destruct w).
  rewrite Hrun by apply ids_free_delete_five.
  by destruct w.
Qed.

(** X4: cancelling undoes arming.  If none of the five identifiers of the
    chat and name is taken, [remove_scheduled_reminders] applied to the
    world [schedule_reminders] left, whether that call returned or raised
    after adding some of its jobs, gives back the world the arming started
    from; so when [schedule_reminders] returns, arming and cancelling in
    sequence returns with the world unchanged. *)
Theorem arm_then_disarm
    (name birthdate_str : string) (chat_id : Z) (reminder_time : string)
    (telegram_username : option string) (w : World) :
  ids_free chat_id name (scheduler w) →
  let armed :=
    schedule_reminders utcoffset name birthdate_str chat_id reminder_time
      telegram_username w in
  remove_scheduled_reminders chat_id name armed.2 = (Ok (), w)
  ∧ (armed.1 = Ok () →
     (schedule_reminders utcoffset name birthdate_str chat_id reminder_time
        telegram_username ;;
      remove_scheduled_reminders chat_id name) w
     = (Ok (), w)).
Proof.
  intros Hfree armed.
  assert (remove_scheduled_reminders chat_id name armed.2 = (Ok (), w))
    as Hundo.
  { pose proof (keeps_schedule_reminders utcoffset name birthdate_str
                  chat_id reminder_time telegram_username w)
      as (Hdb & Hnow & Hout & _ & Hother).
    fold armed in Hdb, Hnow, Hout, Hother.
    rewrite remove_scheduled_reminders_run. f_equal.
    destruct armed.2 as [d1 s1 n1 o1], w as [d s n o]. unfold with_scheduler.
    cbn [db scheduler now outbox] in *. subst d1 n1 o1. f_equal.
    apply map_eq. intros i. rewrite delete_five_lookup.
    case_bool_decide as Hin.
    - symmetry. by apply (five_ids_free chat_id name).
    - by apply Hother. }
  split; [done|].
  intros Hok. rewrite bind_run. fold armed.
  destruct armed as [[[]|e] w1]; [|done]. exact Hundo.
Qed.

(** X5: the run dates of the five jobs as instants, in microseconds: the
    3d and 1d jobs are three days and one day before the next birthday,
    the notification is at the next birthday, each less the UTC offset
    of its local date; the congratulation is exactly two seconds after the
    notification, and the annual job one day after the same month and day
    of the next year, less its UTC offset. *)
Theorem run_dates_instants
    (name birthdate_str : string) (chat_id : Z) (reminder_time : string)
    (telegram_username : option string) (w : World) (row : Row)
    (b : datetime) (h mi : Z) :
  fetchone (by_name_chat name chat_id) (db w) = Some row →
  strptime birthdate_str = Ok b →
  ¬ (month b = 2 ∧ day b = 29) →
  parse_hour_minute reminder_time = Ok (h, mi) →
  0 ≤ h ≤ 23 → 0 ≤ mi ≤ 59 →
  2 ≤ year (now w) ≤ 9990 →
  ids_free chat_id name (scheduler w) →
  ∃ next_birthday reminder_3d reminder_1d utc_3d utc_1d birthday_utc
    congrats_time annual_time,
    get_next_birthday birthdate_str reminder_time w = (Ok next_birthday, w)
    ∧ schedule_reminders utcoffset name birthdate_str chat_id reminder_time
        telegram_username w
      = (Ok (),
         with_scheduler
           (armed_jobs name birthdate_str chat_id reminder_time
              telegram_username row utc_3d utc_1d birthday_utc congrats_time
              annual_time) w)
    ∧ dt_to_delta reminder_3d = dt_to_delta next_birthday - td_days 3
    ∧ dt_to_delta utc_3d = dt_to_delta reminder_3d - utcoffset reminder_3d
    ∧ dt_to_delta reminder_1d = dt_to_delta next_birthday - td_days 1
    ∧ dt_to_delta utc_1d = dt_to_delta reminder_1d - utcoffset reminder_1d
    ∧ dt_to_delta birthday_utc
      = dt_to_delta next_birthday - utcoffset next_birthday
    ∧ dt_to_delta congrats_time = dt_to_delta birthday_utc + td_seconds 2
    ∧ let next_year_birthday :=
        mkdt (year next_birthday + 1) (month next_birthday)
          (day next_birthday) (hour next_birthday) (minute next_birthday)
          (second next_birthday) (microsecond next_birthday) in
      dt_to_delta annual_time
      = dt_to_delta next_year_birthday - utcoffset next_year_birthday
        + td_days 1.
Proof.
  intros Hrow Hb Hne Ht Hh Hmi Hy Hfree.
  destruct (schedule_reminders_armed name birthdate_str chat_id reminder_time
              telegram_username w row b h mi Hrow Hb Hne Ht Hh Hmi Hy)
    as (nb & r3 & u3 & r1 & u1 & bu & ct & ny & nu & at_
        & Hnb & E3 & G3 & E1 & G1 & Gb & Ec & En & Gn & Ea & Hrun).
  specialize (Hrun (scheduler w) Hfree).
  rewrite (with_scheduler_same (λ _, scheduler w) w) in Hrun by done.
  exists nb, r3, r1, u3, u1, bu, ct, at_.
  split; [done|]. split; [by rewrite Hrun; destruct w|].
  apply dt_sub_delta in E3, E1.
  apply astimezone_utc_delta in G3, G1, Gb, Gn.
  apply dt_add_delta in Ec, Ea.
  apply datetime_new_Ok in En as (-> & _ & _).
  cbv zeta. repeat split; lia.
Qed.

Lemma check_leap_day_true y :
  _is_leap y = true → 1 ≤ y ≤ 9999 → _check_date_fields y 2 29 = true.
Proof.
  intros Hleap Hy. unfold _check_date_fields, _days_in_month, MINYEAR, MAXYEAR.
  rewrite Hleap. cbn [Z.eqb Pos.eqb andb].
  repeat (apply andb_true_iff; split); lia.
Qed.

(** The run dates of the jobs of one birthday. *)
Lemma run_dates_this_year y m d h mi :
  _check_date_fields y m d = true →
  _check_time_fields h mi 0 0 = true →
  2 ≤ y ≤ 9991 →
  let next_birthday := mkdt y m d h mi 0 0 in
  ∃ reminder_3d utc_3d reminder_1d utc_1d birthday_utc congrats_time,
    dt_sub next_birthday (td_days 3) = Ok reminder_3d
    ∧ astimezone_utc utcoffset reminder_3d = Ok utc_3d
    ∧ dt_sub next_birthday (td_days 1) = Ok reminder_1d
    ∧ astimezone_utc utcoffset reminder_1d = Ok utc_1d
    ∧ astimezone_utc utcoffset next_birthday = Ok birthday_utc
    ∧ dt_add birthday_utc (td_seconds 2) = Ok congrats_time.
Proof.
  intros Hd Ht Hy nb.
  pose proof (dt_to_delta_bounds _ _ _ _ _ _ _ Hd Ht) as Hnb. fold nb in Hnb.
  pose proof (days_before_year_bounds y ltac:(lia)) as [Hy1 Hy2].
  unfold dt_sub, td_days, td_seconds, _MAXORDINAL in *.
  destruct (dt_add_within nb (- (3 * 86400000000))) as (r3 & E3 & D3);
    [unfold _MAXORDINAL; lia|].
  destruct (astimezone_utc_within utcoffset utcoffset_bound r3)
    as (u3 & F3 & _); [unfold _MAXORDINAL; lia|].
  destruct (dt_add_within nb (- (1 * 86400000000))) as (r1 & E1 & D1);
    [unfold _MAXORDINAL; lia|].
  destruct (astimezone_utc_within utcoffset utcoffset_bound r1)
    as (u1 & F1 & _); [unfold _MAXORDINAL; lia|].
  destruct (astimezone_utc_within utcoffset utcoffset_bound nb)
    as (bu & Fb & Db); [unfold _MAXORDINAL; lia|].
  pose proof (utcoffset_bound nb).
  destruct (dt_add_within bu (2 * 1000000)) as (ct & Ec & _);
    [unfold _MAXORDINAL; lia|].
  by exists r3, u3, r1, u1, bu, ct.
Qed.

(** X6: for a birthdate on 29 February whose occurrence in the current
    leap year is still ahead, [schedule_reminders] registers the jobs of
    the enabled flags for that day and then raises [ValueError], the same
    day not existing in the next year: no annual job is registered, so
    nothing arms the subscription again. *)
Theorem schedule_reminders_leap_day
    (name birthdate_str : string) (chat_id : Z) (reminder_time : string)
    (telegram_username : option string) (w : World) (row : Row)
    (b : datetime) (h mi : Z) :
  fetchone (by_name_chat name chat_id) (db w) = Some row →
  strptime birthdate_str = Ok b →
  month b = 2 → day b = 29 →
  parse_hour_minute reminder_time = Ok (h, mi) →
  0 ≤ h ≤ 23 → 0 ≤ mi ≤ 59 →
  2 ≤ year (now w) ≤ 9990 →
  _is_leap (year (now w)) = true →
  dt_ltb (mkdt (year (now w)) 2 29 h mi 0 0) (now w) = false →
  ids_free chat_id name (scheduler w) →
  ∃ utc_3d utc_1d birthday_utc congrats_time w',
    schedule_reminders utcoffset name birthdate_str chat_id reminder_time
      telegram_username w = (Raise ValueError, w')
    ∧ db w' = db w ∧ now w' = now w ∧ outbox w' = outbox w
    ∧ scheduler w'
      = add_if (truthy (c_remind_day row))
          (job_id_of chat_id name "day_congrats")
          (mkJob (call_send_congrats_message chat_id name birthdate_str
                    (c_description row)) congrats_time)
        (add_if (truthy (c_remind_day row))
           (job_id_of chat_id name "day_notification")
           (mkJob (call_send_birthday_notification chat_id name
                     telegram_username) birthday_utc)
        (add_if (truthy (c_remind_1_day row))
           (job_id_of chat_id name "1d")
           (mkJob (call_send_reminder chat_id
                     ("⏰ Напоминание: Завтра у " +:+ name
                      +:+ " день рождения!")) utc_1d)
        (add_if (truthy (c_remind_3_days row))
           (job_id_of chat_id name "3d")
           (mkJob (call_send_reminder chat_id
                     ("⏰ Напоминание: Через 3 дня у " +:+ name
                      +:+ " день рождения!")) utc_3d)
           (scheduler w))))
    ∧ scheduler w' !! job_id_of chat_id name "annual" = None.
Proof.
  intros Hrow Hb Hm Hd Ht Hh Hmi Hy Hleap Hnotpast Hfree.
  destruct (ids_free_lookups _ _ _ Hfree) as (I3 & I1 & In_ & Ic & Ia).
  pose proof (strptime_Ok _ _ Hb) as [Eb _].
  assert (_check_time_fields h mi 0 0 = true) as Htime.
  { unfold _check_time_fields. repeat (apply andb_true_iff; split); lia. }
  pose proof (check_leap_day_true _ Hleap ltac:(lia)) as Hdate.
  assert (get_next_birthday birthdate_str reminder_time w
          = (Ok (mkdt (year (now w)) 2 29 h mi 0 0), w)) as Hnb.
  { rewrite get_next_birthday_eq, Hb, Ht. unfold replace_year_time.
    rewrite Eb, Hm, Hd. cbn [month day microsecond].
    unfold datetime_new. rewrite Hdate, Htime. cbn [andb].
    by rewrite Hnotpast. }
  destruct (run_dates_this_year (year (now w)) 2 29 h mi Hdate Htime
              ltac:(lia))
    as (r3 & u3 & r1 & u1 & bu & ct & E3 & F3 & E1 & F1 & Fb & Ec).
  assert (replace_year (mkdt (year (now w)) 2 29 h mi 0 0)
            (year (mkdt (year (now w)) 2 29 h mi 0 0) + 1)
          = Raise ValueError) as En.
  { unfold replace_year, datetime_new. cbn [year month day].
    by rewrite (check_leap_day _ (is_leap_succ _ Hleap)). }
  exists u3, u1, bu, ct.
  exists (with_scheduler (λ jobs,
    add_if (truthy (c_remind_day row))
      (job_id_of chat_id name "day_congrats")
      (mkJob (call_send_congrats_message chat_id name birthdate_str
                (c_description row)) ct)
    (add_if (truthy (c_remind_day row))
       (job_id_of chat_id name "day_notification")
       (mkJob (call_send_birthday_notification chat_id name
                 telegram_username) bu)
    (add_if (truthy (c_remind_1_day row))
       (job_id_of chat_id name "1d")
       (mkJob (call_send_reminder chat_id
                 ("⏰ Напоминание: Завтра у " +:+ name
                  +:+ " день рождения!")) u1)
    (add_if (truthy (c_remind_3_days row))
       (job_id_of chat_id name "3d")
       (mkJob (call_send_reminder chat_id
                 ("⏰ Напоминание: Через 3 дня у " +:+ name
                  +:+ " день рождения!")) u3)
       jobs)))) w).
  split.
  { unfold schedule_reminders.
    rewrite bind_run, gets_run. cbv beta iota zeta. rewrite Hrow.
    rewrite bind_run, Hnb. cbv beta iota zeta.
    destruct (truthy (c_remind_3_days row)), (truthy (c_remind_1_day row)),
      (truthy (c_remind_day row));
      repeat (first [ rewrite bind_run | rewrite lift_run | rewrite gets_run
                    | rewrite ret_run
                    | rewrite add_job_fresh by fresh_id
                    | rewrite E3 | rewrite F3 | rewrite E1 | rewrite F1
                    | rewrite Fb | rewrite Ec | rewrite En
                    | rewrite db_with_scheduler | rewrite Hrow ];
              cbv beta iota zeta);
      by destruct w. }
  split; [done|]. split; [done|]. split; [done|]. split; [done|].
  cbn [scheduler with_scheduler]. unfold add_if.
  destruct (truthy (c_remind_3_days row)), (truthy (c_remind_1_day row)),
    (truthy (c_remind_day row));
    by rewrite ?lookup_insert_ne by (apply job_id_of_ne; discriminate).
Qed.

End Composing.

(** Arming Anna twice. *)
Lemma schedule_reminders_twice_witness :
  ∃ w1,
    schedule_reminders msk "Anna" "15.05.1990" 42 "09:00" None w_anna
    = (Ok (), w1)
    ∧ schedule_reminders msk "Anna" "15.05.1990" 42 "09:00" None w1
      = (Raise ConflictingIdError, w1).
Proof.
  apply (schedule_reminders_twice msk msk_bound "Anna" "15.05.1990" 42 "09:00"
           None w_anna anna (mkdt 1990 5 15 0 0 0 0) 9 0).
  - reflexivity.
  - vm_compute. reflexivity.
  - simpl. lia.
  - vm_compute. reflexivity.
  - lia.
  - lia.
  - simpl. lia.
  - apply ids_free_empty.
Defined.

(** Cancelling and arming Anna for 10:00 a year later, while the annual
    job of 09:00 is pending. *)
Lemma rearm_replaces_witness :
  let row :=
    mkRow 7 42 "Anna" "15.05.1990" (Some "likes cats") None "10:00" 1 1 1 in
  ∃ utc_3d utc_1d birthday_utc congrats_time annual_time,
    schedule_reminders msk "Anna" "15.05.1990" 42 "10:00" None
      (with_scheduler (λ _, ∅) w_year_later)
    = (Ok (),
       with_scheduler (λ _,
         armed_jobs "Anna" "15.05.1990" 42 "10:00" None row utc_3d utc_1d
           birthday_utc congrats_time annual_time ∅) w_year_later)
    ∧ (remove_scheduled_reminders 42 "Anna" ;;
       schedule_reminders msk "Anna" "15.05.1990" 42 "10:00" None)
        w_year_later
      = (Ok (),
         with_scheduler (λ jobs,
           armed_jobs "Anna" "15.05.1990" 42 "10:00" None row utc_3d utc_1d
             birthday_utc congrats_time annual_time
             (delete_five 42 "Anna" jobs)) w_year_later).
Proof.
  apply (rearm_replaces msk msk_bound "Anna" "15.05.1990" 42 "10:00" None
           w_year_later
           (mkRow 7 42 "Anna" "15.05.1990" (Some "likes cats") None "10:00"
              1 1 1)
           (mkdt 1990 5 15 0 0 0 0) 10 0).
  - reflexivity.
  - vm_compute. reflexivity.
  - simpl. lia.
  - vm_compute. reflexivity.
  - lia.
  - lia.
  - simpl. lia.
Defined.

(** Arming Anna and cancelling her jobs. *)
Lemma arm_then_disarm_witness :
  let armed :=
    schedule_reminders msk "Lea" "29.02.2000" 42 "09:00" None w_lea in
  remove_scheduled_reminders 42 "Lea" armed.2 = (Ok (), w_lea)
  ∧ (armed.1 = Ok () →
     (schedule_reminders msk "Lea" "29.02.2000" 42 "09:00" None ;;
      remove_scheduled_reminders 42 "Lea") w_lea
     = (Ok (), w_lea)).
Proof.
  apply (arm_then_disarm msk "Lea" "29.02.2000" 42 "09:00" None w_lea).
  apply ids_free_empty.
Defined.

(** The instants of Anna's jobs. *)
Lemma run_dates_instants_witness :
  ∃ birthday_utc congrats_time,
    dt_to_delta congrats_time = dt_to_delta birthday_utc + td_seconds 2.
Proof.
  destruct (run_dates_instants msk msk_bound "Anna" "15.05.1990" 42 "09:00"
              None w_anna anna (mkdt 1990 5 15 0 0 0 0) 9 0)
    as (nb & r3 & r1 & u3 & u1 & bu & ct & at_ & _ & _ & _ & _ & _ & _ & _
        & Hc & _).
  - reflexivity.
  - vm_compute. reflexivity.
  - simpl. lia.
  - vm_compute. reflexivity.
  - lia.
  - lia.
  - simpl. lia.
  - apply ids_free_empty.
  - exists bu, ct. exact Hc.
Defined.

Lemma schedule_reminders_leap_day_witness :
  ∃ w',
    schedule_reminders msk "Lea" "29.02.2000" 42 "09:00" None w_lea
    = (Raise ValueError, w')
    ∧ scheduler w' !! job_id_of 42 "Lea" "annual" = None.
Proof.
  destruct (schedule_reminders_leap_day msk msk_bound "Lea" "29.02.2000" 42
              "09:00" None w_lea lea (mkdt 2000 2 29 0 0 0 0) 9 0)
    as (u3 & u1 & bu & ct & w' & Hrun & _ & _ & _ & _ & Hannual).
  - reflexivity.
  - vm_compute. reflexivity.
  - reflexivity.
  - reflexivity.
  - vm_compute. reflexivity.
  - lia.
  - lia.
  - simpl. lia.
  - reflexivity.
  - reflexivity.
  - apply ids_free_empty.
  - exists w'. split; [exact Hrun|exact Hannual].
Defined.

(** Lea's jobs of 2024 are pending after the call has raised. *)
Example schedule_reminders_lea :
  let w' :=
    (schedule_reminders msk "Lea" "29.02.2000" 42 "09:00" None w_lea).2 in
  run_date <$> scheduler w' !! "42_Lea_3d" = Some (mkdt 2024 2 26 6 0 0 0)
  ∧ run_date <$> scheduler w' !! "42_Lea_day_congrats"
    = Some (mkdt 2024 2 29 6 0 2 0)
  ∧ size (scheduler w') = 4%nat.
Proof. repeat split; vm_compute; reflexivity. Qed.

(** * Further properties of the handlers *)

(** ** The reminders branch *)

Lemma only_cancels_refl chat_id name w : only_cancels chat_id name w w.
Proof. by repeat split. Qed.

Lemma only_cancels_trans chat_id name w1 w2 w3 :
  only_cancels chat_id name w1 w2 → only_cancels chat_id name w2 w3 →
  only_cancels chat_id name w1 w3.
Proof.
  intros (N1 & K1 & F1) (N2 & K2 & F2).
  repeat split; try congruence.
  - intros job_id job H. by apply K1, K2.
  - intros job_id H. by rewrite F2, F1.
Qed.

Lemma keeps_answer_cancels chat_id name message text :
  keeps (only_cancels chat_id name) (answer message text).
Proof. intros w. by repeat split. Qed.

Lemma keeps_with_db_cancels chat_id name f :
  keeps (only_cancels chat_id name) (modify (with_db f)).
Proof. intros w. by repeat split. Qed.

Lemma keeps_remove_specific chat_id name kind :
  kind ∈ ["3d"; "1d"; "day_notification"; "day_congrats"] →
  keeps (only_cancels chat_id name)
    (remove_specific_reminder chat_id name kind).
Proof.
  intros Hkind w. unfold remove_specific_reminder. rewrite try_remove_job.
  cbn [snd]. repeat split; cbn [scheduler with_scheduler now].
  - intros job_id job H. apply lookup_delete_Some in H. tauto.
  - intros job_id Hnot. apply lookup_delete_ne. intros <-. apply Hnot.
    repeat (apply elem_of_cons in Hkind as [->|Hkind]; [repeat constructor|]).
    by apply elem_of_nil in Hkind.
Qed.

Ltac cancels_steps :=
  repeat first
    [ apply keeps_ret; apply only_cancels_refl
    | apply keeps_answer_cancels
    | apply keeps_with_db_cancels
    | apply keeps_remove_specific; repeat constructor
    | apply (keeps_bind _ (only_cancels_trans _ _)); [|intros ?]
    | match goal with
      | |- keeps _ (if ?b then _ else _) => destruct b
      | |- keeps _ (let '(_, _) := ?x in _) => destruct x
      | |- keeps _ (match ?x with _ => _ end) => destruct x
      end ].

(** X7: whatever the message and the state of the dialogue are, the
    reminders branch of the settings never adds or changes a job: every job
    pending afterwards was pending before, and only the 3d, 1d,
    notification and congratulation jobs of the edited name in the chat of
    the message can be gone; the annual job always stays. *)
Theorem settings_reminders_only_cancels
    (message : Message) (user_data : SettingsData) (w : World) :
  let w' := (settings_reminders message user_data w).2 in
  only_cancels (m_chat_id message) (settings_name user_data) w w'
  ∧ scheduler w'
      !! job_id_of (m_chat_id message) (settings_name user_data) "annual"
    = scheduler w
        !! job_id_of (m_chat_id message) (settings_name user_data) "annual".
Proof.
  assert (keeps (only_cancels (m_chat_id message) (settings_name user_data))
            (settings_reminders message user_data)) as H.
  { unfold settings_reminders, save_reminders. cbv zeta. cancels_steps. }
  cbv zeta. split; [apply H|].
  destruct (H w) as (_ & _ & Hother). apply Hother.
  intros Hin.
  repeat (apply elem_of_cons in Hin as [Hin|Hin];
          [by apply job_id_of_inj in Hin|]).
  by apply elem_of_nil in Hin.
Qed.

(** ** The time branch *)

Lemma same_db_trans w1 w2 w3 : same_db w1 w2 → same_db w2 w3 → same_db w1 w3.
Proof. unfold same_db. congruence. Qed.

Lemma keeps_db_answer message text : keeps same_db (answer message text).
Proof. by intros w. Qed.

Lemma keeps_db_schedule_reminders utcoffset name b c t u :
  keeps same_db (schedule_reminders utcoffset name b c t u).
Proof. intros w. apply keeps_schedule_reminders. Qed.

Lemma keeps_db_get_next_birthday b t : keeps same_db (get_next_birthday b t).
Proof. intros w. by rewrite get_next_birthday_world. Qed.

Lemma keeps_db_remove_scheduled_reminders c n :
  keeps same_db (remove_scheduled_reminders c n).
Proof. intros w. by rewrite remove_scheduled_reminders_run. Qed.

Lemma keeps_db_remove_specific_reminder c n k :
  keeps same_db (remove_specific_reminder c n k).
Proof. intros w. unfold remove_specific_reminder. by rewrite try_remove_job. Qed.

Ltac db_steps :=
  repeat first
    [ apply keeps_ret; done
    | apply keeps_gets; done
    | apply keeps_db_answer
    | apply keeps_db_schedule_reminders
    | apply keeps_db_get_next_birthday
    | apply keeps_db_remove_scheduled_reminders
    | apply keeps_db_remove_specific_reminder
    | apply (keeps_bind _ same_db_trans); [|intros ?]
    | match goal with
      | |- keeps _ (if ?b then _ else _) => destruct b
      | |- keeps _ (match ?x with _ => _ end) => destruct x
      end ].

Lemma settings_time_run utcoffset message user_data w :
  settings_time utcoffset message user_data w
  = if negb (match_time_format (m_text message)) then
      (Ok (Some user_data),
       with_outbox (λ o, o ++
         [(m_chat_id message,
           "❌ Неверный формат времени!" +:+ nl
           +:+ "Пожалуйста, введите время в формате <b>ЧЧ:ММ</b>" +:+ nl
           +:+ "Например: <i>09:00, 10:30, 18:00</i>")]) w)
    else
      let time_str := strip (m_text message) in
      match parse_hour_minute time_str with
      | Ok (hour, minute) =>
          if (hour <? 0) || (23 <? hour) || (minute <? 0) || (59 <? minute)
          then
            (Ok (Some user_data),
             with_outbox (λ o, o ++
               [(m_chat_id message,
                 "❌ Неверное время!" +:+ nl +:+ "Часы: 0-23, минуты: 0-59")])
               w)
          else
            (remove_scheduled_reminders (m_chat_id message)
               (settings_name user_data) ;;
             schedule_reminders utcoffset (settings_name user_data)
               (s_birthdate user_data) (m_chat_id message) time_str
               (current_username user_data) ;;
             answer message
               ("✅ Время напоминаний для " +:+ settings_name user_data
                +:+ " изменено на " +:+ time_str +:+ " МСК") ;;
             mret None)
              (with_db
                 (sql_update
                    (by_name_user (settings_name user_data)
                       (m_from_user_id message))
                    (set_reminder_time time_str)) w)
      | Raise _ =>
          (Ok (Some user_data),
           with_outbox (λ o, o ++
             [(m_chat_id message,
               "❌ Неверное время!" +:+ nl +:+ "Часы: 0-23, минуты: 0-59")]) w)
      end.
Proof.
  unfold settings_time.
  destruct (negb (match_time_format (m_text message))); [done|].
  cbv zeta.
  destruct (parse_hour_minute (strip (m_text message))) as [[hour minute]|e];
    cbn [rbind]; [|done].
  destruct ((hour <? 0) || (23 <? hour) || (minute <? 0) || (59 <? minute));
    [done|].
  by rewrite bind_run, modify_run.
Qed.

(** X8: for a text of ASCII characters, the time branch writes a reminder
    time to the table only if the text has the form of a time and reads as
    an hour from 0 to 23 and a minute from 0 to 59; any other such text is
    answered with an error message, the table, the job store and the state
    of the dialogue staying as they are. *)
Theorem settings_time_validates
    (utcoffset : datetime → timedelta)
    (message : Message) (user_data : SettingsData) (w : World) :
  is_ascii (m_text message) = true →
  let r := settings_time utcoffset message user_data w in
  (∃ hour minute,
     match_time_format (m_text message) = true
     ∧ parse_hour_minute (strip (m_text message)) = Ok (hour, minute)
     ∧ 0 ≤ hour ≤ 23 ∧ 0 ≤ minute ≤ 59
     ∧ db r.2
       = sql_update
           (by_name_user (settings_name user_data) (m_from_user_id message))
           (set_reminder_time (strip (m_text message))) (db w))
  ∨ (∃ text,
       r = (Ok (Some user_data),
            with_outbox (λ o, o ++ [(m_chat_id message, text)]) w)).
Proof.
  intros _. cbv zeta. rewrite settings_time_run.
  destruct (match_time_format (m_text message)) eqn:Hm; cbn [negb];
    [|right; eauto].
  cbv zeta.
  destruct (parse_hour_minute (strip (m_text message)))
    as [[hour minute]|e] eqn:Hp; [|right; eauto].
  destruct (Z.ltb_spec hour 0); cbn [orb]; [right; eauto|].
  destruct (Z.ltb_spec 23 hour); cbn [orb]; [right; eauto|].
  destruct (Z.ltb_spec minute 0); cbn [orb]; [right; eauto|].
  destruct (Z.ltb_spec 59 minute); cbn [orb]; [right; eauto|].
  left. exists hour, minute.
  split; [done|]. split; [done|]. split; [lia|]. split; [lia|].
  set (w1 := with_db _ w).
  assert (keeps same_db
            (remove_scheduled_reminders (m_chat_id message)
               (settings_name user_data) ;;
             schedule_reminders utcoffset (settings_name user_data)
               (s_birthdate user_data) (m_chat_id message)
               (strip (m_text message)) (current_username user_data) ;;
             answer message
               ("✅ Время напоминаний для " +:+ settings_name user_data
                +:+ " изменено на " +:+ strip (m_text message) +:+ " МСК") ;;
             mret (None : option SettingsData))) as Hkeep.
  { db_steps. }
  by rewrite (Hkeep w1).
Qed.

(** A text that is no time: the run is the error answer. *)
Lemma settings_time_validates_witness :
  let r :=
    settings_time msk (mkMessage "25:00" 7 42)
      (mkSettingsData "Anna" "time" "15.05.1990" 1 1 1 None None None None)
      w_anna in
  (∃ hour minute,
     match_time_format (m_text (mkMessage "25:00" 7 42)) = true
     ∧ parse_hour_minute (strip (m_text (mkMessage "25:00" 7 42)))
       = Ok (hour, minute)
     ∧ 0 ≤ hour ≤ 23 ∧ 0 ≤ minute ≤ 59
     ∧ db r.2
       = sql_update (by_name_user "Anna" 7)
           (set_reminder_time (strip (m_text (mkMessage "25:00" 7 42))))
           (db w_anna))
  ∨ (∃ text,
       r = (Ok (Some (mkSettingsData "Anna" "time" "15.05.1990" 1 1 1 None
                        None None None)),
            with_outbox (λ o, o ++ [(42, text)]) w_anna)).
Proof.
  apply (settings_time_validates msk (mkMessage "25:00" 7 42)
           (mkSettingsData "Anna" "time" "15.05.1990" 1 1 1 None None None
              None) w_anna).
  reflexivity.
Defined.

Section TimeBranch.

Variable utcoffset : datetime → timedelta.
Hypothesis utcoffset_bound :
  ∀ dt, - 86400000000 < utcoffset dt < 86400000000.

(** X9: a valid new time for a subscription stored under the name in the
    chat of the message is written to the table, the jobs pending under the
    five identifiers are replaced by the jobs of the enabled flags and the
    annual job, all carrying or computed from the new time, one
    confirmation is sent and the dialogue ends. *)
Theorem settings_time_rearms
    (message : Message) (user_data : SettingsData) (w : World) (row : Row)
    (b : datetime) (h mi : Z) :
  let name := settings_name user_data in
  let chat_id := m_chat_id message in
  let time_str := strip (m_text message) in
  let w1 :=
    with_db (sql_update (by_name_user name (m_from_user_id message))
               (set_reminder_time time_str)) w in
  match_time_format (m_text message) = true →
  parse_hour_minute time_str = Ok (h, mi) →
  0 ≤ h ≤ 23 → 0 ≤ mi ≤ 59 →
  fetchone (by_name_chat name chat_id) (db w1) = Some row →
  strptime (s_birthdate user_data) = Ok b →
  ¬ (month b = 2 ∧ day b = 29) →
  2 ≤ year (now w) ≤ 9990 →
  ∃ utc_3d utc_1d birthday_utc congrats_time annual_time,
    schedule_reminders utcoffset name (s_birthdate user_data) chat_id time_str
      (current_username user_data) (with_scheduler (λ _, ∅) w1)
    = (Ok (),
       with_scheduler (λ _,
         armed_jobs name (s_birthdate user_data) chat_id time_str
           (current_username user_data) row utc_3d utc_1d birthday_utc
           congrats_time annual_time ∅) w1)
    ∧ settings_time utcoffset message user_data w
      = (Ok None,
         with_outbox (λ o, o ++
           [(chat_id,
             "✅ Время напоминаний для " +:+ name +:+ " изменено на "
             +:+ time_str +:+ " МСК")])
           (with_scheduler (λ jobs,
              armed_jobs name (s_birthdate user_data) chat_id time_str
                (current_username user_data) row utc_3d utc_1d birthday_utc
                congrats_time annual_time (delete_five chat_id name jobs))
              w1)).
Proof.
  intros name chat_id time_str w1 Hm Ht Hh Hmi Hrow Hb Hne Hy.
  destruct (schedule_reminders_armed utcoffset utcoffset_bound name
              (s_birthdate user_data) chat_id time_str
              (current_username user_data) w1 row b h mi Hrow Hb Hne Ht Hh
              Hmi Hy)
    as (nb & r3 & u3 & r1 & u1 & bu & ct & ny & nu & at_
        & Hnb & E3 & G3 & E1 & G1 & Gb & Ec & En & Gn & Ea & Hrun).
  exists u3, u1, bu, ct, at_.
  split; [apply Hrun, ids_free_empty|].
  rewrite settings_time_run, Hm. cbn [negb]. cbv zeta.
  fold time_str. rewrite Ht.
  destruct (Z.ltb_spec h 0); [lia|].
  destruct (Z.ltb_spec 23 h); [lia|].
  destruct (Z.ltb_spec mi 0); [lia|].
  destruct (Z.ltb_spec 59 mi); [lia|].
  cbn [orb]. fold name chat_id w1.
  rewrite bind_run, remove_scheduled_reminders_run. cbv beta iota.
  replace (with_scheduler (delete_five chat_id name) w1)
    with (with_scheduler (λ _, delete_five chat_id name (scheduler w1)) w1)
    by (by destruct w).
  rewrite bind_run, Hrun by apply ids_free_delete_five. cbv beta iota.
  rewrite bind_run, answer_run. cbv beta iota.
  rewrite ret_run. by destruct w.
Qed.

End TimeBranch.

(** Changing Anna's time to 10:00 on 10 May 2024. *)
Lemma settings_time_rearms_witness :
  ∃ w',
    settings_time msk (mkMessage "10:00" 7 42)
      (mkSettingsData "Anna" "time" "15.05.1990" 1 1 1 None None None None)
      w_anna
    = (Ok None, w').
Proof.
  destruct (settings_time_rearms msk msk_bound (mkMessage "10:00" 7 42)
              (mkSettingsData "Anna" "time" "15.05.1990" 1 1 1 None None None
                 None)
              w_anna
              (mkRow 7 42 "Anna" "15.05.1990" (Some "likes cats") None "10:00"
                 1 1 1)
              (mkdt 1990 5 15 0 0 0 0) 10 0)
    as (u3 & u1 & bu & ct & at_ & _ & Hrun).
  - vm_compute. reflexivity.
  - vm_compute. reflexivity.
  - lia.
  - lia.
  - vm_compute. reflexivity.
  - vm_compute. reflexivity.
  - simpl. lia.
  - simpl. lia.
  - eexists. exact Hrun.
Defined.

(** ** Rows of the table *)

Lemma fetchone_None_key name chat_id table :
  fetchone (by_name_chat name chat_id) table = None →
  (name, chat_id) ∉ map (λ r, (c_name r, c_chat_id r)) table.
Proof.
  unfold fetchone. intros Hnone Hin.
  apply list_elem_of_fmap in Hin as (r & Hkey & Hr).
  apply list_elem_of_In in Hr.
  apply (find_none _ _ Hnone) in Hr.
  unfold by_name_chat in Hr. injection Hkey as -> ->.
  by rewrite !bool_decide_eq_true_2 in Hr.
Qed.

Lemma fetchone_app_new p table r :
  fetchone p table = None → p r = true → fetchone p (table ++ [r]) = Some r.
Proof.
  unfold fetchone. intros Hnone Hr.
  induction table as [|r0 table IH]; simpl in *; [by rewrite Hr|].
  destruct (p r0); [done|]. by apply IH.
Qed.

Lemma sql_update_keys p f table :
  (∀ r, (c_name (f r), c_chat_id (f r)) = (c_name r, c_chat_id r)) →
  map (λ r, (c_name r, c_chat_id r)) (sql_update p f table)
  = map (λ r, (c_name r, c_chat_id r)) table.
Proof.
  intros Hf. unfold sql_update. rewrite map_map. apply map_ext.
  intros r. by destruct (p r).
Qed.

Lemma sql_delete_unique p table :
  unique_name_chat table → unique_name_chat (sql_delete p table).
Proof.
  unfold unique_name_chat, sql_delete.
  induction table as [|r table IH]; simpl; [done|].
  intros Hnd. apply NoDup_cons in Hnd as [Hr Hnd].
  destruct (p r); simpl; [by apply IH|].
  apply NoDup_cons. split; [|by apply IH].
  intros Hin. apply Hr.
  apply list_elem_of_fmap in Hin as (r' & Hkey & Hr').
  apply list_elem_of_fmap. exists r'. split; [done|].
  apply list_elem_of_In, filter_In in Hr'. apply list_elem_of_In. tauto.
Qed.

Lemma same_keys_trans w1 w2 w3 :
  same_keys w1 w2 → same_keys w2 w3 → same_keys w1 w3.
Proof. unfold same_keys. congruence. Qed.

Lemma keeps_same_db_keys {A} (m : M A) : keeps same_db m → keeps same_keys m.
Proof. intros H w. unfold same_keys. by rewrite (H w). Qed.

Lemma keeps_keys_update p f :
  (∀ r, (c_name (f r), c_chat_id (f r)) = (c_name r, c_chat_id r)) →
  keeps same_keys (modify (with_db (sql_update p f))).
Proof. intros Hf w. by apply sql_update_keys. Qed.

Ltac keys_steps :=
  repeat match goal with
  | |- keeps _ (if ?b then _ else _) => destruct b
  | |- keeps _ (let '(_, _) := ?x in _) => destruct x
  | |- keeps _ (match ?x with _ => _ end) => destruct x
  | |- keeps _ (mret _) => apply keeps_ret; done
  | |- keeps _ (_ ≫= _) => apply (keeps_bind _ same_keys_trans); [|intros ?]
  | |- keeps _ (modify _) => apply keeps_keys_update; done
  | |- keeps _ (answer _ _) => apply keeps_same_db_keys, keeps_db_answer
  | |- keeps _ (schedule_reminders _ _ _ _ _ _) =>
      apply keeps_same_db_keys, keeps_db_schedule_reminders
  | |- keeps _ (remove_scheduled_reminders _ _) =>
      apply keeps_same_db_keys, keeps_db_remove_scheduled_reminders
  | |- keeps _ (remove_specific_reminder _ _ _) =>
      apply keeps_same_db_keys, keeps_db_remove_specific_reminder
  end.

Lemma process_settings_value_keys utcoffset str_lower message user_data :
  keeps same_keys (process_settings_value utcoffset str_lower message user_data).
Proof.
  unfold process_settings_value, settings_time, settings_reminders,
    save_reminders, settings_username.
  cbv zeta. keys_steps.
Qed.

(** What [process_confirm] does to the table: nothing, or one row added at
    the end for a name that had no row in the chat. *)
Lemma process_confirm_db utcoffset message user_data w :
  let w' := (process_confirm utcoffset message user_data w).2 in
  db w' = db w
  ∨ (m_text message = "✅ Да, сохранить"
     ∧ fetchone (by_name_chat (a_name user_data) (m_chat_id message)) (db w)
       = None
     ∧ db w'
       = db w ++
         [mkRow (m_from_user_id message) (m_chat_id message)
            (a_name user_data) (a_birthdate user_data)
            (a_description user_data) (a_telegram_username user_data)
            (a_reminder_time user_data) 1 1 1]).
Proof.
  cbv zeta. unfold process_confirm.
  case_bool_decide as Htext.
  - rewrite bind_run, gets_run. cbv beta iota.
    destruct (fetchone _ (db w)) eqn:Hex.
    + left. by rewrite bind_run, answer_run.
    + right. split; [done|]. split; [done|].
      rewrite bind_run, modify_run. cbv beta iota.
      match goal with
      | |- db (?m ?w1).2 = _ =>
          assert (keeps same_db m) as Hk by db_steps;
          by rewrite (Hk w1)
      end.
  - left. case_bool_decide; by rewrite bind_run, answer_run.
Qed.

(** X10: the handlers keep the names of a chat unique.  If no two rows of
    the table have the same name in the same chat, this is still so after
    [process_confirm], after [process_confirm_delete] and after
    [process_settings_value], whatever the message is and whether the
    handler returns or raises. *)
Theorem handlers_keep_unique_name_chat
    (utcoffset : datetime → timedelta) (str_lower : string → string)
    (message : Message) (w : World) :
  unique_name_chat (db w) →
  (∀ user_data,
     unique_name_chat (db (process_confirm utcoffset message user_data w).2))
  ∧ (∀ name_to_delete,
       unique_name_chat (db (process_confirm_delete message name_to_delete w).2))
  ∧ (∀ user_data,
       unique_name_chat
         (db (process_settings_value utcoffset str_lower message user_data w).2)).
Proof.
  intros Hu. split; [|split].
  - intros user_data.
    destruct (process_confirm_db utcoffset message user_data w)
      as [->|(_ & Hnone & ->)]; [done|].
    unfold unique_name_chat. rewrite map_app. simpl.
    apply NoDup_app. split; [done|]. split; [|apply NoDup_singleton].
    intros key Hin Hnew. apply list_elem_of_singleton in Hnew as ->.
    by apply fetchone_None_key in Hnone.
  - intros name_to_delete. unfold process_confirm_delete.
    case_bool_decide.
    + rewrite bind_run, modify_run. cbv beta iota.
      rewrite bind_run, remove_scheduled_reminders_run. cbv beta iota.
      rewrite answer_run. cbn [snd db with_outbox with_scheduler with_db].
      by apply sql_delete_unique.
    + by rewrite answer_run.
  - intros user_data. unfold unique_name_chat.
    by rewrite (process_settings_value_keys utcoffset str_lower message
                  user_data w).
Qed.

Lemma handlers_keep_unique_name_chat_witness :
  (∀ user_data,
     unique_name_chat
       (db (process_confirm msk (mkMessage "✅ Да, сохранить" 7 42)
              user_data w_anna).2))
  ∧ (∀ name_to_delete,
       unique_name_chat
         (db (process_confirm_delete (mkMessage "✅ Да, сохранить" 7 42)
                name_to_delete w_anna).2))
  ∧ (∀ user_data,
       unique_name_chat
         (db (process_settings_value msk (λ s, s)
                (mkMessage "✅ Да, сохранить" 7 42) user_data w_anna).2)).
Proof.
  apply (handlers_keep_unique_name_chat msk (λ s, s)
           (mkMessage "✅ Да, сохранить" 7 42) w_anna).
  unfold unique_name_chat. simpl. apply NoDup_singleton.
Defined.

(** ** Identifiers of different subscriptions *)

Lemma chars_app s1 s2 : chars (s1 +:+ s2) = chars s1 ++ chars s2.
Proof. induction s1 as [|c s1 IH]; simpl; [done|]. by rewrite <-IH. Qed.

Lemma chars_inj s1 s2 : chars s1 = chars s2 → s1 = s2.
Proof.
  intros H. apply (f_equal String.string_of_list_ascii) in H.
  unfold chars in H. by rewrite !String.string_of_list_ascii_of_string in H.
Qed.

Lemma pretty_N_go_no_underscore x s :
  "_"%char ∉ chars s → "_"%char ∉ chars (pretty_N_go x s).
Proof.
  revert s. induction (N.lt_wf_0 x) as [x _ IH]. intros s Hs.
  assert (x = 0 ∨ 0 < x)%N as [->|Hx] by lia; [done|].
  rewrite pretty_N_go_step by done. apply IH; [by apply N.div_lt|].
  simpl. intros Hin. apply elem_of_cons in Hin as [Hc|Hin]; [|done].
  unfold pretty_N_char in Hc. by repeat case_match.
Qed.

Lemma pretty_Z_no_underscore (z : Z) : "_"%char ∉ chars (pretty z).
Proof.
  assert (∀ p : positive, "_"%char ∉ chars (pretty p)) as Hpos.
  { intros p. unfold pretty, pretty_positive, pretty, pretty_N.
    case_decide; [done|]. apply pretty_N_go_no_underscore. simpl.
    apply not_elem_of_nil. }
  destruct z as [|p|p]; unfold pretty, pretty_Z.
  - simpl. intros Hin. apply elem_of_cons in Hin as [Hc|Hin]; [done|].
    by apply elem_of_nil in Hin.
  - apply Hpos.
  - rewrite chars_app. simpl. intros Hin.
    apply elem_of_cons in Hin as [Hc|Hin]; [done|]. by apply (Hpos p).
Qed.

(** Two texts that agree after a separator which the parts before it do
    not contain agree before it and after it. *)
Lemma split_at_first (c : ascii) (l1 l2 r1 r2 : list ascii) :
  c ∉ l1 → c ∉ l2 → l1 ++ c :: r1 = l2 ++ c :: r2 → l1 = l2 ∧ r1 = r2.
Proof.
  revert l2. induction l1 as [|a l1 IH]; intros [|b l2] H1 H2 H; simpl in *.
  - by injection H.
  - injection H as <- _. by apply not_elem_of_cons in H2 as [? _].
  - injection H as -> _. by apply not_elem_of_cons in H1 as [? _].
  - injection H as -> H.
    apply not_elem_of_cons in H1 as [_ H1].
    apply not_elem_of_cons in H2 as [_ H2].
    by destruct (IH l2 H1 H2 H) as [-> ->].
Qed.

Lemma kind_suffix_inj (n1 n2 : list ascii) (k1 k2 : string) :
  k1 ∈ kinds → k2 ∈ kinds →
  n1 ++ "_"%char :: chars k1 = n2 ++ "_"%char :: chars k2 →
  n1 = n2 ∧ k1 = k2.
Proof.
  intros Hk1 Hk2 H.
  apply (f_equal reverse) in H.
  rewrite !reverse_app, !reverse_cons in H.
  unfold kinds in *.
  repeat (apply elem_of_cons in Hk1 as [->|Hk1]);
    [..|by apply elem_of_nil in Hk1];
    (repeat (apply elem_of_cons in Hk2 as [->|Hk2]);
       [..|by apply elem_of_nil in Hk2]);
    vm_compute reverse in H; simpl in H; try discriminate;
    (split; [|done]);
    simplify_eq; by apply (inj reverse).
Qed.

Lemma job_id_of_inj3 chat_id1 chat_id2 name1 name2 kind1 kind2 :
  kind1 ∈ kinds → kind2 ∈ kinds →
  job_id_of chat_id1 name1 kind1 = job_id_of chat_id2 name2 kind2 →
  chat_id1 = chat_id2 ∧ name1 = name2 ∧ kind1 = kind2.
Proof.
  intros Hk1 Hk2 H. unfold job_id_of in H.
  apply (f_equal chars) in H. rewrite !chars_app in H. simpl in H.
  apply split_at_first in H as [Hc H]; [|apply pretty_Z_no_underscore..].
  apply chars_inj, (inj pretty) in Hc.
  apply kind_suffix_inj in H as [Hn Hk]; [|done..].
  by apply chars_inj in Hn.
Qed.

Lemma five_ids_other chat_id name chat_id' name' kind :
  (chat_id', name') ≠ (chat_id, name) → kind ∈ kinds →
  job_id_of chat_id' name' kind ∉ five_ids chat_id name.
Proof.
  intros Hne Hk Hin. apply Hne. unfold five_ids in Hin.
  repeat (apply elem_of_cons in Hin as [Hin|Hin];
    [apply job_id_of_inj3 in Hin as (-> & -> & _);
       [done|done|unfold kinds; repeat constructor]|]).
  by apply elem_of_nil in Hin.
Qed.

(** X11: the identifier of a job tells its subscription and its kind.  Two
    job identifiers built from the five kinds are equal only if the chats,
    the names and the kinds are equal, also for names that contain
    underscores, digits or the text of a kind. *)
Theorem job_id_of_subscription_inj
    (chat_id1 chat_id2 : Z) (name1 name2 kind1 kind2 : string) :
  kind1 ∈ kinds → kind2 ∈ kinds →
  job_id_of chat_id1 name1 kind1 = job_id_of chat_id2 name2 kind2 →
  chat_id1 = chat_id2 ∧ name1 = name2 ∧ kind1 = kind2.
Proof.
  intros Hk1 Hk2 H. unfold job_id_of in H.
  apply (f_equal chars) in H. rewrite !chars_app in H. simpl in H.
  apply split_at_first in H as [Hchat H];
    [|apply pretty_Z_no_underscore..].
  apply chars_inj, (inj pretty) in Hchat.
  apply kind_suffix_inj in H as [Hname Hkind]; [|done..].
  apply chars_inj in Hname. by subst.
Qed.

Lemma job_id_of_subscription_inj_witness :
  (42 : Z) = 42 ∧ "Anna_1d" = "Anna_1d" ∧ "3d" = "3d".
Proof.
  apply (job_id_of_subscription_inj 42 42 "Anna_1d" "Anna_1d" "3d" "3d").
  - unfold kinds. repeat constructor.
  - unfold kinds. repeat constructor.
  - reflexivity.
Defined.

Lemma schedule_reminders_other
    utcoffset name birthdate_str chat_id reminder_time telegram_username
    chat_id' name' kind' w :
  (chat_id', name') ≠ (chat_id, name) → kind' ∈ kinds →
  scheduler (schedule_reminders utcoffset name birthdate_str chat_id
               reminder_time telegram_username w).2
    !! job_id_of chat_id' name' kind'
  = scheduler w !! job_id_of chat_id' name' kind'.
Proof.
  intros Hne Hk'. apply keeps_schedule_reminders.
  by apply five_ids_other.
Qed.

Lemma remove_scheduled_reminders_other chat_id name chat_id' name' kind' w :
  (chat_id', name') ≠ (chat_id, name) → kind' ∈ kinds →
  scheduler (remove_scheduled_reminders chat_id name w).2
    !! job_id_of chat_id' name' kind'
  = scheduler w !! job_id_of chat_id' name' kind'.
Proof.
  intros Hne Hk'. rewrite remove_scheduled_reminders_run.
  cbn [snd scheduler with_scheduler]. rewrite delete_five_lookup.
  rewrite bool_decide_eq_false_2; [done|]. by apply five_ids_other.
Qed.

Lemma remove_specific_reminder_other
    chat_id name reminder_type chat_id' name' kind' w :
  (chat_id', name') ≠ (chat_id, name) →
  kind' ∈ kinds → reminder_type ∈ kinds →
  scheduler (remove_specific_reminder chat_id name reminder_type w).2
    !! job_id_of chat_id' name' kind'
  = scheduler w !! job_id_of chat_id' name' kind'.
Proof.
  intros Hne Hk' Hk. unfold remove_specific_reminder.
  rewrite try_remove_job. cbn [snd scheduler with_scheduler].
  apply lookup_delete_ne. intros Heq. apply Hne.
  by apply job_id_of_inj3 in Heq as (-> & -> & _).
Qed.

(** X12: the jobs of the other subscriptions are out of reach.  Arming a
    subscription, cancelling it and cancelling one of its jobs leave every
    job of any other chat or name as it is. *)
Theorem other_subscriptions_untouched
    (utcoffset : datetime → timedelta)
    (name birthdate_str : string) (chat_id : Z) (reminder_time : string)
    (telegram_username : option string) (reminder_type : string)
    (chat_id' : Z) (name' kind' : string) (w : World) :
  (chat_id', name') ≠ (chat_id, name) →
  kind' ∈ kinds → reminder_type ∈ kinds →
  let job_id := job_id_of chat_id' name' kind' in
  scheduler (schedule_reminders utcoffset name birthdate_str chat_id
               reminder_time telegram_username w).2 !! job_id
  = scheduler w !! job_id
  ∧ scheduler (remove_scheduled_reminders chat_id name w).2 !! job_id
    = scheduler w !! job_id
  ∧ scheduler (remove_specific_reminder chat_id name reminder_type w).2
      !! job_id
    = scheduler w !! job_id.
Proof.
  intros Hne Hk' Hk job_id. split; [|split].
  - by apply schedule_reminders_other.
  - by apply remove_scheduled_reminders_other.
  - by apply remove_specific_reminder_other.
Qed.

Lemma other_subscriptions_untouched_witness :
  let job_id := job_id_of 42 "Anna_1d" "3d" in
  scheduler (schedule_reminders msk "Anna" "15.05.1990" 42 "09:00" None
               w_anna).2 !! job_id
  = scheduler w_anna !! job_id
  ∧ scheduler (remove_scheduled_reminders 42 "Anna" w_anna).2 !! job_id
    = scheduler w_anna !! job_id
  ∧ scheduler (remove_specific_reminder 42 "Anna" "1d" w_anna).2 !! job_id
    = scheduler w_anna !! job_id.
Proof.
  apply (other_subscriptions_untouched msk "Anna" "15.05.1990" 42 "09:00"
           None "1d" 42 "Anna_1d" "3d" w_anna).
  - discriminate.
  - unfold kinds. repeat constructor.
  - unfold kinds. repeat constructor.
Defined.

(** ** Ages *)

Lemma strptime_raises s e : strptime s = Raise e → e = ValueError.
Proof.
  unfold strptime, datetime_new. intros H.
  repeat case_match; by simplify_eq.
Qed.

Lemma parse_hour_minute_raises s e :
  parse_hour_minute s = Raise e → e = ValueError.
Proof.
  unfold parse_hour_minute, int_chars, rbind. intros H.
  repeat case_match; by simplify_eq.
Qed.

Lemma calculate_age_run s w b :
  strptime s = Ok b →
  calculate_age s w
  = (Ok (sub_bool (year (now w) - year b)
           (pair_ltb (month (now w)) (day (now w)) (month b) (day b))), w).
Proof. intros H. unfold calculate_age. by rewrite bind_run, lift_run, H. Qed.

(** The dates of two datetimes in order are in order. *)
Lemma dt_leb_date a b :
  dt_leb a b = true →
  year a < year b
  ∨ year a = year b
    ∧ (month a < month b ∨ month a = month b ∧ day a ≤ day b).
Proof.
  unfold dt_leb, dt_cmp.
  destruct (Z.compare_spec (year a) (year b)); simpl; [|lia|done].
  destruct (Z.compare_spec (month a) (month b)); simpl; [|lia|done].
  destruct (Z.compare_spec (day a) (day b)); simpl; [lia|lia|done].
Qed.

(** X13: for a text of ASCII characters, [process_date] does not raise and
    answers with one message.  It stores the stripped text as the birthdate
    exactly when the text is a calendar date that is not after the current
    Moscow time, and the age it then shows is not negative; the table and
    the jobs stay as they are. *)
Theorem process_date_stores_past_dates
    (message : Message) (name : string) (w : World) :
  is_ascii (m_text message) = true →
  let date_str := strip (m_text message) in
  ∃ stored text,
    process_date message name w
    = (Ok stored, with_outbox (λ o, o ++ [(m_chat_id message, text)]) w)
    ∧ match stored with
      | Some d =>
          d = date_str
          ∧ ∃ b age,
              strptime date_str = Ok b ∧ dt_leb b (now w) = true
              ∧ calculate_age date_str w = (Ok age, w) ∧ 0 ≤ age
      | None =>
          ∀ b, strptime date_str = Ok b → dt_ltb (now w) b = true
      end.
Proof.
  intros _. unfold process_date, try_except_ValueError. cbv zeta.
  rewrite bind_run, lift_run.
  destruct (strptime (strip (m_text message))) as [b|e] eqn:Hb.
  - cbv beta iota. rewrite bind_run, lift_run. cbv beta iota.
    rewrite bind_run. unfold get_moscow_now. rewrite gets_run.
    cbv beta iota.
    destruct (dt_ltb (now w) b) eqn:Hlt.
    + rewrite bind_run, answer_run. cbv beta iota. rewrite ret_run.
      eexists None, _. split; [done|]. intros b' Hb'. by simplify_eq.
    + rewrite bind_run, (calculate_age_run _ _ b Hb). cbv beta iota.
      rewrite bind_run, answer_run. cbv beta iota. rewrite ret_run.
      eexists (Some _), _. split; [done|]. split; [done|].
      eexists b, _. split; [done|].
      assert (dt_leb b (now w) = true) as Hle.
      { rewrite dt_ltb_leb in Hlt. by destruct (dt_leb b (now w)). }
      split; [done|]. split; [reflexivity|].
      apply dt_leb_date in Hle. unfold sub_bool, pair_ltb.
      repeat match goal with
             | |- context [?x <? ?y] => destruct (Z.ltb_spec x y)
             | |- context [?x =? ?y] => destruct (Z.eqb_spec x y)
             end; simpl; lia.
  - apply strptime_raises in Hb as Heq. subst e. cbv beta iota.
    rewrite bind_run, answer_run. cbv beta iota. rewrite ret_run.
    eexists None, _. split; [done|]. intros b' Hb'. by simplify_eq.
Qed.

(** Anna's birthdate, typed on 10 May 2024. *)
Lemma process_date_stores_past_dates_witness :
  ∃ stored text,
    process_date (mkMessage "15.05.1990" 7 42) "Anna" w_anna
    = (Ok stored, with_outbox (λ o, o ++ [(42, text)]) w_anna)
    ∧ match stored with
      | Some d =>
          d = strip (m_text (mkMessage "15.05.1990" 7 42))
          ∧ ∃ b age,
              strptime (strip (m_text (mkMessage "15.05.1990" 7 42))) = Ok b
              ∧ dt_leb b (now w_anna) = true
              ∧ calculate_age (strip (m_text (mkMessage "15.05.1990" 7 42)))
                  w_anna = (Ok age, w_anna)
              ∧ 0 ≤ age
      | None =>
          ∀ b, strptime (strip (m_text (mkMessage "15.05.1990" 7 42))) = Ok b →
               dt_ltb (now w_anna) b = true
      end.
Proof.
  apply (process_date_stores_past_dates (mkMessage "15.05.1990" 7 42)
           "Anna" w_anna).
  reflexivity.
Defined.

(** X14: the age shown for the next birthday.  When [get_next_birthday]
    returns, [calculate_age_on_date] at its result gives the difference of
    the years, and this is one more than [calculate_age] now, except on the
    birthday itself before the reminder time, when the two are equal. *)
Theorem age_on_next_birthday
    (birthdate_str reminder_time : string) (w : World) (next : datetime) :
  (get_next_birthday birthdate_str reminder_time w).1 = Ok next →
  ∃ b age,
    strptime birthdate_str = Ok b
    ∧ calculate_age birthdate_str w = (Ok age, w)
    ∧ calculate_age_on_date birthdate_str next = Ok (year next - year b)
    ∧ (year next - year b = age + 1
       ∨ year next - year b = age
         ∧ month (now w) = month b ∧ day (now w) = day b
         ∧ year next = year (now w)).
Proof.
  rewrite get_next_birthday_eq. intros H.
  destruct (strptime birthdate_str) as [b|] eqn:Hb; [|done].
  destruct (parse_hour_minute reminder_time) as [[h mi]|]; [|done].
  unfold replace_year_time in H.
  destruct (datetime_new (year (now w)) _ _ _ _ _ _) as [c0|] eqn:H0;
    [|done].
  apply datetime_new_Ok in H0 as (-> & _ & _).
  eexists b, _. split; [done|]. split; [by apply calculate_age_run|].
  unfold calculate_age_on_date. rewrite Hb. cbn [rbind].
  destruct (dt_ltb _ (now w)) eqn:Hlt.
  - unfold replace_year in H. cbn [fst] in H.
    apply datetime_new_Ok in H as (-> & _ & _).
    cbn [year month day].
    assert (dt_leb (mkdt (year (now w)) (month b) (day b) h mi 0
                      (microsecond b)) (now w) = true) as Hle.
    { unfold dt_ltb in Hlt. unfold dt_leb. by destruct (dt_cmp _ _). }
    apply dt_leb_date in Hle. cbn [year month day] in Hle.
    unfold sub_bool, pair_ltb.
    repeat match goal with
           | |- context [?x <? ?y] => destruct (Z.ltb_spec x y)
           | |- context [?x =? ?y] => destruct (Z.eqb_spec x y)
           end; simpl; (split; [f_equal; lia|]); lia.
  - cbn [fst] in H. injection H as <-. cbn [year month day].
    assert (dt_leb (now w) (mkdt (year (now w)) (month b) (day b) h mi 0
                      (microsecond b)) = true) as Hle.
    { rewrite dt_ltb_leb in Hlt. by destruct (dt_leb _ _). }
    apply dt_leb_date in Hle. cbn [year month day] in Hle.
    unfold sub_bool, pair_ltb.
    repeat match goal with
           | |- context [?x <? ?y] => destruct (Z.ltb_spec x y)
           | |- context [?x =? ?y] => destruct (Z.eqb_spec x y)
           end; simpl; (split; [f_equal; lia|]); lia.
Qed.

Lemma age_on_next_birthday_witness :
  ∃ b age,
    strptime "15.05.1990" = Ok b
    ∧ calculate_age "15.05.1990" w_anna = (Ok age, w_anna)
    ∧ calculate_age_on_date "15.05.1990" (mkdt 2024 5 15 9 0 0 0)
      = Ok (year (mkdt 2024 5 15 9 0 0 0) - year b)
    ∧ (year (mkdt 2024 5 15 9 0 0 0) - year b = age + 1
       ∨ year (mkdt 2024 5 15 9 0 0 0) - year b = age
         ∧ month (now w_anna) = month b ∧ day (now w_anna) = day b
         ∧ year (mkdt 2024 5 15 9 0 0 0) = year (now w_anna)).
Proof.
  apply (age_on_next_birthday "15.05.1990" "09:00" w_anna
           (mkdt 2024 5 15 9 0 0 0)).
  vm_compute. reflexivity.
Defined.

(** ** Order of datetimes and of instants *)

Lemma days_before_year_succ y :
  _days_before_year (y + 1)
  = _days_before_year y + 365 + (if _is_leap y then 1 else 0).
Proof.
  unfold _days_before_year, _is_leap. cbv zeta.
  replace (y + 1 - 1) with y by lia.
  repeat match goal with
         | |- context [?x =? ?y] => destruct (Z.eqb_spec x y)
         end; simpl; Z.div_mod_to_equations; lia.
Qed.

Lemma days_before_year_mono y1 y2 :
  y1 ≤ y2 → _days_before_year y1 ≤ _days_before_year y2.
Proof.
  intros H. replace y2 with (y1 + (y2 - y1)) by lia.
  assert (0 ≤ y2 - y1) as Hn by lia. revert Hn.
  generalize (y2 - y1). clear H. intros n Hn.
  pattern n. apply natlike_ind; [by rewrite Z.add_0_r| |done].
  intros x Hx IH. replace (y1 + Z.succ x) with (y1 + x + 1) by lia.
  rewrite days_before_year_succ. destruct (_is_leap _); lia.
Qed.

Lemma month_cases m :
  1 ≤ m ≤ 12 →
  m = 1 ∨ m = 2 ∨ m = 3 ∨ m = 4 ∨ m = 5 ∨ m = 6 ∨ m = 7 ∨ m = 8 ∨ m = 9
  ∨ m = 10 ∨ m = 11 ∨ m = 12.
Proof. lia. Qed.

Lemma ymd2ord_year_end y m d :
  1 ≤ m ≤ 12 → d ≤ _days_in_month y m →
  _ymd2ord y m d ≤ _days_before_year (y + 1).
Proof.
  intros Hm Hd. rewrite days_before_year_succ.
  unfold _ymd2ord, _days_before_month, _days_in_month in *.
  apply month_cases in Hm.
  destruct (_is_leap y);
    repeat (destruct Hm as [->|Hm]; [simpl in *; lia|]);
    subst; simpl in *; lia.
Qed.

Lemma days_before_month_next y m1 m2 :
  1 ≤ m1 → m1 < m2 → m2 ≤ 12 →
  _days_before_month y m1 + _days_in_month y m1 ≤ _days_before_month y m2.
Proof.
  intros H1 H12 H2.
  assert (1 ≤ m1 ≤ 12) as C1 by lia. assert (1 ≤ m2 ≤ 12) as C2 by lia.
  apply month_cases in C1. apply month_cases in C2.
  unfold _days_before_month, _days_in_month.
  destruct (_is_leap y);
    repeat (destruct C1 as [->|C1];
            [repeat (destruct C2 as [->|C2]; [simpl; lia|]);
             subst; simpl; lia|]);
    subst;
    repeat (destruct C2 as [->|C2]; [simpl; lia|]); subst; simpl; lia.
Qed.

(** The ordinal grows with the date. *)
Lemma ymd2ord_lt y1 m1 d1 y2 m2 d2 :
  _check_date_fields y1 m1 d1 = true →
  _check_date_fields y2 m2 d2 = true →
  y1 < y2 ∨ y1 = y2 ∧ (m1 < m2 ∨ m1 = m2 ∧ d1 < d2) →
  _ymd2ord y1 m1 d1 < _ymd2ord y2 m2 d2.
Proof.
  intros V1 V2 H.
  apply check_date_fields_true in V1 as (Y1 & M1 & D1).
  apply check_date_fields_true in V2 as (Y2 & M2 & D2).
  destruct H as [Hy|[-> [Hm|[-> Hd]]]].
  - pose proof (ymd2ord_year_end y1 m1 d1 M1 ltac:(lia)).
    pose proof (days_before_year_mono (y1 + 1) y2 ltac:(lia)).
    pose proof (days_before_month_bounds y2 m2 M2).
    unfold _ymd2ord at 2. lia.
  - pose proof (days_before_month_next y2 m1 m2 ltac:(lia) Hm ltac:(lia)).
    unfold _ymd2ord. lia.
  - unfold _ymd2ord. lia.
Qed.

Lemma valid_dt_true dt :
  valid_dt dt = true →
  _check_date_fields (year dt) (month dt) (day dt) = true
  ∧ 0 ≤ hour dt ≤ 23 ∧ 0 ≤ minute dt ≤ 59 ∧ 0 ≤ second dt ≤ 59
  ∧ 0 ≤ microsecond dt ≤ 999999.
Proof.
  unfold valid_dt. intros H. apply andb_true_iff in H as [Hd Ht].
  by apply check_time_fields_true in Ht.
Qed.

Lemma dt_lt_delta a b :
  valid_dt a = true → valid_dt b = true →
  dt_cmp a b = Lt → dt_to_delta a < dt_to_delta b.
Proof.
  intros Va Vb.
  apply valid_dt_true in Va as (Da & Ha & Ma & Sa & Ua).
  apply valid_dt_true in Vb as (Db & Hb & Mb & Sb & Ub).
  pose proof (ymd2ord_lt _ _ _ _ _ _ Da Db) as Hord.
  unfold dt_cmp, dt_to_delta, toordinal.
  destruct (Z.compare_spec (year a) (year b)) as [Ey|Ly|]; simpl;
    [|intros _; specialize (Hord ltac:(lia)); lia|done].
  destruct (Z.compare_spec (month a) (month b)) as [Em|Lm|]; simpl;
    [|intros _; specialize (Hord ltac:(lia)); lia|done].
  destruct (Z.compare_spec (day a) (day b)) as [Ed|Ld|]; simpl;
    [|intros _; specialize (Hord ltac:(lia)); lia|done].
  rewrite Ey, Em, Ed. clear Hord.
  destruct (Z.compare_spec (hour a) (hour b)); simpl; [|lia|done].
  destruct (Z.compare_spec (minute a) (minute b)); simpl; [|lia|done].
  destruct (Z.compare_spec (second a) (second b)); simpl; [|lia|done].
  destruct (Z.compare_spec (microsecond a) (microsecond b)); simpl;
    [done|lia|done].
Qed.

Lemma dt_eq_delta a b : dt_cmp a b = Eq → dt_to_delta a = dt_to_delta b.
Proof.
  unfold dt_cmp, dt_to_delta, toordinal.
  repeat (match goal with
          | |- context [?x ?= ?y] => destruct (Z.compare_spec x y)
          end; simpl; try done).
  intros _. congruence.
Qed.

(** Datetimes with fields in range compare as their instants do. *)
Lemma dt_cmp_delta a b :
  valid_dt a = true → valid_dt b = true →
  dt_cmp a b = (dt_to_delta a ?= dt_to_delta b).
Proof.
  intros Va Vb. symmetry.
  destruct (dt_cmp a b) eqn:H.
  - apply Z.compare_eq_iff. by apply dt_eq_delta.
  - apply Z.compare_lt_iff. by apply dt_lt_delta.
  - apply Z.compare_gt_iff.
    apply dt_lt_delta; [done..|]. rewrite dt_cmp_antisym, H. done.
Qed.

(** ** Days until the next birthday *)

Lemma ymd2ord_next_year y m d :
  1 ≤ m ≤ 12 →
  365 ≤ _ymd2ord (y + 1) m d - _ymd2ord y m d ≤ 366.
Proof.
  intros Hm. unfold _ymd2ord, _days_before_month.
  rewrite days_before_year_succ.
  destruct (_is_leap y) eqn:Hy.
  - rewrite (is_leap_succ y Hy). destruct (2 <? m); simpl; lia.
  - destruct (_is_leap (y + 1)), (2 <? m); simpl; lia.
Qed.

Lemma valid_dt_new y m d h mi s us c :
  datetime_new y m d h mi s us = Ok c → valid_dt c = true.
Proof.
  intros H. apply datetime_new_Ok in H as (-> & Hd & Ht).
  unfold valid_dt. simpl. by rewrite Hd, Ht.
Qed.

Lemma dt_to_delta_next_year y m d h mi s us :
  1 ≤ m ≤ 12 →
  td_days 365
  ≤ dt_to_delta (mkdt (y + 1) m d h mi s us)
    - dt_to_delta (mkdt y m d h mi s us)
  ≤ td_days 366.
Proof.
  intros Hm. pose proof (ymd2ord_next_year y m d Hm).
  unfold dt_to_delta, toordinal, td_days. simpl. lia.
Qed.

(** X15: the datetime that [get_next_birthday] returns lies at least 0
    and at most 365 whole days after the clock value it read itself, when
    that value is a valid datetime.  (A handler that reads the clock again
    for its own [today] is not covered.) *)
Theorem days_until_next_birthday
    (birthdate_str reminder_time : string) (w : World) (next : datetime) :
  valid_dt (now w) = true →
  (get_next_birthday birthdate_str reminder_time w).1 = Ok next →
  0 ≤ days_between next (now w) ≤ 365.
Proof.
  intros Vn. rewrite get_next_birthday_eq. intros H.
  destruct (strptime birthdate_str) as [b|] eqn:Hb; [|done].
  destruct (parse_hour_minute reminder_time) as [[h mi]|]; [|done].
  unfold replace_year_time in H.
  destruct (datetime_new (year (now w)) _ _ _ _ _ _) as [c0|] eqn:H0;
    [|done].
  pose proof (valid_dt_new _ _ _ _ _ _ _ _ H0) as V0.
  pose proof (dt_cmp_delta c0 (now w) V0 Vn) as Hcmp.
  apply datetime_new_Ok in H0 as (E0 & D0 & T0).
  assert (0 ≤ dt_to_delta next - dt_to_delta (now w) < td_days 366)
    as Hdiff.
  { unfold dt_ltb in H. destruct (dt_cmp c0 (now w)) eqn:Hc.
    - cbn [fst] in H. injection H as <-.
      symmetry in Hcmp. apply -> Z.compare_eq_iff in Hcmp.
      unfold td_days. lia.
    - cbn [fst] in H. unfold replace_year in H.
      pose proof (valid_dt_new _ _ _ _ _ _ _ _ H) as V1.
      apply datetime_new_Ok in H as (E1 & D1 & _).
      symmetry in Hcmp. apply -> Z.compare_lt_iff in Hcmp.
      apply check_date_fields_true in D1 as (_ & Hm & _).
      assert (dt_to_delta (now w) < dt_to_delta next) as Hlt.
      { apply dt_lt_delta; [done..|]. apply dt_cmp_year_lt.
        rewrite E1. simpl. lia. }
      subst c0 next. cbn [year month day hour minute second microsecond] in *.
      pose proof (dt_to_delta_next_year (year (now w)) (month b) (day b)
                    h mi 0 (microsecond b) Hm) as Hyear.
      unfold td_days in *. lia.
    - cbn [fst] in H. injection H as <-.
      symmetry in Hcmp. apply -> Z.compare_gt_iff in Hcmp.
      apply valid_dt_true in Vn as (Dn & Hh & Hm & Hs & Hu).
      pose proof (dt_to_delta_bounds _ _ _ _ _ _ _ D0 T0) as B0.
      rewrite <-E0 in B0.
      assert (_check_time_fields (hour (now w)) (minute (now w))
                (second (now w)) (microsecond (now w)) = true) as Tn.
      { unfold _check_time_fields.
        repeat (apply andb_true_iff; split); lia. }
      pose proof (dt_to_delta_bounds _ _ _ _ _ _ _ Dn Tn) as Bn.
      destruct (now w) as [ny nm nd nh nmi ns nus]. simpl in *.
      unfold td_days. lia. }
  unfold days_between, td_days in *. Z.div_mod_to_equations. lia.
Qed.

Lemma days_until_next_birthday_witness :
  0 ≤ days_between (mkdt 2024 5 15 9 0 0 0) (now w_anna) ≤ 365.
Proof.
  apply (days_until_next_birthday "15.05.1990" "09:00" w_anna
           (mkdt 2024 5 15 9 0 0 0)).
  - vm_compute. reflexivity.
  - vm_compute. reflexivity.
Defined.

(** ** The year after the next birthday *)

Lemma get_next_birthday_fields birthdate_str reminder_time w next :
  (get_next_birthday birthdate_str reminder_time w).1 = Ok next →
  ∃ b h mi y,
    strptime birthdate_str = Ok b
    ∧ parse_hour_minute reminder_time = Ok (h, mi)
    ∧ next = mkdt y (month b) (day b) h mi 0 (microsecond b)
    ∧ valid_dt next = true.
Proof.
  rewrite get_next_birthday_eq. intros H.
  destruct (strptime birthdate_str) as [b|] eqn:Hb; [|done].
  destruct (parse_hour_minute reminder_time) as [[h mi]|]; [|done].
  unfold replace_year_time in H.
  destruct (datetime_new (year (now w)) _ _ _ _ _ _) as [c0|] eqn:H0;
    [|done].
  pose proof (valid_dt_new _ _ _ _ _ _ _ _ H0) as V0.
  apply datetime_new_Ok in H0 as (-> & _ & _).
  destruct (dt_ltb _ (now w)).
  - cbn [fst] in H. unfold replace_year in H.
    pose proof (valid_dt_new _ _ _ _ _ _ _ _ H) as V1.
    apply datetime_new_Ok in H as (-> & _ & _).
    by exists b, h, mi, (year (now w) + 1).
  - cbn [fst] in H. injection H as <-.
    by exists b, h, mi, (year (now w)).
Qed.

(** X16: the annual job skips a year.  [schedule_reminders] arms the jobs
    of the next birthday and an annual job one day after the birthday of
    the following year.  When that job fires in time, at an offset to UTC
    that is the one of that following birthday, it runs
    [schedule_reminders], whose [get_next_birthday] then is the occurrence
    two years after the one the jobs were armed for: no job is armed for
    the birthday in between. *)
Theorem annual_job_skips_a_year
    (utcoffset : datetime → timedelta)
    (generate_congrats : datetime → string → string → option string
                         → result string)
    (name birthdate_str : string) (chat_id : Z) (reminder_time : string)
    (telegram_username : option string) (w0 w : World)
    (next_birthday next_year_birthday next_year_utc run_date utcnow
       : datetime) :
  (get_next_birthday birthdate_str reminder_time w0).1 = Ok next_birthday →
  replace_year next_birthday (year next_birthday + 1)
  = Ok next_year_birthday →
  astimezone_utc utcoffset next_year_birthday = Ok next_year_utc →
  dt_add next_year_utc (td_days 1) = Ok run_date →
  scheduler w !! job_id_of chat_id name "annual"
  = Some (mkJob (call_schedule_reminders name birthdate_str chat_id
                   reminder_time telegram_username) run_date) →
  valid_dt (now w) = true →
  utcoffset (now w) = utcoffset next_year_birthday →
  astimezone_utc utcoffset (now w) = Ok utcnow →
  0 ≤ dt_to_delta utcnow - dt_to_delta run_date ≤ misfire_grace_time →
  let w' := with_scheduler (delete (job_id_of chat_id name "annual")) w in
  fire utcoffset generate_congrats (job_id_of chat_id name "annual") w
  = (schedule_reminders utcoffset name birthdate_str chat_id reminder_time
       telegram_username w').2
  ∧ (get_next_birthday birthdate_str reminder_time w').1
    = replace_year next_birthday (year next_birthday + 2).
Proof.
  intros Hnb Hnyb Hutc Hrun Hjob Vn Hoff Hnow Hlate w'.
  split.
  { by rewrite (fire_due utcoffset generate_congrats _ w _ utcnow Hjob Hnow
                  Hlate). }
  apply get_next_birthday_fields in Hnb
    as (b & h & mi & y & Hb & Ht & -> & Vnb).
  unfold replace_year in *.
  cbn [year month day hour minute second microsecond] in *.
  pose proof (valid_dt_new _ _ _ _ _ _ _ _ Hnyb) as Vnyb.
  apply datetime_new_Ok in Hnyb as (-> & Dnyb & Tnyb).
  apply astimezone_utc_delta in Hutc, Hnow.
  apply dt_add_delta in Hrun.
  rewrite Hoff in Hnow.
  unfold misfire_grace_time, td_seconds, td_days in *.
  set (nyb := mkdt (y + 1) (month b) (day b) h mi 0 (microsecond b)) in *.
  assert (dt_to_delta nyb + 86400000000 ≤ dt_to_delta (now w)
          ≤ dt_to_delta nyb + 86400000000 + 1000000) as Hdelta by lia.
  clear Hutc Hnow Hrun Hlate Hoff Hjob.
  assert (year (now w) = y + 1 ∨ year (now w) = y + 2) as Hyear.
  { destruct (Z.le_gt_cases (year (now w)) y) as [Hle|Hgt].
    - assert (dt_to_delta (now w) < dt_to_delta nyb); [|lia].
      apply dt_lt_delta; [done..|]. apply dt_cmp_year_lt.
      unfold nyb. simpl. lia.
    - destruct (Z.le_gt_cases (y + 3) (year (now w))) as [Hge|]; [|lia].
      exfalso.
      pose proof (dt_to_delta_bounds _ _ _ _ _ _ _ Dnyb Tnyb) as Bnyb.
      fold nyb in Bnyb.
      apply valid_dt_true in Vn as (Dn & Hh & Hm & Hs & Hu).
      assert (_check_time_fields (hour (now w)) (minute (now w))
                (second (now w)) (microsecond (now w)) = true) as Tn.
      { unfold _check_time_fields.
        repeat (apply andb_true_iff; split); lia. }
      pose proof (dt_to_delta_bounds _ _ _ _ _ _ _ Dn Tn) as Bn.
      pose proof (days_before_year_mono (y + 3) (year (now w)) Hge) as Hmono.
      pose proof (days_before_year_succ (y + 1)) as S1.
      pose proof (days_before_year_succ (y + 1 + 1)) as S2.
      replace (y + 1 + 1 + 1) with (y + 3) in S2 by lia.
      destruct (now w) as [ny nm nd nh nmi ns nus]. simpl in *.
      destruct (_is_leap (y + 1)), (_is_leap (y + 1 + 1)); lia. }
  rewrite get_next_birthday_eq, Hb, Ht. unfold replace_year_time.
  change (now w') with (now w).
  destruct Hyear as [Ey|Ey]; rewrite Ey.
  - unfold datetime_new at 1. rewrite Dnyb, Tnyb. cbn [andb]. fold nyb.
    assert (dt_ltb nyb (now w) = true) as ->.
    { unfold dt_ltb. rewrite (dt_cmp_delta nyb (now w) Vnyb Vn).
      by rewrite (proj2 (Z.compare_lt_iff _ _)) by lia. }
    cbn [fst]. unfold replace_year, nyb.
    cbn [year month day hour minute second microsecond].
    by replace (y + 1 + 1) with (y + 2) by lia.
  - destruct (datetime_new (y + 2) _ _ _ _ _ _) as [c|e] eqn:Hc; [|done].
    pose proof (valid_dt_new _ _ _ _ _ _ _ _ Hc) as Vc.
    apply datetime_new_Ok in Hc as (-> & Dc & _).
    apply check_date_fields_true in Dc as (_ & Hm & _).
    pose proof (dt_to_delta_next_year (y + 1) (month b) (day b) h mi 0
                  (microsecond b) Hm) as Hnext.
    replace (y + 1 + 1) with (y + 2) in Hnext by lia. fold nyb in Hnext.
    unfold td_days in Hnext.
    match goal with
    | |- context [dt_ltb ?c (now w)] =>
        assert (dt_ltb c (now w) = false) as ->; [|done]
    end.
    unfold dt_ltb. rewrite dt_cmp_delta by done.
    destruct (Z.compare_spec
                (dt_to_delta
                   (mkdt (y + 2) (month b) (day b) h mi 0 (microsecond b)))
                (dt_to_delta (now w))); [done|lia|done].
Qed.

Lemma annual_job_skips_a_year_witness :
  let w' := with_scheduler (delete (job_id_of 42 "Anna" "annual"))
              w_year_later in
  fire msk plain_congrats (job_id_of 42 "Anna" "annual") w_year_later
  = (schedule_reminders msk "Anna" "15.05.1990" 42 "09:00" None w').2
  ∧ (get_next_birthday "15.05.1990" "09:00" w').1
    = replace_year (mkdt 2024 5 15 9 0 0 0) (year (mkdt 2024 5 15 9 0 0 0) + 2).
Proof.
  apply (annual_job_skips_a_year msk plain_congrats "Anna" "15.05.1990" 42
           "09:00" None w_anna w_year_later
           (mkdt 2024 5 15 9 0 0 0) (mkdt 2025 5 15 9 0 0 0)
           (mkdt 2025 5 15 6 0 0 0) (mkdt 2025 5 16 6 0 0 0)
           (mkdt 2025 5 16 6 0 0 0)).
  - vm_compute. reflexivity.
  - vm_compute. reflexivity.
  - vm_compute. reflexivity.
  - vm_compute. reflexivity.
  - vm_compute. reflexivity.
  - vm_compute. reflexivity.
  - reflexivity.
  - vm_compute. reflexivity.
  - vm_compute. split; discriminate.
Defined.

(** ** Adding a subscription *)

Lemma get_next_birthday_leap_day birthdate_str reminder_time w b :
  strptime birthdate_str = Ok b → month b = 2 → day b = 29 →
  _is_leap (year (now w)) = false →
  get_next_birthday birthdate_str reminder_time w = (Raise ValueError, w).
Proof.
  intros Hb Hm Hd Hleap. rewrite get_next_birthday_eq, Hb.
  destruct (parse_hour_minute reminder_time) as [[h mi]|e] eqn:Ht.
  - unfold replace_year_time, datetime_new.
    by rewrite Hm, Hd, (check_leap_day _ Hleap).
  - by apply parse_hour_minute_raises in Ht as ->.
Qed.

Lemma schedule_reminders_leap_day_raises
    utcoffset name birthdate_str chat_id reminder_time telegram_username w
    row b :
  fetchone (by_name_chat name chat_id) (db w) = Some row →
  strptime birthdate_str = Ok b → month b = 2 → day b = 29 →
  _is_leap (year (now w)) = false →
  schedule_reminders utcoffset name birthdate_str chat_id reminder_time
    telegram_username w = (Raise ValueError, w).
Proof.
  intros Hrow Hb Hm Hd Hleap. unfold schedule_reminders.
  rewrite bind_run, gets_run. cbv beta iota. rewrite Hrow.
  by rewrite bind_run, (get_next_birthday_leap_day _ _ _ b).
Qed.

Section Adding.

Variable utcoffset : datetime → timedelta.
Hypothesis utcoffset_bound :
  ∀ dt, - 86400000000 < utcoffset dt < 86400000000.

(** X17: a confirmed subscription under a new name.  The row is stored
    with the three flags set, its jobs are armed on top of the pending
    ones, and one message with the days until the next birthday is sent. *)
Theorem process_confirm_adds
    (message : Message) (user_data : AddData) (w : World)
    (b : datetime) (h mi : Z) :
  let name := a_name user_data in
  let chat_id := m_chat_id message in
  let row :=
    mkRow (m_from_user_id message) chat_id name (a_birthdate user_data)
      (a_description user_data) (a_telegram_username user_data)
      (a_reminder_time user_data) 1 1 1 in
  m_text message = "✅ Да, сохранить" →
  fetchone (by_name_chat name chat_id) (db w) = None →
  strptime (a_birthdate user_data) = Ok b →
  ¬ (month b = 2 ∧ day b = 29) →
  parse_hour_minute (a_reminder_time user_data) = Ok (h, mi) →
  0 ≤ h ≤ 23 → 0 ≤ mi ≤ 59 →
  2 ≤ year (now w) ≤ 9990 →
  ids_free chat_id name (scheduler w) →
  ∃ next_birthday utc_3d utc_1d birthday_utc congrats_time annual_time,
    get_next_birthday (a_birthdate user_data) (a_reminder_time user_data) w
    = (Ok next_birthday, w)
    ∧ process_confirm utcoffset message user_data w
      = (Ok None,
         mkWorld (db w ++ [row])
           (armed_jobs name (a_birthdate user_data) chat_id
              (a_reminder_time user_data) (a_telegram_username user_data)
              row utc_3d utc_1d birthday_utc congrats_time annual_time
              (scheduler w))
           (now w)
           (outbox w ++
            [(chat_id,
              "🎉 День рождения " +:+ name +:+ " добавлен!" +:+ nl
              +:+ "⏰ Напоминания: " +:+ a_reminder_time user_data
              +:+ " МСК" +:+ nl +:+ "📆 Следующий ДР: через "
              +:+ pretty (days_between next_birthday (now w))
              +:+ " дней")])).
Proof.
  intros name chat_id row Htext Hnone Hb Hne Ht Hh Hmi Hy Hfree.
  set (w1 := with_db (λ t, t ++ [row]) w).
  assert (fetchone (by_name_chat name chat_id) (db w1) = Some row) as Hrow.
  { apply fetchone_app_new; [done|].
    unfold by_name_chat, row. simpl. by rewrite !bool_decide_eq_true_2. }
  destruct (schedule_reminders_armed utcoffset utcoffset_bound name
              (a_birthdate user_data) chat_id (a_reminder_time user_data)
              (a_telegram_username user_data) w1 row b h mi Hrow Hb Hne Ht
              Hh Hmi Hy)
    as (nb & r3 & u3 & r1 & u1 & bu & ct & ny & nu & at_
        & Hnb & E3 & G3 & E1 & G1 & Gb & Ec & En & Gn & Ea & Hrun).
  specialize (Hrun (scheduler w) Hfree).
  rewrite (with_scheduler_same (λ _, scheduler w) w1) in Hrun by done.
  assert (∀ w2, now w2 = now w →
            get_next_birthday (a_birthdate user_data)
              (a_reminder_time user_data) w2 = (Ok nb, w2)) as Hnb'.
  { intros w2 Hw2.
    rewrite (surjective_pairing (get_next_birthday _ _ _)).
    rewrite get_next_birthday_world.
    rewrite (get_next_birthday_now _ _ _ w1) by done.
    by rewrite Hnb. }
  exists nb, u3, u1, bu, ct, at_. split; [by apply Hnb'|].
  unfold process_confirm. rewrite bool_decide_eq_true_2 by done.
  rewrite bind_run, gets_run. cbv beta iota.
  fold name chat_id. rewrite Hnone.
  rewrite bind_run, modify_run. cbv beta iota.
  fold row w1. rewrite bind_run, Hrun. cbv beta iota.
  rewrite bind_run, Hnb' by done. cbv beta iota.
  rewrite bind_run. unfold get_moscow_now. rewrite gets_run.
  cbv beta iota zeta.
  rewrite bind_run, answer_run. cbv beta iota. rewrite ret_run.
  reflexivity.
Qed.

End Adding.

Lemma process_confirm_adds_witness :
  ∃ next_birthday utc_3d utc_1d birthday_utc congrats_time annual_time,
    get_next_birthday "15.05.1990" "09:00" (with_db (λ _, []) w_anna)
    = (Ok next_birthday, with_db (λ _, []) w_anna)
    ∧ process_confirm msk (mkMessage "✅ Да, сохранить" 7 42)
        (mkAddData "Anna" "15.05.1990" (Some "likes cats") None "09:00")
        (with_db (λ _, []) w_anna)
      = (Ok None,
         mkWorld ([] ++ [anna])
           (armed_jobs "Anna" "15.05.1990" 42 "09:00" None anna
              utc_3d utc_1d birthday_utc congrats_time annual_time ∅)
           (mkdt 2024 5 10 12 0 0 0)
           ([] ++
            [(42,
              "🎉 День рождения " +:+ "Anna" +:+ " добавлен!" +:+ nl
              +:+ "⏰ Напоминания: " +:+ "09:00"
              +:+ " МСК" +:+ nl +:+ "📆 Следующий ДР: через "
              +:+ pretty (days_between next_birthday
                            (mkdt 2024 5 10 12 0 0 0))
              +:+ " дней")])).
Proof.
  apply (process_confirm_adds msk msk_bound
           (mkMessage "✅ Да, сохранить" 7 42)
           (mkAddData "Anna" "15.05.1990" (Some "likes cats") None "09:00")
           (with_db (λ _, []) w_anna) (mkdt 1990 5 15 0 0 0 0) 9 0).
  - reflexivity.
  - reflexivity.
  - vm_compute. reflexivity.
  - simpl. lia.
  - vm_compute. reflexivity.
  - lia.
  - lia.
  - simpl. lia.
  - apply ids_free_empty.
Defined.

(** X18: a subscription for 29 February confirmed in a year that is not a
    leap year.  The row is stored, then arming raises [ValueError]: no job
    is armed and no answer is sent, and the row stays in the table. *)
Theorem process_confirm_leap_day
    (utcoffset : datetime → timedelta)
    (message : Message) (user_data : AddData) (w : World) (b : datetime) :
  m_text message = "✅ Да, сохранить" →
  fetchone (by_name_chat (a_name user_data) (m_chat_id message)) (db w)
  = None →
  strptime (a_birthdate user_data) = Ok b → month b = 2 → day b = 29 →
  _is_leap (year (now w)) = false →
  process_confirm utcoffset message user_data w
  = (Raise ValueError,
     with_db (λ t, t ++
       [mkRow (m_from_user_id message) (m_chat_id message)
          (a_name user_data) (a_birthdate user_data)
          (a_description user_data) (a_telegram_username user_data)
          (a_reminder_time user_data) 1 1 1]) w).
Proof.
  intros Htext Hnone Hb Hm Hd Hleap.
  unfold process_confirm. rewrite bool_decide_eq_true_2 by done.
  rewrite bind_run, gets_run. cbv beta iota. rewrite Hnone.
  rewrite bind_run, modify_run. cbv beta iota.
  rewrite bind_run.
  erewrite schedule_reminders_leap_day_raises; [done| |done..].
  apply fetchone_app_new; [done|].
  unfold by_name_chat. simpl. by rewrite !bool_decide_eq_true_2.
Qed.

Lemma process_confirm_leap_day_witness :
  process_confirm msk (mkMessage "✅ Да, сохранить" 7 42)
    (mkAddData "Lea" "29.02.2000" None None "09:00")
    (with_now (mkdt 2025 5 10 12 0 0 0) w_anna)
  = (Raise ValueError,
     with_db (λ t, t ++ [mkRow 7 42 "Lea" "29.02.2000" None None "09:00" 1 1 1])
       (with_now (mkdt 2025 5 10 12 0 0 0) w_anna)).
Proof.
  apply (process_confirm_leap_day msk (mkMessage "✅ Да, сохранить" 7 42)
           (mkAddData "Lea" "29.02.2000" None None "09:00")
           (with_now (mkdt 2025 5 10 12 0 0 0) w_anna)
           (mkdt 2000 2 29 0 0 0 0)).
  - reflexivity.
  - reflexivity.
  - vm_compute. reflexivity.
  - reflexivity.
  - reflexivity.
  - reflexivity.
Defined.

(** ** Start-up *)

Lemma fetchone_unique table r :
  unique_name_chat table → r ∈ table →
  fetchone (by_name_chat (c_name r) (c_chat_id r)) table = Some r.
Proof.
  unfold unique_name_chat, fetchone.
  induction table as [|r0 table IH]; intros Hu Hin; [by apply elem_of_nil in Hin|].
  simpl in Hu. apply NoDup_cons in Hu as [Hr0 Hu]. simpl.
  apply elem_of_cons in Hin as [->|Hin].
  - unfold by_name_chat. by rewrite !bool_decide_eq_true_2.
  - destruct (by_name_chat (c_name r) (c_chat_id r) r0) eqn:Hp; [|by apply IH].
    exfalso. apply Hr0. unfold by_name_chat in Hp.
    apply andb_true_iff in Hp as [Hn Hc].
    apply bool_decide_eq_true in Hn, Hc. rewrite Hn, Hc.
    apply list_elem_of_fmap. by exists r.
Qed.

Lemma for_each_raises {A} (P : World → Prop) (body : A → M unit) xs x :
  x ∈ xs →
  (∀ y w, P w → P (body y w).2) →
  (∀ w, P w → ∃ e, (body x w).1 = Raise e) →
  ∀ w, P w → ∃ e, (for_each xs body w).1 = Raise e.
Proof.
  intros Hin Hkeep Hraise.
  induction xs as [|y xs IH]; [by apply elem_of_nil in Hin|].
  intros w Hw. simpl. rewrite bind_run.
  apply elem_of_cons in Hin as [<-|Hin].
  - destruct (Hraise w Hw) as [e He].
    destruct (body x w) as [[[]|e'] w1]; simpl in *; [done|by exists e'].
  - specialize (Hkeep y w Hw).
    destruct (body y w) as [[[]|e'] w1]; simpl in *; [|by exists e'].
    by apply IH.
Qed.

(** X19: a row for 29 February stops the start-up in a year that is not a
    leap year: [main] raises while it arms the rows, before the bot starts
    to poll. *)
Theorem main_leap_day_raises
    (utcoffset : datetime → timedelta) (w : World) (r : Row) (b : datetime) :
  r ∈ db w →
  strptime (c_birthdate r) = Ok b → month b = 2 → day b = 29 →
  _is_leap (year (now w)) = false →
  ∃ e, (main utcoffset w).1 = Raise e.
Proof.
  intros Hin Hb Hm Hd Hleap. unfold main.
  rewrite bind_run, gets_run. cbv beta iota.
  apply (for_each_raises (λ w', db w' = db w ∧ now w' = now w) _ _ r);
    [done| | |done].
  - intros y w' [Hdb Hnow].
    destruct (keeps_schedule_reminders utcoffset (c_name y) (c_birthdate y)
                (c_chat_id y) (c_reminder_time y) (c_telegram_username y) w')
      as (Hdb' & Hnow' & _).
    split; congruence.
  - intros w' [Hdb Hnow].
    destruct (fetchone (by_name_chat (c_name r) (c_chat_id r)) (db w'))
      as [row|] eqn:Hrow.
    + exists ValueError.
      erewrite schedule_reminders_leap_day_raises; [done..|].
      by rewrite Hnow.
    + exfalso. unfold fetchone in Hrow. rewrite Hdb in Hrow.
      apply list_elem_of_In in Hin.
      apply (find_none _ _ Hrow) in Hin.
      unfold by_name_chat in Hin. by rewrite !bool_decide_eq_true_2 in Hin.
Qed.

Lemma main_leap_day_raises_witness :
  ∃ e, (main msk (mkWorld [anna; mkRow 7 42 "Lea" "29.02.2000" None None
                                    "09:00" 1 1 1]
                    ∅ (mkdt 2025 5 10 12 0 0 0) [])).1 = Raise e.
Proof.
  apply (main_leap_day_raises msk _
           (mkRow 7 42 "Lea" "29.02.2000" None None "09:00" 1 1 1)
           (mkdt 2000 2 29 0 0 0 0)).
  - simpl. apply list_elem_of_further, list_elem_of_here.
  - vm_compute. reflexivity.
  - reflexivity.
  - reflexivity.
  - reflexivity.
Defined.

(** The jobs of a row after arming do not depend on the jobs that were
    pending under other identifiers. *)
Lemma armed_jobs_own name b c t u row d3 d1 dn dc da jobs kind :
  ids_free c name jobs → kind ∈ kinds →
  armed_jobs name b c t u row d3 d1 dn dc da jobs !! job_id_of c name kind
  = armed_jobs name b c t u row d3 d1 dn dc da ∅ !! job_id_of c name kind.
Proof.
  intros Hfree Hk. pose proof (Hfree kind Hk) as Hnone.
  unfold armed_jobs, add_if, kinds in *.
  destruct (truthy (c_remind_day row)), (truthy (c_remind_1_day row)),
    (truthy (c_remind_3_days row));
    repeat (apply elem_of_cons in Hk as [->|Hk];
      [repeat first
         [ rewrite lookup_insert_eq
         | rewrite lookup_insert_ne by (apply job_id_of_ne; discriminate) ];
       by rewrite ?Hnone, ?lookup_empty|]);
    by apply elem_of_nil in Hk.
Qed.

Section StartUp.

Variable utcoffset : datetime → timedelta.
Hypothesis utcoffset_bound :
  ∀ dt, - 86400000000 < utcoffset dt < 86400000000.

Lemma arm_rows (w : World) (done_ todo : list Row) (jobs : gmap string Job) :
  db w = done_ ++ todo →
  unique_name_chat (db w) →
  2 ≤ year (now w) ≤ 9990 →
  (∀ r, r ∈ todo → armable r) →
  (∀ r, r ∈ todo → ids_free (c_chat_id r) (c_name r) jobs) →
  ∃ jobs',
    for_each todo (arm_row utcoffset) (with_scheduler (λ _, jobs) w)
    = (Ok (), with_scheduler (λ _, jobs') w)
    ∧ (∀ job_id,
         (∀ r, r ∈ todo → job_id ∉ five_ids (c_chat_id r) (c_name r)) →
         jobs' !! job_id = jobs !! job_id)
    ∧ (∀ r kind,
         r ∈ todo → kind ∈ kinds →
         jobs' !! job_id_of (c_chat_id r) (c_name r) kind
         = scheduler (arm_row utcoffset r (with_scheduler (λ _, ∅) w)).2
             !! job_id_of (c_chat_id r) (c_name r) kind).
Proof.
  intros Hdb Hu Hy. revert done_ jobs Hdb.
  induction todo as [|r todo IH]; intros done_ jobs Hdb Harm Hfree.
  { exists jobs. split; [done|]. split; [done|].
    intros r kind Hr. by apply elem_of_nil in Hr. }
  assert (r ∈ db w) as Hin.
  { rewrite Hdb. apply elem_of_app. right. left. }
  pose proof (fetchone_unique _ _ Hu Hin) as Hrow.
  destruct (Harm r ltac:(left)) as (b & h & mi & Hb & Hne & Ht & Hh & Hmi).
  destruct (schedule_reminders_armed utcoffset utcoffset_bound (c_name r)
              (c_birthdate r) (c_chat_id r) (c_reminder_time r)
              (c_telegram_username r) w r b h mi Hrow Hb Hne Ht Hh Hmi Hy)
    as (nb & r3 & u3 & r1 & u1 & bu & ct & ny & nu & at_
        & _ & _ & _ & _ & _ & _ & _ & _ & _ & _ & Hrun).
  pose proof (Hrun jobs (Hfree r ltac:(left))) as Hrun1.
  pose proof (Hrun ∅ (ids_free_empty _ _)) as Hrun0.
  set (jobs1 := armed_jobs (c_name r) (c_birthdate r) (c_chat_id r)
                  (c_reminder_time r) (c_telegram_username r) r u3 u1 bu ct
                  at_ jobs) in *.
  assert (∀ job_id, job_id ∉ five_ids (c_chat_id r) (c_name r) →
            jobs1 !! job_id = jobs !! job_id) as Hframe.
  { intros job_id Hout.
    pose proof (keeps_schedule_reminders utcoffset (c_name r)
                  (c_birthdate r) (c_chat_id r) (c_reminder_time r)
                  (c_telegram_username r) (with_scheduler (λ _, jobs) w))
      as (_ & _ & _ & _ & Hother).
    rewrite Hrun1 in Hother. by apply Hother. }
  assert (∀ r', r' ∈ todo →
            (c_chat_id r', c_name r') ≠ (c_chat_id r, c_name r)) as Hkeys.
  { intros r' Hr' Heq. unfold unique_name_chat in Hu.
    rewrite Hdb, map_app in Hu. apply NoDup_app in Hu as (_ & _ & Hu).
    simpl in Hu. apply NoDup_cons in Hu as [Hu _]. apply Hu.
    apply list_elem_of_fmap. exists r'. split; [|done]. congruence. }
  destruct (IH (done_ ++ [r]) jobs1) as (jobs' & Hloop & Hout & Hown).
  { by rewrite <-app_assoc. }
  { intros r' Hr'. apply Harm. by right. }
  { intros r' Hr' kind Hkind. rewrite Hframe; [by apply Hfree; [right|]|].
    apply five_ids_other; [by apply Hkeys|done]. }
  exists jobs'. split; [|split].
  - simpl. rewrite bind_run. unfold arm_row at 1. rewrite Hrun1.
    cbv beta iota. by rewrite <-Hloop.
  - intros job_id Hnot. rewrite Hout.
    + apply Hframe, Hnot. left.
    + intros r' Hr'. apply Hnot. by right.
  - intros r' kind Hr' Hkind. apply elem_of_cons in Hr' as [->|Hr'].
    + rewrite Hout.
      * unfold arm_row. rewrite Hrun0. cbn [snd scheduler with_scheduler].
        apply armed_jobs_own; [by apply Hfree; left|done].
      * intros r' Hr'. apply five_ids_other; [|done].
        intros Heq. by apply (Hkeys r' Hr').
    + by apply Hown.
Qed.

(** X20: start-up arms every row.  From an empty job store, if no two rows
    have the same name in the same chat and every row can be armed, [main]
    returns, leaves the table, the clock and the sent messages as they
    are, gives every row the jobs that arming it alone gives, and adds no
    other job. *)
Theorem main_arms_every_row (w : World) :
  scheduler w = ∅ →
  unique_name_chat (db w) →
  2 ≤ year (now w) ≤ 9990 →
  (∀ r, r ∈ db w → armable r) →
  ∃ jobs,
    main utcoffset w = (Ok (), with_scheduler (λ _, jobs) w)
    ∧ (∀ r kind,
         r ∈ db w → kind ∈ kinds →
         jobs !! job_id_of (c_chat_id r) (c_name r) kind
         = scheduler (arm_row utcoffset r w).2
             !! job_id_of (c_chat_id r) (c_name r) kind)
    ∧ (∀ job_id,
         (∀ r, r ∈ db w → job_id ∉ five_ids (c_chat_id r) (c_name r)) →
         jobs !! job_id = None).
Proof.
  intros Hs Hu Hy Harm.
  assert (with_scheduler (λ _, ∅) w = w) as Hw.
  { destruct w as [d s n o]. simpl in Hs. by subst s. }
  destruct (arm_rows w [] (db w) ∅ eq_refl Hu Hy Harm) as (jobs & Hrun & Hout & Hown).
  { intros r _. apply ids_free_empty. }
  rewrite Hw in Hrun, Hown.
  exists jobs. split; [|split].
  - unfold main. rewrite bind_run, gets_run. cbv beta iota. apply Hrun.
  - apply Hown.
  - intros job_id Hnot. rewrite Hout by done. apply lookup_empty.
Qed.

End StartUp.

Lemma main_arms_every_row_witness :
  ∃ jobs,
    main msk w_anna = (Ok (), with_scheduler (λ _, jobs) w_anna)
    ∧ (∀ r kind,
         r ∈ db w_anna → kind ∈ kinds →
         jobs !! job_id_of (c_chat_id r) (c_name r) kind
         = scheduler (arm_row msk r w_anna).2
             !! job_id_of (c_chat_id r) (c_name r) kind)
    ∧ (∀ job_id,
         (∀ r, r ∈ db w_anna → job_id ∉ five_ids (c_chat_id r) (c_name r)) →
         jobs !! job_id = None).
Proof.
  apply (main_arms_every_row msk msk_bound w_anna).
  - reflexivity.
  - unfold unique_name_chat. simpl. apply NoDup_singleton.
  - simpl. lia.
  - intros r Hr. apply list_elem_of_singleton in Hr as ->.
    exists (mkdt 1990 5 15 0 0 0 0), 9, 0.
    split; [vm_compute; reflexivity|]. split; [simpl; lia|].
    split; [vm_compute; reflexivity|]. lia.
Defined.

(** ** Listing *)

Lemma map_M_raises {A B} (f : A → M B) xs x w :
  x ∈ xs →
  (∀ y, (f y w).2 = w) →
  (∃ e, (f x w).1 = Raise e) →
  ∃ e, map_M f xs w = (Raise e, w).
Proof.
  intros Hin Hw [e He].
  induction xs as [|y xs IH]; [by apply elem_of_nil in Hin|].
  simpl. rewrite bind_run.
  apply elem_of_cons in Hin as [<-|Hin].
  - specialize (Hw x). destruct (f x w) as [[?|e'] w1]; simpl in *; [done|].
    subst w1. by exists e'.
  - specialize (Hw y). destruct (f y w) as [[?|e'] w1]; simpl in *; subst w1;
      [|by exists e'].
    destruct (IH Hin) as [e' He']. exists e'.
    by rewrite bind_run, He'.
Qed.

Lemma map_M_returns {A B} (f : A → M B) xs w :
  (∀ x, x ∈ xs → ∃ y, f x w = (Ok y, w)) →
  ∃ ys, map_M f xs w = (Ok ys, w) ∧ Forall2 (λ x y, f x w = (Ok y, w)) xs ys.
Proof.
  induction xs as [|x xs IH]; intros H.
  - exists []. split; [done|]. constructor.
  - destruct (H x ltac:(left)) as [y Hy].
    destruct IH as (ys & Hys & Hall). { intros x' Hx'. apply H. by right. }
    exists (y :: ys). split; [|by constructor].
    simpl. rewrite bind_run, Hy. cbv beta iota.
    by rewrite bind_run, Hys.
Qed.

Lemma insert_by_Permutation {A} (key : A → Z) x xs :
  insert_by key x xs ≡ₚ x :: xs.
Proof.
  induction xs as [|y xs IH]; simpl; [done|].
  destruct (key x <=? key y); [done|].
  rewrite IH. apply Permutation_swap.
Qed.

Lemma sort_by_Permutation {A} (key : A → Z) xs : sort_by key xs ≡ₚ xs.
Proof.
  induction xs as [|x xs IH]; simpl; [done|].
  unfold sort_by in *. simpl. rewrite insert_by_Permutation. by rewrite IH.
Qed.

Lemma insert_by_Sorted {A} (key : A → Z) x xs :
  StronglySorted (λ a b, key a ≤ key b) xs →
  StronglySorted (λ a b, key a ≤ key b) (insert_by key x xs).
Proof.
  induction xs as [|y xs IH]; intros Hs; simpl.
  - constructor; [constructor|constructor].
  - apply StronglySorted_inv in Hs as [Hs Hy].
    destruct (Z.leb_spec (key x) (key y)).
    + constructor; [by constructor|].
      constructor; [done|]. eapply Forall_impl; [exact Hy|].
      simpl. intros. lia.
    + constructor; [by apply IH|].
      rewrite insert_by_Permutation. constructor; [lia|done].
Qed.

Lemma sort_by_Sorted {A} (key : A → Z) xs :
  StronglySorted (λ a b, key a ≤ key b) (sort_by key xs).
Proof.
  induction xs as [|x xs IH]; [constructor|].
  unfold sort_by in *. simpl. by apply insert_by_Sorted.
Qed.

Lemma for_each_answer {A} message (body : A → M unit) (text : A → string)
    xs w :
  (∀ x w, body x w = answer message (text x) w) →
  for_each xs body w
  = (Ok (),
     with_outbox (λ o, o ++ map (λ x, (m_chat_id message, text x)) xs) w).
Proof.
  intros Hbody. revert w. induction xs as [|x xs IH]; intros w; simpl.
  - rewrite ret_run. destruct w. unfold with_outbox. simpl.
    by rewrite app_nil_r.
  - rewrite bind_run, Hbody, answer_run. cbv beta iota. rewrite IH.
    destruct w. unfold with_outbox. simpl. by rewrite <-app_assoc.
Qed.

Section Listing.

Variable order_by_month_day : list Row → list Row.
Hypothesis order_by_Permutation : ∀ rows, order_by_month_day rows ≡ₚ rows.

Lemma list_entry_world r w : (list_entry r w).2 = w.
Proof.
  unfold list_entry, get_moscow_now.
  rewrite bind_run, gets_run. cbv beta iota. rewrite bind_run.
  pose proof (get_next_birthday_world (c_birthdate r) (c_reminder_time r) w)
    as Hw.
  destruct (get_next_birthday _ _ w) as [[nb|e] w1]; simpl in *; subst w1;
    [|done].
  rewrite bind_run, lift_run. by destruct (calculate_age_on_date _ _).
Qed.

Lemma list_rows_elem message w r :
  r ∈ db w → c_user_id r = m_from_user_id message →
  r ∈ order_by_month_day
        (List.filter (by_user (m_from_user_id message)) (db w)).
Proof.
  intros Hin Hu. rewrite order_by_Permutation.
  apply list_elem_of_In, filter_In. split; [by apply list_elem_of_In|].
  unfold by_user. by apply bool_decide_eq_true.
Qed.

Lemma cmd_list_run message w r rows :
  order_by_month_day (List.filter (by_user (m_from_user_id message)) (db w))
  = r :: rows →
  cmd_list order_by_month_day message w
  = (let w1 :=
       with_outbox (λ o, o ++ [(m_chat_id message,
                                "📋 <b>Ваши дни рождения:</b>")]) w in
     match map_M list_entry (r :: rows) w1 with
     | (Ok entries, w2) =>
         for_each (sort_by (λ x, x.1.2) entries)
           (λ '(r, days_until, age),
              answer message (list_text r days_until age)) w2
     | (Raise e, w2) => (Raise e, w2)
     end).
Proof.
  intros Hrows. unfold cmd_list.
  rewrite bind_run, gets_run. cbv beta iota. rewrite Hrows.
  rewrite bind_run. unfold get_moscow_now at 1. rewrite gets_run.
  cbv beta iota. rewrite bind_run, answer_run. cbv beta iota zeta.
  rewrite bind_run.
  set (w1 := with_outbox _ w).
  assert (∀ xs,
            map_M (λ r0,
              get_next_birthday (c_birthdate r0) (c_reminder_time r0)
              ≫= λ next_birthday,
                   lift (calculate_age_on_date (c_birthdate r0) next_birthday)
                   ≫= λ age_on_birthday,
                        mret (r0, days_between next_birthday (now w),
                              age_on_birthday)) xs w1
            = map_M list_entry xs w1) as ->; [|done].
  assert (∀ r0 w2, now w2 = now w →
            (get_next_birthday (c_birthdate r0) (c_reminder_time r0)
              ≫= λ next_birthday,
                   lift (calculate_age_on_date (c_birthdate r0) next_birthday)
                   ≫= λ age_on_birthday,
                        mret (r0, days_between next_birthday (now w),
                              age_on_birthday)) w2
            = list_entry r0 w2) as Hbody.
  { intros r0 w2 Hnow. unfold list_entry, get_moscow_now at 1.
    rewrite (bind_run (gets now)), gets_run. cbv beta iota.
    by rewrite Hnow. }
  intros xs. induction xs as [|x xs IH]; [done|].
  cbn [map_M]. rewrite bind_run, Hbody by done.
  rewrite (bind_run (list_entry x)).
  pose proof (list_entry_world x w1) as Hw.
  destruct (list_entry x w1) as [[y|e] w2]; simpl in Hw; subst w2; [|done].
  by rewrite (bind_run (map_M _ xs)), IH.
Qed.

(** X21: one row for 29 February spoils the list in a year that is not a
    leap year.  If the user of the message has such a row, [cmd_list]
    raises after the heading: no birthday of the user is listed. *)
Theorem cmd_list_leap_day
    (message : Message) (w : World) (r : Row) (b : datetime) :
  r ∈ db w → c_user_id r = m_from_user_id message →
  strptime (c_birthdate r) = Ok b → month b = 2 → day b = 29 →
  _is_leap (year (now w)) = false →
  ∃ e,
    cmd_list order_by_month_day message w
    = (Raise e,
       with_outbox (λ o, o ++ [(m_chat_id message,
                                "📋 <b>Ваши дни рождения:</b>")]) w).
Proof.
  intros Hin Hu Hb Hm Hd Hleap.
  pose proof (list_rows_elem message w r Hin Hu) as Hr.
  destruct (order_by_month_day _) as [|r0 rows] eqn:Hrows;
    [by apply elem_of_nil in Hr|].
  rewrite (cmd_list_run message w r0 rows Hrows). cbv zeta.
  set (w1 := with_outbox _ w).
  destruct (map_M_raises list_entry (r0 :: rows) r w1 Hr) as [e He].
  - intros y. apply list_entry_world.
  - exists ValueError. unfold list_entry, get_moscow_now.
    rewrite bind_run, gets_run. cbv beta iota. rewrite bind_run.
    by rewrite (get_next_birthday_leap_day _ _ _ b).
  - exists e. by rewrite He.
Qed.

(** X22: the list.  If the next birthday of every row of the user can be
    computed, [cmd_list] sends the heading and then one message for each of
    these rows, those with fewer days until the birthday first; nothing
    else changes. *)
Theorem cmd_list_sorted (message : Message) (w : World) (r0 : Row) :
  r0 ∈ db w → c_user_id r0 = m_from_user_id message →
  (∀ r, r ∈ db w → c_user_id r = m_from_user_id message →
        ∃ e, list_entry r w = (Ok e, w)) →
  ∃ entries,
    cmd_list order_by_month_day message w
    = (Ok (),
       with_outbox (λ o,
         o ++ (m_chat_id message, "📋 <b>Ваши дни рождения:</b>")
              :: map (λ '(r, days_until, age),
                        (m_chat_id message, list_text r days_until age))
                   entries) w)
    ∧ StronglySorted (λ x y, x.1.2 ≤ y.1.2) entries
    ∧ map (λ x, x.1.1) entries
      ≡ₚ List.filter (by_user (m_from_user_id message)) (db w)
    ∧ ∀ x, x ∈ entries → list_entry x.1.1 w = (Ok x, w).
Proof.
  intros Hin0 Hu0 Hall.
  pose proof (list_rows_elem message w r0 Hin0 Hu0) as Hr0.
  destruct (order_by_month_day _) as [|r1 rows] eqn:Hrows;
    [by apply elem_of_nil in Hr0|].
  rewrite (cmd_list_run message w r1 rows Hrows). cbv zeta.
  set (w1 := with_outbox _ w).
  assert (∀ r e, list_entry r w = (Ok e, w) → list_entry r w1 = (Ok e, w1))
    as Hw1.
  { intros r e. unfold list_entry, get_moscow_now.
    rewrite !(bind_run (gets now)), !gets_run. cbv beta iota.
    rewrite !bind_run.
    rewrite (surjective_pairing (get_next_birthday _ _ w)).
    rewrite (surjective_pairing (get_next_birthday _ _ w1)).
    rewrite !get_next_birthday_world.
    rewrite (get_next_birthday_now _ _ w1 w) by done.
    destruct (get_next_birthday _ _ w).1; [|done].
    rewrite !bind_run, !lift_run.
    destruct (calculate_age_on_date _ _); [|done].
    rewrite !ret_run. by intros [= <-]. }
  assert (∀ r e, list_entry r w1 = (Ok e, w1) → list_entry r w = (Ok e, w))
    as Hw.
  { intros r e. unfold list_entry, get_moscow_now.
    rewrite !(bind_run (gets now)), !gets_run. cbv beta iota.
    rewrite !bind_run.
    rewrite (surjective_pairing (get_next_birthday _ _ w)).
    rewrite (surjective_pairing (get_next_birthday _ _ w1)).
    rewrite !get_next_birthday_world.
    rewrite (get_next_birthday_now _ _ w1 w) by done.
    destruct (get_next_birthday _ _ w).1; [|done].
    rewrite !bind_run, !lift_run.
    destruct (calculate_age_on_date _ _); [|done].
    rewrite !ret_run. by intros [= <-]. }
  destruct (map_M_returns list_entry (r1 :: rows) w1) as (ys & Hys & Hall2).
  { intros r Hr. rewrite <-Hrows, order_by_Permutation in Hr.
    apply list_elem_of_In, filter_In in Hr as [Hr Hu].
    apply list_elem_of_In in Hr. apply bool_decide_eq_true in Hu.
    destruct (Hall r Hr Hu) as [e He]. exists e. by apply Hw1. }
  rewrite Hys.
  exists (sort_by (λ x, x.1.2) ys).
  assert (∀ x, x ∈ ys → list_entry x.1.1 w = (Ok x, w)) as Hentries.
  { intros x Hx. apply list_elem_of_lookup in Hx as [i Hi].
    destruct (Forall2_lookup_r _ _ _ _ _ Hall2 Hi) as (r & _ & Hr).
    apply Hw in Hr as Hr'.
    assert (x.1.1 = r) as ->; [|done].
    revert Hr'. unfold list_entry, get_moscow_now.
    rewrite bind_run, gets_run. cbv beta iota. rewrite bind_run.
    destruct (get_next_birthday _ _ w) as [[?|?] ?]; [|done].
    rewrite bind_run, lift_run.
    destruct (calculate_age_on_date _ _); [|done].
    rewrite ret_run. by intros [= <-]. }
  split; [|split; [|split]].
  - rewrite (for_each_answer message _
               (λ x, let '(r, days_until, age) := x in
                     list_text r days_until age))
      by (by intros [[r d0] a] w2).
    unfold w1. destruct w as [d s n o]. unfold with_outbox. simpl.
    rewrite <-app_assoc. simpl. do 4 f_equal.
    apply map_ext. by intros [[r d0] a].
  - apply sort_by_Sorted.
  - rewrite sort_by_Permutation, <-(order_by_Permutation (List.filter _ _)),
      Hrows.
    clear -Hall2 Hw.
    induction Hall2 as [|r y rs ys Hy _ IH]; [done|].
    simpl. rewrite IH. 
    assert (y.1.1 = r) as ->; [|done].
    apply Hw in Hy. revert Hy. unfold list_entry, get_moscow_now.
    rewrite bind_run, gets_run. cbv beta iota. rewrite bind_run.
    destruct (get_next_birthday _ _ w) as [[?|?] ?]; [|done].
    rewrite bind_run, lift_run.
    destruct (calculate_age_on_date _ _); [|done].
    rewrite ret_run. by intros [= <-].
  - intros x Hx. apply Hentries. by rewrite <-(sort_by_Permutation (λ x, x.1.2)).
Qed.

End Listing.

Lemma cmd_list_leap_day_witness :
  ∃ e,
    cmd_list (λ rows, rows) (mkMessage "/list" 7 42)
      (mkWorld [anna; mkRow 7 42 "Lea" "29.02.2000" None None "09:00" 1 1 1]
         ∅ (mkdt 2025 5 10 12 0 0 0) [])
    = (Raise e,
       with_outbox (λ o, o ++ [(42, "📋 <b>Ваши дни рождения:</b>")])
         (mkWorld [anna; mkRow 7 42 "Lea" "29.02.2000" None None "09:00" 1 1 1]
            ∅ (mkdt 2025 5 10 12 0 0 0) [])).
Proof.
  apply (cmd_list_leap_day (λ rows, rows) (λ rows, reflexivity rows)
           (mkMessage "/list" 7 42) _
           (mkRow 7 42 "Lea" "29.02.2000" None None "09:00" 1 1 1)
           (mkdt 2000 2 29 0 0 0 0)).
  - simpl. apply list_elem_of_further, list_elem_of_here.
  - reflexivity.
  - vm_compute. reflexivity.
  - reflexivity.
  - reflexivity.
  - reflexivity.
Defined.

Lemma cmd_list_sorted_witness :
  ∃ entries,
    cmd_list (λ rows, rows) (mkMessage "/list" 7 42) w_anna
    = (Ok (),
       with_outbox (λ o,
         o ++ (42, "📋 <b>Ваши дни рождения:</b>")
              :: map (λ '(r, days_until, age),
                        (42, list_text r days_until age))
                   entries) w_anna)
    ∧ StronglySorted (λ x y, x.1.2 ≤ y.1.2) entries
    ∧ map (λ x, x.1.1) entries ≡ₚ List.filter (by_user 7) (db w_anna)
    ∧ ∀ x, x ∈ entries → list_entry x.1.1 w_anna = (Ok x, w_anna).
Proof.
  apply (cmd_list_sorted (λ rows, rows) (λ rows, reflexivity rows)
           (mkMessage "/list" 7 42) w_anna anna).
  - simpl. apply list_elem_of_here.
  - reflexivity.
  - intros r Hr _. apply list_elem_of_singleton in Hr as ->.
    eexists. vm_compute. reflexivity.
Defined.

(** ** The time of a new subscription *)

(** X23: the dialogue reaches the confirmation only with a time that reads
    as an hour from 0 to 23 and a minute from 0 to 59 and with a birthdate
    whose next occurrence exists.  When [process_time] returns a time, it
    is the stripped text, it is such a time, [get_next_birthday] returns
    for it, and one message is sent; nothing else changes. *)
Theorem process_time_confirms
    (message : Message) (name birthdate : string)
    (description telegram_username : option string) (w w' : World)
    (t : string) :
  process_time message name birthdate description telegram_username w
  = (Ok (Some t), w') →
  t = strip (m_text message)
  ∧ (∃ hour minute,
       parse_hour_minute t = Ok (hour, minute)
       ∧ 0 ≤ hour ≤ 23 ∧ 0 ≤ minute ≤ 59)
  ∧ (∃ next_birthday,
       get_next_birthday birthdate t w = (Ok next_birthday, w))
  ∧ ∃ text, w' = with_outbox (λ o, o ++ [(m_chat_id message, text)]) w.
Proof.
  unfold process_time. cbv zeta.
  destruct (parse_hour_minute (strip (m_text message)))
    as [[hour minute]|e] eqn:Hp; cbn [rbind].
  - destruct (Z.ltb_spec hour 0); cbn [orb];
      [rewrite bind_run, answer_run; by cbv beta iota|].
    destruct (Z.ltb_spec 23 hour); cbn [orb];
      [rewrite bind_run, answer_run; by cbv beta iota|].
    destruct (Z.ltb_spec minute 0); cbn [orb];
      [rewrite bind_run, answer_run; by cbv beta iota|].
    destruct (Z.ltb_spec 59 minute); cbn [orb];
      [rewrite bind_run, answer_run; by cbv beta iota|].
    rewrite bind_run. unfold calculate_age at 1.
    rewrite bind_run, lift_run.
    destruct (strptime birthdate) as [b|]; [|done]. cbv beta iota.
    rewrite bind_run. unfold get_moscow_now at 1. rewrite gets_run.
    cbv beta iota. rewrite ret_run. cbv beta iota.
    rewrite bind_run.
    pose proof (get_next_birthday_world birthdate (strip (m_text message)) w)
      as Hw.
    destruct (get_next_birthday _ _ w) as [[nb|] w1] eqn:Hnb; simpl in Hw;
      subst w1; [|done].
    rewrite bind_run. unfold get_moscow_now. rewrite gets_run.
    cbv beta iota. rewrite bind_run, answer_run. cbv beta iota.
    rewrite ret_run. intros [= <- <-].
    split; [done|]. split; [exists hour, minute; split; [done|lia]|].
    split; [by exists nb|]. by eexists.
  - apply parse_hour_minute_raises in Hp as ->.
    rewrite bind_run, answer_run. by cbv beta iota.
Qed.

Lemma process_time_confirms_witness :
  "09:00" = strip (m_text (mkMessage " 09:00 " 7 42))
  ∧ (∃ hour minute,
       parse_hour_minute "09:00" = Ok (hour, minute)
       ∧ 0 ≤ hour ≤ 23 ∧ 0 ≤ minute ≤ 59)
  ∧ (∃ next_birthday,
       get_next_birthday "15.05.1990" "09:00" w_anna
       = (Ok next_birthday, w_anna))
  ∧ ∃ text,
      (process_time (mkMessage " 09:00 " 7 42) "Anna" "15.05.1990" None None
         w_anna).2
      = with_outbox (λ o, o ++ [(m_chat_id (mkMessage " 09:00 " 7 42), text)])
          w_anna.
Proof.
  apply (process_time_confirms (mkMessage " 09:00 " 7 42) "Anna" "15.05.1990"
           None None w_anna).
  vm_compute. reflexivity.
Defined.

(** X24: the dialogue does not get past the time for a birthdate on
    29 February in a year that is not a leap year: with a valid time
    [process_time] raises [ValueError] and sends nothing. *)
Theorem process_time_leap_day
    (message : Message) (name birthdate : string)
    (description telegram_username : option string) (w : World)
    (b : datetime) (hour minute : Z) :
  parse_hour_minute (strip (m_text message)) = Ok (hour, minute) →
  0 ≤ hour ≤ 23 → 0 ≤ minute ≤ 59 →
  strptime birthdate = Ok b → month b = 2 → day b = 29 →
  _is_leap (year (now w)) = false →
  process_time message name birthdate description telegram_username w
  = (Raise ValueError, w).
Proof.
  intros Hp Hh Hmi Hb Hm Hd Hleap.
  unfold process_time. cbv zeta. rewrite Hp. cbn [rbind].
  destruct (Z.ltb_spec hour 0); [lia|].
  destruct (Z.ltb_spec 23 hour); [lia|].
  destruct (Z.ltb_spec minute 0); [lia|].
  destruct (Z.ltb_spec 59 minute); [lia|]. cbn [orb].
  rewrite bind_run, (calculate_age_run _ _ b Hb). cbv beta iota.
  by rewrite bind_run, (get_next_birthday_leap_day _ _ _ b).
Qed.

Lemma process_time_leap_day_witness :
  process_time (mkMessage "09:00" 7 42) "Lea" "29.02.2000" None None
    (with_now (mkdt 2025 5 10 12 0 0 0) w_anna)
  = (Raise ValueError, with_now (mkdt 2025 5 10 12 0 0 0) w_anna).
Proof.
  apply (process_time_leap_day (mkMessage "09:00" 7 42) "Lea" "29.02.2000"
           None None (with_now (mkdt 2025 5 10 12 0 0 0) w_anna)
           (mkdt 2000 2 29 0 0 0 0) 9 0).
  - vm_compute. reflexivity.
  - lia.
  - lia.
  - vm_compute. reflexivity.
  - reflexivity.
  - reflexivity.
  - reflexivity.
Defined.

(** ** Jobs of other chats *)

Lemma other_chats_same_refl chat_id w : other_chats_same chat_id w w.
Proof. by intros c n k Hc Hk. Qed.

Lemma other_chats_same_trans chat_id w1 w2 w3 :
  other_chats_same chat_id w1 w2 → other_chats_same chat_id w2 w3 →
  other_chats_same chat_id w1 w3.
Proof. intros H1 H2 c n k Hc Hk. by rewrite H2, H1. Qed.

Lemma keeps_chats_answer message text :
  keeps (other_chats_same (m_chat_id message)) (answer message text).
Proof. by intros w c n k Hc Hk. Qed.

Lemma keeps_chats_with_db chat_id f :
  keeps (other_chats_same chat_id) (modify (with_db f)).
Proof. by intros w c n k Hc Hk. Qed.

Lemma keeps_chats_schedule_reminders utcoffset name b chat_id t u :
  keeps (other_chats_same chat_id)
    (schedule_reminders utcoffset name b chat_id t u).
Proof.
  intros w c n k Hc Hk. apply schedule_reminders_other; [congruence|done].
Qed.

Lemma keeps_chats_remove_scheduled_reminders chat_id name :
  keeps (other_chats_same chat_id) (remove_scheduled_reminders chat_id name).
Proof.
  intros w c n k Hc Hk.
  apply remove_scheduled_reminders_other; [congruence|done].
Qed.

Lemma keeps_chats_remove_specific_reminder chat_id name kind :
  kind ∈ kinds →
  keeps (other_chats_same chat_id)
    (remove_specific_reminder chat_id name kind).
Proof.
  intros Hkind w c n k Hc Hk.
  apply remove_specific_reminder_other; [congruence|done|done].
Qed.

Ltac chats_steps :=
  repeat match goal with
  | |- keeps _ (if ?b then _ else _) => destruct b
  | |- keeps _ (let '(_, _) := ?x in _) => destruct x
  | |- keeps _ (match ?x with _ => _ end) => destruct x
  | |- keeps _ (mret _) => apply keeps_ret; apply other_chats_same_refl
  | |- keeps _ (gets _) => apply keeps_gets; apply other_chats_same_refl
  | |- keeps _ get_moscow_now =>
      apply keeps_gets; apply other_chats_same_refl
  | |- keeps _ (_ ≫= _) =>
      apply (keeps_bind _ (other_chats_same_trans _)); [|intros ?]
  | |- keeps _ (modify _) => apply keeps_chats_with_db
  | |- keeps _ (answer _ _) => apply keeps_chats_answer
  | |- keeps _ (get_next_birthday _ _) =>
      apply keeps_get_next_birthday; apply other_chats_same_refl
  | |- keeps _ (schedule_reminders _ _ _ _ _ _) =>
      apply keeps_chats_schedule_reminders
  | |- keeps _ (remove_scheduled_reminders _ _) =>
      apply keeps_chats_remove_scheduled_reminders
  | |- keeps _ (remove_specific_reminder _ _ _) =>
      apply keeps_chats_remove_specific_reminder; unfold kinds;
      repeat constructor
  end.

(** X25: a handler reaches the jobs of the chat of its message only, while
    it deletes the rows of the name in every chat of the user.  After
    [process_confirm], [process_settings_value] and
    [process_confirm_delete] every job of a subscription of another chat
    is as it was; and once the deletion is confirmed, no row of the name
    and the user is left in the table, whatever its chat is. *)
Theorem handlers_keep_jobs_of_other_chats
    (utcoffset : datetime → timedelta) (str_lower : string → string)
    (message : Message) (w : World) :
  (∀ user_data,
     other_chats_same (m_chat_id message) w
       (process_confirm utcoffset message user_data w).2)
  ∧ (∀ user_data,
       other_chats_same (m_chat_id message) w
         (process_settings_value utcoffset str_lower message user_data w).2)
  ∧ (∀ name,
       other_chats_same (m_chat_id message) w
         (process_confirm_delete message name w).2)
  ∧ (∀ name r,
       m_text message = "✅ Да, сохранить" →
       r ∈ db (process_confirm_delete message name w).2 →
       ¬ (c_name r = name ∧ c_user_id r = m_from_user_id message)).
Proof.
  split; [|split; [|split]].
  - intros user_data. revert w.
    change (keeps (other_chats_same (m_chat_id message))
              (process_confirm utcoffset message user_data)).
    unfold process_confirm. chats_steps.
  - intros user_data. revert w.
    change (keeps (other_chats_same (m_chat_id message))
              (process_settings_value utcoffset str_lower message user_data)).
    unfold process_settings_value, settings_time, settings_reminders,
      save_reminders, settings_username.
    cbv zeta. chats_steps.
  - intros name. revert w.
    change (keeps (other_chats_same (m_chat_id message))
              (process_confirm_delete message name)).
    unfold process_confirm_delete. chats_steps.
  - intros name r Htext. unfold process_confirm_delete.
    rewrite bool_decide_eq_true_2 by done.
    rewrite bind_run, modify_run. cbv beta iota.
    rewrite bind_run, remove_scheduled_reminders_run. cbv beta iota.
    rewrite answer_run. cbn [snd db with_outbox with_scheduler with_db].
    intros Hin [Hn Hu].
    apply list_elem_of_In, filter_In in Hin as [_ Hp].
    unfold by_name_user in Hp. by rewrite !bool_decide_eq_true_2 in Hp.
Qed.
